(** * Market-data routing and normalisation layer of memebetsimulator

    A shallow embedding of [backend/services/pump_fun_market_data.py],
    [backend/services/xueqiu_market_data.py],
    [backend/services/market_data.py] and [backend/api/pump_routes.py],
    followed by the properties the specification states about them and by
    further properties of the same code.

    Conventions of the embedding:
    - a Python [str] is a [string]; text is taken to be ASCII, so [upper],
      [lower] and [strip] act on the ASCII letters and the ASCII white space
      only;
    - a Python [float] is a primitive binary64 [float], with IEEE arithmetic;
      a Python [int] is a [Z];
    - a value decoded from an upstream body ([response.json()]) is a [json];
      Python's [None] is [JNull]; the entries of a decoded dictionary have
      distinct keys;
    - an expression that can raise returns an [outcome]; code that talks to an
      upstream runs in [io], which also records the requests it sent;
    - a dictionary with string keys built by the code is a [gmap string _];
    - the cookie jar of a session is the map from the names of its cookies to
      their values; the replies of the upstreams set no cookie;
    - logging has no effect on results and is left out. *)

From Stdlib Require Import ZArith Floats Ascii String.
From stdpp Require Import gmap strings list fin_maps.

(** A decimal literal denotes the nearest binary64, as it does in Python. *)
Set Warnings "-inexact-float".
(** [json] is nested in [list]; its induction principle is not used. *)
Set Warnings "-register-all".

Local Open Scope string_scope.
Local Open Scope list_scope.
Local Open Scope Z_scope.

(** ** The Python runtime the services rely on *)

Module Py.

(** *** Exceptions and outcomes *)

(** A piece of an f-string: literal text or a formatted value. *)
Inductive exn : Type :=
| TypeError
| ValueError
| KeyError
| IndexError
| AttributeError
| OverflowError
| ZeroDivisionError
| RequestException
| HTTPError (status : Z)
| JSONDecodeError
| Exception (message : list fragment)
with fragment : Type :=
| Text (s : string)
| Fmt (s : string)
| FmtFloat (f : float)
| FmtNone
| Cause (e : exn).

Inductive outcome (A : Type) : Type :=
| Ok (a : A)
| Raise (e : exn).
Arguments Ok {A} a.
Arguments Raise {A} e.

Definition obind {A B} (m : outcome A) (k : A -> outcome B) : outcome B :=
  match m with
  | Ok a => k a
  | Raise e => Raise e
  end.

Definition raises {A} (m : outcome A) : Prop :=
  match m with Ok _ => False | Raise _ => True end.

#[global] Instance outcome_ret : MRet outcome := fun _ a => Ok a.
#[global] Instance outcome_bind : MBind outcome := fun _ _ k m => obind m k.
#[global] Instance outcome_fmap : FMap outcome :=
  fun _ _ f m => obind m (fun a => Ok (f a)).

(** *** Strings *)

(** [str.find]: the index of the first occurrence of [sub]. *)
Fixpoint find (sub s : string) : option nat :=
  if String.prefix sub s then Some 0%nat
  else match s with
       | EmptyString => None
       | String _ s' => S <$> find sub s'
       end.

(** [sub in s] *)
Definition contains (sub s : string) : bool := bool_decide (is_Some (find sub s)).

(** [s.split(sep)] for a non-empty [sep]: the pieces between the
    non-overlapping occurrences of [sep], found from the left.  [skip] counts
    the characters of an occurrence still to be passed over. *)
Fixpoint split_from (sep : string) (skip : nat) (cur : string) (s : string)
  : list string :=
  match s with
  | EmptyString => [cur]
  | String c s' =>
      match skip with
      | S k => split_from sep k cur s'
      | O =>
          if String.prefix sep s
          then cur :: split_from sep (String.length sep - 1) "" s'
          else split_from sep 0 (cur +:+ String c "") s'
      end
  end.

Definition split (sep s : string) : list string := split_from sep 0 "" s.

(** [s.split(sep, 1)]: at most one cut, at the first occurrence. *)
Definition split1 (sep s : string) : list string :=
  match find sep s with
  | None => [s]
  | Some i =>
      [ String.substring 0 i s;
        String.substring (i + String.length sep)
          (String.length s - (i + String.length sep)) s ]
  end.

(** White space as [str.strip()] sees it, within ASCII: tab, line feed,
    vertical tab, form feed, carriage return, the four separators 28-31
    and the space. *)
Definition is_space (c : ascii) : bool :=
  let n := nat_of_ascii c in
  ((9 <=? n) && (n <=? 13) || (28 <=? n) && (n <=? 32))%nat.

Fixpoint lstrip (s : string) : string :=
  match s with
  | EmptyString => EmptyString
  | String c s' => if is_space c then lstrip s' else s
  end.

Fixpoint rstrip (s : string) : string :=
  match s with
  | EmptyString => EmptyString
  | String c s' =>
      match rstrip s' with
      | EmptyString => if is_space c then EmptyString else String c EmptyString
      | kept => String c kept
      end
  end.

Definition strip (s : string) : string := rstrip (lstrip s).

Definition upper_ascii (c : ascii) : ascii :=
  let n := nat_of_ascii c in
  if ((97 <=? n) && (n <=? 122))%nat then ascii_of_nat (n - 32) else c.

(** The line feed, written ['\n'] in the source. *)
Definition LF : string := String (ascii_of_nat 10) "".

(** [s.upper()] on ASCII text: the letters a-z are raised, every other
    character is kept. *)
Fixpoint upper (s : string) : string :=
  match s with
  | EmptyString => EmptyString
  | String c s' => String (upper_ascii c) (upper s')
  end.

Definition lower_ascii (c : ascii) : ascii :=
  let n := nat_of_ascii c in
  if ((65 <=? n) && (n <=? 90))%nat then ascii_of_nat (n + 32) else c.

(** [s.lower()] on ASCII text: the letters A-Z are lowered, every other
    character is kept. *)
Fixpoint lower (s : string) : string :=
  match s with
  | EmptyString => EmptyString
  | String c s' => String (lower_ascii c) (lower s')
  end.

(** [sep.join(pieces)] *)
Fixpoint join (sep : string) (pieces : list string) : string :=
  match pieces with
  | [] => ""
  | [piece] => piece
  | piece :: rest => piece +:+ sep +:+ join sep rest
  end.

(** [s.replace(old, new)] for a non-empty [old]: every occurrence found
    from the left, none overlapping another. *)
Definition replace (old new s : string) : string := join new (split old s).

(** [s.startswith(prefix)] and [s.endswith(suffix)] *)
Definition startswith (prefix s : string) : bool := String.prefix prefix s.

Definition endswith (suffix s : string) : bool :=
  (String.length suffix <=? String.length s)%nat
  && String.eqb
       (String.substring (String.length s - String.length suffix)
          (String.length suffix) s)
       suffix.

(** [s.isascii()]: every character is below 128. *)
Fixpoint isascii (s : string) : bool :=
  match s with
  | EmptyString => true
  | String c s' => (nat_of_ascii c <? 128)%nat && isascii s'
  end.

(** *** Numbers *)

(** [float(n)] for an [int]: the nearest binary64, ties to even. *)
Definition float_of_Z (n : Z) : float :=
  SF2Prim (binary_normalize prec emax n 0 false).

(** [a / b] for two [int]s with [b] not zero: the quotient rounded once.
    The quotient is computed with at least 64 significant bits and one more
    bit that records a non-zero remainder, then rounded to nearest. *)
Definition Z_truediv (a b : Z) : float :=
  let n := Z.abs a in
  let d := Z.abs b in
  let k := Z.max 0 (64 + Z.log2 d - Z.log2 n) in
  let q := (n * 2 ^ k) / d in
  let r := (n * 2 ^ k) mod d in
  let m := 2 * q + (if r =? 0 then 0 else 1) in
  let negate := xorb (a <? 0) (b <? 0) in
  SF2Prim (binary_normalize prec emax (if negate then - m else m) (- k - 1) negate).

(** *** Values decoded from JSON *)

Inductive json : Type :=
| JNull
| JBool (b : bool)
| JInt (n : Z)
| JFloat (f : float)
| JStr (s : string)
| JList (l : list json)
| JDict (d : list (string * json)).

(** [d.get(k)] on the entries of a dictionary. *)
Fixpoint assoc (k : string) (d : list (string * json)) : option json :=
  match d with
  | [] => None
  | (k', v) :: d' => if String.eqb k k' then Some v else assoc k d'
  end.

(** [bool(x)] *)
Definition truthy (x : json) : bool :=
  match x with
  | JNull => false
  | JBool b => b
  | JInt n => negb (n =? 0)
  | JFloat f => negb (PrimFloat.eqb f 0)
  | JStr s => negb (String.eqb s "")
  | JList l => match l with [] => false | _ => true end
  | JDict d => match d with [] => false | _ => true end
  end.

(** [x == s] for a string [s] *)
Definition eq_str (s : string) (x : json) : bool :=
  match x with JStr s' => String.eqb s s' | _ => false end.

(** [s in x] for a string [s] *)
Definition py_in (s : string) (x : json) : outcome bool :=
  match x with
  | JDict d => Ok (bool_decide (is_Some (assoc s d)))
  | JList l => Ok (existsb (eq_str s) l)
  | JStr t => Ok (contains s t)
  | _ => Raise TypeError
  end.

(** [x[s]] for a string [s] *)
Definition getitem (x : json) (s : string) : outcome json :=
  match x with
  | JDict d => match assoc s d with Some v => Ok v | None => Raise KeyError end
  | _ => Raise TypeError
  end.

(** [x.get(s, dflt)] *)
Definition get (x : json) (s : string) (dflt : json) : outcome json :=
  match x with
  | JDict d => Ok (default dflt (assoc s d))
  | _ => Raise AttributeError
  end.

(** [len(x)] *)
Definition len (x : json) : outcome nat :=
  match x with
  | JStr s => Ok (String.length s)
  | JList l => Ok (length l)
  | JDict d => Ok (length d)
  | _ => Raise TypeError
  end.

(** [x[i]] for an index [i] that is not negative.  The keys of a decoded
    dictionary are strings, so an integer is never one of them. *)
Definition index (x : json) (i : nat) : outcome json :=
  match x with
  | JList l => match l !! i with Some v => Ok v | None => Raise IndexError end
  | JStr s =>
      match String.get i s with
      | Some c => Ok (JStr (String c ""))
      | None => Raise IndexError
      end
  | JDict _ => Raise KeyError
  | _ => Raise TypeError
  end.

(** The position of the first element of [l] that [p] accepts. *)
Fixpoint position (p : json -> bool) (l : list json) : option nat :=
  match l with
  | [] => None
  | x :: l' => if p x then Some 0%nat else S <$> position p l'
  end.

(** [x.index(s)] for a string [s] *)
Definition index_of (x : json) (s : string) : outcome nat :=
  match x with
  | JList l =>
      match position (eq_str s) l with Some i => Ok i | None => Raise ValueError end
  | JStr t =>
      match find s t with Some i => Ok i | None => Raise ValueError end
  | _ => Raise AttributeError
  end.

Fixpoint chars (s : string) : list json :=
  match s with
  | EmptyString => []
  | String c s' => JStr (String c "") :: chars s'
  end.

(** The elements [for v in x] visits. *)
Definition iter (x : json) : outcome (list json) :=
  match x with
  | JList l => Ok l
  | JStr s => Ok (chars s)
  | JDict d => Ok (map (fun kv => JStr (fst kv)) d)
  | _ => Raise TypeError
  end.

(** [l[:n]] *)
Definition slice_to {A} (l : list A) (n : Z) : list A :=
  if n <? 0 then take (Z.to_nat (Z.of_nat (length l) + n)) l
  else take (Z.to_nat n) l.

(** What the interpreter and the host supply and the services only call:
    the parser behind [float(s)] for a string [s] ([None] when it rejects
    the text), and [datetime.fromtimestamp], whose result depends on the
    local time zone and which fails outside the platform's range. *)
Class Runtime := {
  datetime : Type;
  float_of_str : string -> option float;
  fromtimestamp : float -> outcome datetime
}.

(** A number as the arithmetic sees it: [bool] is a subtype of [int]. *)
Inductive number : Type :=
| NInt (n : Z)
| NFloat (f : float).

Definition as_number (x : json) : option number :=
  match x with
  | JBool b => Some (NInt (Z.b2z b))
  | JInt n => Some (NInt n)
  | JFloat f => Some (NFloat f)
  | _ => None
  end.

(** The conversion of an operand to [float]; an [int] beyond the range of
    binary64 is refused. *)
Definition to_double (n : number) : outcome float :=
  match n with
  | NFloat f => Ok f
  | NInt z =>
      let f := float_of_Z z in
      if PrimFloat.is_infinity f then Raise OverflowError else Ok f
  end.

(** [float(x)] *)
Definition float_ `{Runtime} (x : json) : outcome float :=
  match x with
  | JStr s =>
      match float_of_str s with Some f => Ok f | None => Raise ValueError end
  | _ =>
      match as_number x with
      | Some n => to_double n
      | None => Raise TypeError
      end
  end.

(** [x > 0] *)
Definition gt0 (x : json) : outcome bool :=
  match as_number x with
  | Some (NInt n) => Ok (0 <? n)
  | Some (NFloat f) => Ok (PrimFloat.ltb 0 f)
  | None => Raise TypeError
  end.

(** [a / b] *)
Definition truediv (a b : json) : outcome float :=
  match as_number a, as_number b with
  | Some (NInt x), Some (NInt y) =>
      if y =? 0 then Raise ZeroDivisionError
      else
        let q := Z_truediv x y in
        if PrimFloat.is_infinity q then Raise OverflowError else Ok q
  | Some x, Some y =>
      x ← to_double x;
      y ← to_double y;
      if PrimFloat.eqb y 0 then Raise ZeroDivisionError
      else Ok (PrimFloat.div x y)
  | _, _ => Raise TypeError
  end.

End Py.

(** ** The HTTP session and the outside world *)

Module Requests.
Import Py.

(** A call [session.get(url, params=..., timeout=...)]: its arguments and
    the cookie jar of the session when the call is made, from which the
    library writes the request's cookies. *)
Record request : Type := {
  url : string;
  params : list (string * json);
  cookies : gmap string string;
  timeout : Z
}.

(** What comes back: no response at all ([session.get] raises), or a
    response with its status and its body, which is [None] when the body is
    no JSON document ([response.json()] raises). *)
Inductive reply : Type :=
| Unreachable
| Response (status_code : Z) (body : option json).

(** The world a call runs in: the upstreams' answers and the clock, read as
    [int(time.time() * 1000)], [datetime.now().hour] and
    [datetime.now().isoformat()]. *)
Record world : Type := {
  send : request -> reply;
  time_ms : Z;
  hour : Z;
  isoformat : string
}.

(** A computation that may query the upstreams: it yields the requests it
    sent, in order, and how it ended. *)
Definition io (A : Type) : Type := world -> list request * outcome A.

Definition io_ret {A} (a : A) : io A := fun _ => ([], Ok a).

Definition io_bind {A B} (m : io A) (k : A -> io B) : io B :=
  fun w =>
    match m w with
    | (sent, Ok a) => let '(sent', r) := k a w in (sent ++ sent', r)
    | (sent, Raise e) => (sent, Raise e)
    end.

#[global] Instance io_mret : MRet io := @io_ret.
#[global] Instance io_mbind : MBind io := fun _ _ k m => io_bind m k.

(** [raise e] *)
Definition throw {A} (e : exn) : io A := fun _ => ([], Raise e).

(** An expression of the runtime evaluated inside a computation. *)
Definition lift {A} (o : outcome A) : io A := fun _ => ([], o).

(** [try: m  except Exception as e: h e] *)
Definition try_except {A} (m : io A) (h : exn -> io A) : io A :=
  fun w =>
    match m w with
    | (sent, Ok a) => (sent, Ok a)
    | (sent, Raise e) => let '(sent', r) := h e w in (sent ++ sent', r)
    end.

(** [session.get(...)] *)
Definition session_get (r : request) : io reply :=
  fun w =>
    match send w r with
    | Unreachable => ([r], Raise RequestException)
    | rep => ([r], Ok rep)
    end.

Definition status_of (rep : reply) : Z :=
  match rep with
  | Response s _ => s
  | Unreachable => 0
  end.

(** [response.json()] *)
Definition json_of (rep : reply) : outcome json :=
  match rep with
  | Response _ (Some j) => Ok j
  | _ => Raise JSONDecodeError
  end.

(** [response.raise_for_status()] *)
Definition raise_for_status (rep : reply) : outcome unit :=
  let s := status_of rep in
  if (400 <=? s) && (s <? 600) then Raise (HTTPError s) else Ok tt.

Definition now_ms : io Z := fun w => ([], Ok (time_ms w)).
Definition now_hour : io Z := fun w => ([], Ok (hour w)).
Definition now_isoformat : io string := fun w => ([], Ok (isoformat w)).

(** The requests a computation sends and the way it ends. *)
Definition sent {A} (m : io A) (w : world) : list request := fst (m w).
Definition result {A} (m : io A) (w : world) : outcome A := snd (m w).

(** The double quote, and the backslash followed by a double quote. *)
Definition DQUOTE : string := String (ascii_of_nat 34) "".
Definition ESCAPED_DQUOTE : string := String (ascii_of_nat 92) DQUOTE.

(** [RequestsCookieJar.set_cookie], which every cookie put into a jar goes
    through: a value that starts and ends with a double quote loses every
    backslash followed by a double quote. *)
Definition set_cookie_value (value : string) : string :=
  if startswith DQUOTE value && endswith DQUOTE value
  then replace ESCAPED_DQUOTE "" value
  else value.

(** [session.cookies.update(cookies)] for a dictionary: each pair is stored
    through [set_cookie], under its name (the domain and the path are the
    defaults for all of them); a name the jar holds takes the new value and
    no other name is touched. *)
Definition jar_update (cookies jar : gmap string string) : gmap string string :=
  (set_cookie_value <$> cookies) ∪ jar.

End Requests.

(** ** Cookie strings

    The loop bodies that [PumpFunMarketData._parse_cookie_string] and
    [XueqiuMarketData._parse_cookie_string] share, line for line. *)

Module Cookies.
Import Py.

(** [if '=' in cookie: key, value = cookie.split('=', 1);
     cookies[key.strip()] = value.strip()].
    Unpacking into two names raises [ValueError] unless the split has
    exactly two pieces. *)
Definition add_cookie (cookies : gmap string string) (cookie : string)
  : outcome (gmap string string) :=
  if contains "=" cookie then
    match split1 "=" cookie with
    | [key; value] => Ok (<[strip key := strip value]> cookies)
    | _ => Raise ValueError
    end
  else Ok cookies.

(** [for cookie in entries: ...] over the dictionary built so far.  When an
    iteration raises, the loop stops and the dictionary keeps what the
    earlier iterations stored. *)
Fixpoint for_cookies (entries : list string) (cookies : gmap string string)
  : gmap string string * option exn :=
  match entries with
  | [] => (cookies, None)
  | cookie :: rest =>
      match add_cookie cookies cookie with
      | Ok cookies' => for_cookies rest cookies'
      | Raise e => (cookies, Some e)
      end
  end.

(** The three branches of the parser's [try] block on a string. *)
Definition parse_formats (cookie_string : string)
  : gmap string string * option exn :=
  if contains "; " cookie_string then
    for_cookies (split "; " cookie_string) ∅
  else if contains LF cookie_string then
    for_cookies (map strip (split LF (strip cookie_string))) ∅
  else
    for_cookies [cookie_string] ∅.

End Cookies.

(** ** [backend/services/pump_fun_market_data.py] *)

Module pump_fun_market_data.
Import Py Requests Cookies.

Module PumpFunMarketData.

Definition BASE_URL : string := "https://pump.fun".
Definition API_BASE : string := "https://frontend-api.pump.fun".

(** An instance: the cookies of [self.session] and [self.timeout].  The
    session's headers are the same constants after every set-up and are
    left out. *)
Record t : Type := {
  session_cookies : gmap string string;
  timeout : Z
}.

(** The [try] block of [_parse_cookie_string], with the exception that
    left it, if any. *)
Definition _parse_cookie_string_try (cookie_string : string)
  : gmap string string * option exn :=
  parse_formats cookie_string.

(** [_parse_cookie_string]: the [except] clause logs and the dictionary is
    returned either way. *)
Definition _parse_cookie_string (cookie_string : string) : gmap string string :=
  fst (_parse_cookie_string_try cookie_string).

(** [_setup_session], given the module's [_pump_fun_cookie_string]. *)
Definition _setup_session (cookie_global : option string) (self : t) : t :=
  let cookies :=
    match cookie_global with
    | Some cookie_string =>
        if negb (String.eqb cookie_string "")
        then _parse_cookie_string cookie_string
        else ∅
    | None => ∅
    end in
  {| session_cookies := jar_update cookies (session_cookies self);
     timeout := 30 |}.

(** [__init__]: a fresh session, then [_setup_session]. *)
Definition __init__ (cookie_global : option string) : t :=
  _setup_session cookie_global {| session_cookies := ∅; timeout := 0 |}.

(** [update_cookies] *)
Definition update_cookies (self : t) (cookie_string : string) : t :=
  let new_cookies := _parse_cookie_string cookie_string in
  if bool_decide (new_cookies ≠ ∅)
  then {| session_cookies := jar_update new_cookies (session_cookies self);
          timeout := timeout self |}
  else self.

(** [str(include_nsfw).lower()] *)
Definition str_lower_bool (b : bool) : string := if b then "true" else "false".

(** [_normalize_api_response] *)
Definition _normalize_api_response (data : json) : json :=
  match data with
  | JList _ => data
  | JDict d =>
      match assoc "data" d with
      | Some v => v
      | None =>
          match assoc "coins" d with
          | Some v => v
          | None => JList []
          end
      end
  | _ => JList []
  end.

Definition mock_coin (mint name symbol description : string)
    (usd_market_cap : float) (created last_trade : Z) : json :=
  JDict [ ("mint", JStr mint);
          ("name", JStr name);
          ("symbol", JStr symbol);
          ("description", JStr description);
          ("image_uri", JStr "https://via.placeholder.com/100");
          ("usd_market_cap", JFloat usd_market_cap);
          ("total_supply", JInt 1000000000);
          ("created_timestamp", JInt created);
          ("last_trade_timestamp", JInt last_trade);
          ("nsfw", JBool false);
          ("complete", JBool false) ].

Definition mock_coins : list json :=
  [ mock_coin "11111111111111111111111111111112" "TestCoin" "TEST"
      "A test meme coin for simulation" 100000 1700000000 1700001000;
    mock_coin "22222222222222222222222222222223" "MoonDoge" "MDOGE"
      "Going to the moon with this doge" 250000 1700000100 1700001100;
    mock_coin "33333333333333333333333333333334" "PepeCoin" "PEPE"
      "Rare pepe meme coin" 500000 1700000200 1700001200 ].

(** [_get_mock_coins_data] *)
Definition _get_mock_coins_data (limit : Z) : list json :=
  slice_to mock_coins limit.

(** [get_coins_list] *)
Definition get_coins_list (self : t) (limit offset : Z) (sort order : string)
    (include_nsfw : bool) : io json :=
  try_except
    (let url := API_BASE +:+ "/coins" in
     let params :=
       [ ("offset", JInt offset);
         ("limit", JInt limit);
         ("sort", JStr sort);
         ("order", JStr order);
         ("includeNsfw", JStr (str_lower_bool include_nsfw)) ] in
     response ← session_get {| Requests.url := url;
                               Requests.params := params;
                               Requests.cookies := session_cookies self;
                               Requests.timeout := timeout self |};
     if status_of response =? 200 then
       data ← lift (json_of response);
       mret (_normalize_api_response data)
     else if status_of response =? 530 then
       mret (JList (_get_mock_coins_data limit))
     else
       mret (JList []))
    (fun _ => mret (JList [])).

(** [get_coin_data]; [None] is [JNull]. *)
Definition get_coin_data (self : t) (mint_address : string) : io json :=
  try_except
    (let url := API_BASE +:+ "/coins/" +:+ mint_address in
     response ← session_get {| Requests.url := url;
                               Requests.params := [];
                               Requests.cookies := session_cookies self;
                               Requests.timeout := timeout self |};
     if status_of response =? 200 then lift (json_of response)
     else mret JNull)
    (fun _ => mret JNull).

(** [get_coin_trades] *)
Definition get_coin_trades (self : t) (mint_address : string) (limit offset : Z)
  : io json :=
  try_except
    (let url := API_BASE +:+ "/trades/" +:+ mint_address in
     let params := [ ("limit", JInt limit); ("offset", JInt offset) ] in
     response ← session_get {| Requests.url := url;
                               Requests.params := params;
                               Requests.cookies := session_cookies self;
                               Requests.timeout := timeout self |};
     if status_of response =? 200 then lift (json_of response)
     else mret (JList []))
    (fun _ => mret (JList [])).

(** [_parse_market_cap]: the conversions of the [M] and [K] branches are
    outside the [try]. *)
Definition _parse_market_cap `{Runtime} (text : string) : outcome float :=
  let text := replace "," "" (replace "$" "" (strip text)) in
  if contains "M" text then
    millions ← float_ (JStr (replace "M" "" text));
    Ok (PrimFloat.mul millions 1000000)
  else if contains "K" text then
    thousands ← float_ (JStr (replace "K" "" text));
    Ok (PrimFloat.mul thousands 1000)
  else
    match float_ (JStr text) with
    | Ok value => Ok value
    | Raise _ => Ok 0%float
    end.

(** [_parse_percentage] *)
Definition _parse_percentage `{Runtime} (text : string) : outcome float :=
  let text := replace "+" "" (replace "%" "" (strip text)) in
  match float_ (JStr text) with
  | Ok value => Ok value
  | Raise _ => Ok 0%float
  end.

(** [get_trending_coins], [get_new_coins] and [get_top_by_market_cap] *)
Definition get_trending_coins (self : t) (limit : Z) : io json :=
  get_coins_list self limit 0 "last_trade_timestamp" "DESC" false.

Definition get_new_coins (self : t) (limit : Z) : io json :=
  get_coins_list self limit 0 "created_timestamp" "DESC" false.

Definition get_top_by_market_cap (self : t) (limit : Z) : io json :=
  get_coins_list self limit 0 "market_cap" "DESC" false.

End PumpFunMarketData.

(** The module's globals: [_pump_fun_cookie_string] and [pump_fun_client]. *)
Record globals : Type := {
  _pump_fun_cookie_string : option string;
  pump_fun_client : PumpFunMarketData.t
}.

(** The state after the module is imported. *)
Definition initial : globals :=
  {| _pump_fun_cookie_string := None;
     pump_fun_client := PumpFunMarketData.__init__ None |}.

Definition get_pump_fun_coins (g : globals) (limit : Z) : io json :=
  PumpFunMarketData.get_coins_list (pump_fun_client g) limit 0
    "last_trade_timestamp" "DESC" false.

Definition get_pump_fun_coin (g : globals) (mint_address : string) : io json :=
  PumpFunMarketData.get_coin_data (pump_fun_client g) mint_address.

(** [set_pump_fun_cookie] *)
Definition set_pump_fun_cookie (cookie_string : string) (g : globals) : globals :=
  {| _pump_fun_cookie_string := Some cookie_string;
     pump_fun_client :=
       PumpFunMarketData.update_cookies (pump_fun_client g) cookie_string |}.

(** The price computed from a coin record, when the first [if] of
    [get_last_price_from_pump_fun] returns one. *)
Definition price_of_coin (coin_data : json) : outcome (option float) :=
  has_cap ← (if truthy coin_data then py_in "usd_market_cap" coin_data
             else Ok false);
  if has_cap : bool then
    market_cap ← get coin_data "usd_market_cap" (JInt 0);
    supply ← get coin_data "total_supply" (JInt 1000000000);
    positive ← gt0 supply;
    if positive : bool then Some <$> truediv market_cap supply else Ok None
  else Ok None.

Definition mock_prices : gmap string float :=
  {[ "11111111111111111111111111111112" := 0.0001%float;
     "22222222222222222222222222222223" := 0.00025%float;
     "33333333333333333333333333333334" := 0.0005%float ]}.

(** [get_last_price_from_pump_fun] *)
Definition get_last_price_from_pump_fun (g : globals) (mint_address : string)
  : io float :=
  try_except
    (coin_data ← get_pump_fun_coin g mint_address;
     price ← lift (price_of_coin coin_data);
     match price with
     | Some p => mret p
     | None =>
         match mock_prices !! mint_address with
         | Some p => mret p
         | None => mret 0%float
         end
     end)
    (fun _ => mret 0%float).

End pump_fun_market_data.

(** ** [backend/services/xueqiu_market_data.py] *)

Module xueqiu_market_data.
Import Py Requests Cookies.

Module XueqiuMarketData.

(** An instance: the cookies of [self.session]; the headers are constants. *)
Record t : Type := {
  session_cookies : gmap string string
}.

(** The [try] block of [_parse_cookie_string]; the global it is given at
    set-up may be [None]. *)
Definition _parse_cookie_string_try (cookie_string : option string)
  : gmap string string * option exn :=
  match cookie_string with
  | None => (∅, None)
  | Some cookie_string =>
      if String.eqb cookie_string "" || String.eqb (strip cookie_string) ""
      then (∅, None)
      else parse_formats cookie_string
  end.

(** [_parse_cookie_string] *)
Definition _parse_cookie_string (cookie_string : option string)
  : gmap string string :=
  fst (_parse_cookie_string_try cookie_string).

(** [_setup_session], given the module's [_xueqiu_cookie_string]. *)
Definition _setup_session (cookie_global : option string) (self : t) : t :=
  let cookies := _parse_cookie_string cookie_global in
  {| session_cookies := jar_update cookies (session_cookies self) |}.

(** [__init__] *)
Definition __init__ (cookie_global : option string) : t :=
  _setup_session cookie_global {| session_cookies := ∅ |}.

(** [update_cookies] *)
Definition update_cookies (self : t) (cookie_string : string) : t :=
  let new_cookies := _parse_cookie_string (Some cookie_string) in
  if bool_decide (new_cookies ≠ ∅)
  then {| session_cookies := jar_update new_cookies (session_cookies self) |}
  else self.

(** [x == 0] *)
Definition eq_zero (x : json) : bool :=
  match as_number x with
  | Some (NInt n) => n =? 0
  | Some (NFloat f) => PrimFloat.eqb f 0
  | None => false
  end.

(** The checks [get_kline_data] makes on a decoded body: it is handed on
    when it has a non-empty [data] with a non-empty [item], else [None]. *)
Definition checked_kline (data : json) : outcome json :=
  error_code ← get data "error_code" JNull;
  accepted ← (if eq_zero error_code then Ok true else py_in "data" data);
  if accepted : bool then
    usable ← (has_data ← py_in "data" data;
              if has_data : bool then
                inner ← getitem data "data";
                if truthy inner then
                  item ← get inner "item" JNull;
                  Ok (truthy item)
                else Ok false
              else Ok false);
    if usable : bool then Ok data else Ok JNull
  else Ok JNull.

(** [get_kline_data]; [None] is [JNull]. *)
Definition get_kline_data (self : t) (symbol period : string) (count : Z)
  : io json :=
  try_except
    (current_timestamp ← now_ms;
     let url := "https://stock.xueqiu.com/v5/stock/chart/kline.json" in
     let api_period :=
       if String.eqb period "1d" then "day"
       else if String.eqb period "1m" then "minute"
       else period in
     let params :=
       [ ("symbol", JStr symbol);
         ("begin", JInt current_timestamp);
         ("period", JStr api_period);
         ("type", JStr "before");
         ("count", JInt (- Z.abs count));
         ("indicator", JStr "kline") ] in
     response ← session_get {| Requests.url := url;
                               Requests.params := params;
                               Requests.cookies := session_cookies self;
                               Requests.timeout := 15 |};
     if negb (status_of response =? 200) then mret JNull
     else
       data ← lift (json_of response);
       lift (checked_kline data))
    (fun _ => mret JNull).

(** What the quote branch of [get_latest_price] reads in a decoded body:
    [data.quote.current] as a [float], when it is truthy and positive. *)
Definition current_price_of `{Runtime} (data : json) : outcome (option float) :=
  has_data ← py_in "data" data;
  if has_data : bool then
    inner ← getitem data "data";
    has_quote ← py_in "quote" inner;
    if has_quote : bool then
      quote ← getitem inner "quote";
      current_price ← get quote "current" JNull;
      if truthy current_price then
        price ← float_ current_price;
        if PrimFloat.ltb 0 price then Ok (Some price) else Ok None
      else Ok None
    else Ok None
  else Ok None.

(** The first strategy of [get_latest_price]: the price the quote endpoint
    gives, when its [try] block returns one. *)
Definition quote_price `{Runtime} (self : t) (symbol : string)
  : io (option float) :=
  try_except
    (let url := "https://stock.xueqiu.com/v5/stock/quote.json" in
     let params := [ ("symbol", JStr symbol); ("extend", JStr "detail") ] in
     response ← session_get {| Requests.url := url;
                               Requests.params := params;
                               Requests.cookies := session_cookies self;
                               Requests.timeout := 10 |};
     _ ← lift (raise_for_status response);
     data ← lift (json_of response);
     lift (current_price_of data))
    (fun _ => mret None).

(** What the candle branch of [get_latest_price] reads in the candles it
    was handed: the close of the first row, found by the name of its
    column, when it is truthy and positive. *)
Definition close_of_kline `{Runtime} (kline_data : json) : outcome (option float) :=
  no_data ← (if negb (truthy kline_data) then Ok true
             else negb <$> py_in "data" kline_data);
  if no_data : bool then Ok None
  else
    data ← getitem kline_data "data";
    items ← get data "item" (JList []);
    no_items ← (if negb (truthy items) then Ok true
                else n ← len items; Ok (n =? 0)%nat);
    if no_items : bool then Ok None
    else
      latest_item ← index items 0;
      columns ← get data "column" (JList []);
      has_close ← py_in "close" columns;
      if has_close : bool then
        close_index ← index_of columns "close";
        n ← len latest_item;
        if (close_index <? n)%nat then
          price ← index latest_item close_index;
          if truthy price then
            p ← float_ price;
            if PrimFloat.ltb 0 p then Ok (Some p) else Ok None
          else Ok None
        else Ok None
      else Ok None.

(** The second strategy of [get_latest_price]: one day candle.  Nothing
    here is inside a [try]: what raises leaves the method. *)
Definition kline_price `{Runtime} (self : t) (symbol : string)
  : io (option float) :=
  kline_data ← get_kline_data self symbol "day" 1;
  lift (close_of_kline kline_data).

(** [get_latest_price] *)
Definition get_latest_price `{Runtime} (self : t) (symbol : string)
  : io (option float) :=
  quoted ← quote_price self symbol;
  match quoted with
  | Some price => mret (Some price)
  | None => kline_price self symbol
  end.

(** A value stored in a parsed candle: the upstream's own value (the
    timestamp), a [datetime], a [float], or [None]. *)
Inductive cell `{Runtime} : Type :=
| Raw (j : json)
| Moment (d : datetime)
| Number (f : float)
| Missing.

(** [{col: i for i, col in enumerate(columns)}], read at its string keys:
    a later column of the same name replaces an earlier one, a key that is
    no string is never looked up, and a list or a dictionary cannot be a key. *)
Fixpoint column_map_from (i : nat) (columns : list json) (m : gmap string nat)
  : outcome (gmap string nat) :=
  match columns with
  | [] => Ok m
  | JStr col :: rest => column_map_from (S i) rest (<[col := i]> m)
  | JList _ :: _ | JDict _ :: _ => Raise TypeError
  | _ :: rest => column_map_from (S i) rest m
  end.

(** [if 'timestamp' in column_map and len(item) > column_map['timestamp']: ...] *)
Definition set_timestamp `{Runtime} (column_map : gmap string nat) (item : json)
    (kline_dict : gmap string cell) : outcome (gmap string cell) :=
  match column_map !! "timestamp" with
  | Some i =>
      n ← len item;
      if (i <? n)%nat then
        timestamp ← index item i;
        seconds ← truediv timestamp (JInt 1000);
        moment ← fromtimestamp seconds;
        Ok (<["datetime" := Moment moment]>
              (<["timestamp" := Raw timestamp]> kline_dict))
      else Ok kline_dict
  | None => Ok kline_dict
  end.

(** The body of the two loops over field names. *)
Definition set_field `{Runtime} (column_map : gmap string nat) (item : json)
    (kline_dict : gmap string cell) (field : string)
  : outcome (gmap string cell) :=
  match column_map !! field with
  | Some i =>
      n ← len item;
      if (i <? n)%nat then
        value ← index item i;
        stored ← match value with
                 | JNull => Ok Missing
                 | _ => Number <$> float_ value
                 end;
        Ok (<[field := stored]> kline_dict)
      else Ok kline_dict
  | None => Ok kline_dict
  end.

(** [for field in fields: ...] *)
Fixpoint set_fields `{Runtime} (column_map : gmap string nat) (item : json)
    (fields : list string) (kline_dict : gmap string cell)
  : outcome (gmap string cell) :=
  match fields with
  | [] => Ok kline_dict
  | field :: rest =>
      kline_dict' ← set_field column_map item kline_dict field;
      set_fields column_map item rest kline_dict'
  end.

(** One iteration of [for item in items]. *)
Definition parse_item `{Runtime} (column_map : gmap string nat) (item : json)
  : outcome (gmap string cell) :=
  kline_dict ← set_timestamp column_map item ∅;
  kline_dict ← set_fields column_map item
                 ["open"; "high"; "low"; "close"; "volume"; "amount"] kline_dict;
  set_fields column_map item ["chg"; "percent"] kline_dict.

Fixpoint parse_items `{Runtime} (column_map : gmap string nat) (items : list json)
  : outcome (list (gmap string cell)) :=
  match items with
  | [] => Ok []
  | item :: rest =>
      kline_dict ← parse_item column_map item;
      parsed ← parse_items column_map rest;
      Ok (kline_dict :: parsed)
  end.

(** [parse_kline_data] *)
Definition parse_kline_data `{Runtime} (raw_data : json)
  : outcome (list (gmap string cell)) :=
  no_data ← (if negb (truthy raw_data) then Ok true
             else negb <$> py_in "data" raw_data);
  if no_data : bool then Ok []
  else
    data ← getitem raw_data "data";
    columns ← get data "column" (JList []);
    items ← get data "item" (JList []);
    if negb (truthy columns) || negb (truthy items) then Ok []
    else
      cols ← iter columns;
      column_map ← column_map_from 0 cols ∅;
      rows ← iter items;
      parse_items column_map rows.

(** [get_market_status] *)
Definition get_market_status (self : t) (symbol : string)
  : io (gmap string json) :=
  hour ← now_hour;
  current_time ← now_isoformat;
  let market_status :=
    if (21 <=? hour) && (hour <=? 23) || (0 <=? hour) && (hour <=? 4)
    then "TRADING" else "CLOSED" in
  timestamp ← now_ms;
  mret ({[ "symbol" := JStr symbol;
           "market_status" := JStr market_status;
           "timestamp" := JInt timestamp;
           "current_time" := JStr current_time ]} : gmap string json).

End XueqiuMarketData.

(** The module's globals: [_xueqiu_cookie_string] and [xueqiu_client]. *)
Record globals : Type := {
  _xueqiu_cookie_string : option string;
  xueqiu_client : XueqiuMarketData.t
}.

(** The state after the module is imported. *)
Definition initial : globals :=
  {| _xueqiu_cookie_string := None;
     xueqiu_client := XueqiuMarketData.__init__ None |}.

(** [get_last_price_from_xueqiu] *)
Definition get_last_price_from_xueqiu `{Runtime} (g : globals)
    (symbol market : string) : io float :=
  price ← XueqiuMarketData.get_latest_price (xueqiu_client g) symbol;
  match price with
  | None =>
      throw (Exception [Text "无法获取 "; Fmt symbol; Text " 的有效价格"])
  | Some p =>
      if PrimFloat.leb p 0
      then throw (Exception [Text "无法获取 "; Fmt symbol; Text " 的有效价格"])
      else mret p
  end.

(** [get_kline_data_from_xueqiu] *)
Definition get_kline_data_from_xueqiu `{Runtime} (g : globals)
    (symbol period : string) (count : Z)
  : io (list (gmap string XueqiuMarketData.cell)) :=
  raw_data ← XueqiuMarketData.get_kline_data (xueqiu_client g) symbol period count;
  if negb (truthy raw_data) then
    throw (Exception [Text "无法获取 "; Fmt symbol; Text " 的K线数据"])
  else
    kline_data ← lift (XueqiuMarketData.parse_kline_data raw_data);
    match kline_data with
    | [] => throw (Exception [Text "解析 "; Fmt symbol; Text " 的K线数据失败"])
    | _ => mret kline_data
    end.

(** [set_xueqiu_cookie] *)
Definition set_xueqiu_cookie (cookie_string : string) (g : globals) : globals :=
  {| _xueqiu_cookie_string :=
       if negb (String.eqb cookie_string "") then Some (strip cookie_string)
       else None;
     xueqiu_client := xueqiu_client g |}.


(** [update_xueqiu_cookie] *)
Definition update_xueqiu_cookie (cookie_string : string) (g : globals) : globals :=
  let g' := set_xueqiu_cookie cookie_string g in
  {| _xueqiu_cookie_string := _xueqiu_cookie_string g';
     xueqiu_client :=
       XueqiuMarketData._setup_session (_xueqiu_cookie_string g')
         (xueqiu_client g') |}.

End xueqiu_market_data.

(** ** [backend/services/market_data.py] *)

Module market_data.
Import Py Requests.
Import pump_fun_market_data xueqiu_market_data.

(** The two service modules' globals, which the router reads. *)
Record globals : Type := {
  pump : pump_fun_market_data.globals;
  xueqiu : xueqiu_market_data.globals
}.


(** [f"{symbol}.{market}"] *)
Definition key_of (symbol market : string) : string :=
  symbol +:+ "." +:+ market.

(** [get_last_price] *)
Definition get_last_price `{Runtime} (g : globals) (symbol market : string)
  : io float :=
  let key := key_of symbol market in
  if String.eqb (upper market) "PUMP" then
    try_except
      (price ← get_last_price_from_pump_fun (pump g) symbol;
       if negb (PrimFloat.eqb price 0) && PrimFloat.ltb 0 price then mret price
       else throw (Exception [Text "Pump.fun返回无效价格: "; FmtFloat price]))
      (fun pump_err =>
         throw (Exception [Text "无法获取 "; Fmt key; Text " 的实时价格: ";
                           Cause pump_err]))
  else
    try_except
      (price ← get_last_price_from_xueqiu (xueqiu g) symbol market;
       if negb (PrimFloat.eqb price 0) && PrimFloat.ltb 0 price then mret price
       else throw (Exception [Text "雪球返回无效价格: "; FmtFloat price]))
      (fun xq_err =>
         throw (Exception [Text "无法获取 "; Fmt key; Text " 的实时价格: ";
                           Cause xq_err])).

(** [get_kline_data] *)
Definition get_kline_data `{Runtime} (g : globals) (symbol market period : string)
    (count : Z) : io (list (gmap string XueqiuMarketData.cell)) :=
  let key := key_of symbol market in
  if String.eqb (upper market) "PUMP" then mret []
  else
    try_except
      (data ← get_kline_data_from_xueqiu (xueqiu g) symbol period count;
       match data with
       | [] => throw (Exception [Text "雪球返回空的K线数据"])
       | _ => mret data
       end)
      (fun xq_err =>
         throw (Exception [Text "无法获取 "; Fmt key; Text " 的K线数据: ";
                           Cause xq_err])).

(** The record returned for the coin market. *)
Definition pump_status : gmap string json :=
  {[ "market_status" := JStr "OPEN";
     "market_name" := JStr "Pump.fun";
     "trading_hours" := JStr "24/7" ]}.

(** [get_market_status] *)
Definition get_market_status (g : globals) (symbol market : string)
  : io (gmap string json) :=
  let key := key_of symbol market in
  if String.eqb (upper market) "PUMP" then mret pump_status
  else
    try_except
      (XueqiuMarketData.get_market_status (xueqiu_client (xueqiu g)) symbol)
      (fun xq_err =>
         throw (Exception [Text "无法获取 "; Fmt key; Text " 的市场状态: ";
                           Cause xq_err])).

(** [get_pump_fun_trending_coins]: the length of the result is formatted
    into the log line inside the [try]. *)
Definition get_pump_fun_trending_coins (g : globals) (limit : Z) : io json :=
  try_except
    (coins ← PumpFunMarketData.get_trending_coins (pump_fun_client (pump g)) limit;
     _ ← lift (len coins);
     mret coins)
    (fun _ => mret (JList [])).

(** [get_pump_fun_new_coins] *)
Definition get_pump_fun_new_coins (g : globals) (limit : Z) : io json :=
  try_except
    (coins ← PumpFunMarketData.get_new_coins (pump_fun_client (pump g)) limit;
     _ ← lift (len coins);
     mret coins)
    (fun _ => mret (JList [])).

End market_data.

(** ** [backend/api/pump_routes.py] *)

Module pump_routes.
Import Py Requests.
Import pump_fun_market_data xueqiu_market_data.

(** How a handler ends: with the dictionary it returns, or with the
    [HTTPException] it raises. *)
Inductive answer : Type :=
| Returned (body : gmap string json)
| HTTPException (status_code : Z) (detail : list fragment).

Definition route : Type := world -> list request * answer.

(** [try: ...  except HTTPException: raise
     except Exception as e: raise HTTPException(500, f"{failure}{str(e)}")] *)
Definition handle (body : io answer) (failure : string) : route :=
  fun w =>
    match body w with
    | (sent, Ok a) => (sent, a)
    | (sent, Raise e) => (sent, HTTPException 500 [Text failure; Cause e])
    end.

(** [get_coins] *)
Definition get_coins (g : market_data.globals) (limit offset : Z)
    (sort order : string) (include_nsfw : bool) : route :=
  handle
    (coins ← PumpFunMarketData.get_coins_list (pump_fun_client (market_data.pump g))
               limit offset sort order include_nsfw;
     count ← lift (len coins);
     mret (Returned {[ "success" := JBool true;
                       "data" := coins;
                       "count" := JInt (Z.of_nat count);
                       "limit" := JInt limit;
                       "offset" := JInt offset ]}))
    "Failed to fetch coins: ".

(** [get_coin_detail] *)
Definition get_coin_detail (g : market_data.globals) (mint_address : string)
  : route :=
  handle
    (coin_data ← get_pump_fun_coin (market_data.pump g) mint_address;
     if negb (truthy coin_data) then
       mret (HTTPException 404 [Text "Coin "; Fmt mint_address; Text " not found"])
     else
       mret (Returned {[ "success" := JBool true; "data" := coin_data ]}))
    "Failed to fetch coin data: ".

(** [get_coin_trades] *)
Definition get_coin_trades (g : market_data.globals) (mint_address : string)
    (limit offset : Z) : route :=
  handle
    (trades ← PumpFunMarketData.get_coin_trades
                (pump_fun_client (market_data.pump g)) mint_address limit offset;
     count ← lift (len trades);
     mret (Returned {[ "success" := JBool true;
                       "data" := trades;
                       "count" := JInt (Z.of_nat count);
                       "limit" := JInt limit;
                       "offset" := JInt offset ]}))
    "Failed to fetch trades: ".

(** [get_coin_price] *)
Definition get_coin_price `{Runtime} (g : market_data.globals)
    (mint_address : string) : route :=
  handle
    (price ← market_data.get_last_price g mint_address "PUMP";
     if PrimFloat.leb price 0 then
       mret (HTTPException 404 [Text "Price not available for "; Fmt mint_address])
     else
       mret (Returned {[ "success" := JBool true;
                         "data" := JDict [ ("mint_address", JStr mint_address);
                                           ("price", JFloat price);
                                           ("market", JStr "PUMP") ] ]}))
    "Failed to fetch price: ".

(** The dictionary the three ranking handlers return. *)
Definition ranked (coins : json) : io answer :=
  count ← lift (len coins);
  mret (Returned {[ "success" := JBool true;
                    "data" := coins;
                    "count" := JInt (Z.of_nat count) ]}).

(** [get_trending] *)
Definition get_trending (g : market_data.globals) (limit : Z) : route :=
  handle
    (coins ← market_data.get_pump_fun_trending_coins g limit; ranked coins)
    "Failed to fetch trending coins: ".

(** [get_new_coins] *)
Definition get_new_coins (g : market_data.globals) (limit : Z) : route :=
  handle
    (coins ← market_data.get_pump_fun_new_coins g limit; ranked coins)
    "Failed to fetch new coins: ".

(** [get_top_by_market_cap] *)
Definition get_top_by_market_cap (g : market_data.globals) (limit : Z) : route :=
  handle
    (coins ← PumpFunMarketData.get_top_by_market_cap
               (pump_fun_client (market_data.pump g)) limit;
     ranked coins)
    "Failed to fetch top coins: ".

(** [coin.get(field, '').lower()] *)
Definition lowered (coin : json) (field : string) : outcome string :=
  value ← get coin field (JStr "");
  match value with
  | JStr text => Ok (lower text)
  | _ => Raise AttributeError
  end.

(** Whether the query stands in the name, the symbol or the description. *)
Definition matches (query_lower : string) (coin : json) : outcome bool :=
  name ← lowered coin "name";
  symbol ← lowered coin "symbol";
  description ← lowered coin "description";
  Ok (contains query_lower name || contains query_lower symbol
      || contains query_lower description).

(** The loop of [search_coins] over the coins still to visit, with the
    matches found so far; it stops once [limit] matches are held. *)
Fixpoint search_loop (query_lower : string) (limit : Z) (coins filtered : list json)
  : outcome (list json) :=
  match coins with
  | [] => Ok filtered
  | coin :: rest =>
      found ← matches query_lower coin;
      if found : bool then
        let filtered := filtered ++ [coin] in
        if limit <=? Z.of_nat (length filtered) then Ok filtered
        else search_loop query_lower limit rest filtered
      else search_loop query_lower limit rest filtered
  end.

(** [search_coins] *)
Definition search_coins (g : market_data.globals) (q : string) (limit : Z)
  : route :=
  handle
    (all_coins ← PumpFunMarketData.get_coins_list
                   (pump_fun_client (market_data.pump g))
                   200 0 "last_trade_timestamp" "DESC" false;
     filtered ← lift (coins ← iter all_coins;
                      search_loop (lower q) limit coins []);
     mret (Returned {[ "success" := JBool true;
                       "data" := JList filtered;
                       "count" := JInt (Z.of_nat (length filtered));
                       "query" := JStr q ]}))
    "Failed to search coins: ".

End pump_routes.

(** ** The specification's reading of a cookie string *)

Module CookieSpec.
Import Py.

(** The entries of a cookie string under the first of the three formats
    that applies: pairs joined by ["; "], one pair per line, a single pair. *)
Definition cookie_entries (cookie_string : string) : list string :=
  if contains "; " cookie_string then split "; " cookie_string
  else if contains LF cookie_string then
    map strip (split LF (strip cookie_string))
  else [cookie_string].

(** The pair an entry of the form [k=v] stands for, cut at its first ['=']
    and trimmed; an entry with no ['='] stands for none. *)
Definition cookie_pair (entry : string) : option (string * string) :=
  i ← find "=" entry;
  Some (strip (String.substring 0 i entry),
        strip (String.substring (i + 1) (String.length entry - (i + 1)) entry)).

(** The cookies a cookie string stands for: the pairs of its well-formed
    entries, a later pair replacing an earlier one of the same name. *)
Definition cookies_of (cookie_string : string) : gmap string string :=
  list_to_map (rev (omap cookie_pair (cookie_entries cookie_string))).

End CookieSpec.

(** * Vocabulary of the statements *)

Import Py Requests Cookies CookieSpec.
Import pump_fun_market_data xueqiu_market_data.

(** ** Characters and pairs *)

(** [occurs c s]: the character [c] stands somewhere in [s]. *)
Fixpoint occurs (c : ascii) (s : string) : Prop :=
  match s with
  | EmptyString => False
  | String c' s' => c' = c \/ occurs c s'
  end.

(** [cookies[key] = value] for a pair [(key, value)]. *)
Definition store (m : gmap string string) (p : string * string) : gmap string string :=
  <[p.1 := p.2]> m.

(** ** Requests and what their replies deliver *)

(** The request [get_coin_data] sends for a mint address. *)
Definition coin_request (self : PumpFunMarketData.t) (mint_address : string)
  : request :=
  {| url := PumpFunMarketData.API_BASE +:+ "/coins/" +:+ mint_address;
     params := [];
     cookies := PumpFunMarketData.session_cookies self;
     timeout := PumpFunMarketData.timeout self |}.

(** The request [get_coins_list] sends. *)
Definition coins_request (self : PumpFunMarketData.t) (limit offset : Z)
    (sort order : string) (include_nsfw : bool) : request :=
  {| url := PumpFunMarketData.API_BASE +:+ "/coins";
     params := [ ("offset", JInt offset);
                 ("limit", JInt limit);
                 ("sort", JStr sort);
                 ("order", JStr order);
                 ("includeNsfw",
                  JStr (PumpFunMarketData.str_lower_bool include_nsfw)) ];
     cookies := PumpFunMarketData.session_cookies self;
     timeout := PumpFunMarketData.timeout self |}.

(** The request the quote branch sends. *)
Definition quote_request (self : XueqiuMarketData.t) (symbol : string) : request :=
  {| url := "https://stock.xueqiu.com/v5/stock/quote.json";
     params := [ ("symbol", JStr symbol); ("extend", JStr "detail") ];
     cookies := XueqiuMarketData.session_cookies self;
     timeout := 10 |}.

(** The upstream's token for a period. *)
Definition api_period_of (period : string) : string :=
  if String.eqb period "1d" then "day"
  else if String.eqb period "1m" then "minute"
  else period.

(** The request [get_kline_data] sends, with the period token and the count
    as they go on the wire. *)
Definition kline_request (self : XueqiuMarketData.t) (symbol api_period : string)
    (count begin : Z) : request :=
  {| url := "https://stock.xueqiu.com/v5/stock/chart/kline.json";
     params := [ ("symbol", JStr symbol);
                 ("begin", JInt begin);
                 ("period", JStr api_period);
                 ("type", JStr "before");
                 ("count", JInt count);
                 ("indicator", JStr "kline") ];
     cookies := XueqiuMarketData.session_cookies self;
     timeout := 15 |}.

(** The record a reply to the coin request delivers: the body of a 200,
    else [None]. *)
Definition coin_of_reply (rep : reply) : json :=
  match rep with
  | Response status (Some coin) => if status =? 200 then coin else JNull
  | _ => JNull
  end.

(** [total_supply], with its default of one billion. *)
Definition supply_of (d : list (string * json)) : json :=
  default (JInt 1000000000) (assoc "total_supply" d).

(** The candles a reply to the candle request delivers to the caller. *)
Definition kline_of_reply (rep : reply) : json :=
  match rep with
  | Response status (Some data) =>
      if status =? 200 then
        match XueqiuMarketData.checked_kline data with
        | Ok kline_data => kline_data
        | Raise _ => JNull
        end
      else JNull
  | _ => JNull
  end.

(** The quote endpoint's reply carries a positive numeric current price:
    a response that is no HTTP error, whose body has [data.quote.current],
    truthy, with a [float] value above zero. *)
Definition quote_yields `{Runtime} (rep : reply) (price : float) : Prop :=
  exists status d inner quote current,
    rep = Response status (Some (JDict d)) /\
    (status < 400 \/ 600 <= status) /\
    assoc "data" d = Some (JDict inner) /\
    assoc "quote" inner = Some (JDict quote) /\
    assoc "current" quote = Some current /\
    truthy current = true /\
    float_ current = Ok price /\
    PrimFloat.ltb 0 price = true.


(** The hours [XueqiuMarketData.get_market_status] calls trading hours. *)
Definition trading_hour (h : Z) : bool :=
  (21 <=? h) && (h <=? 23) || (0 <=? h) && (h <=? 4).

(** ** Errors *)

(** The error the router raises for a coin price that is not positive. *)
Definition invalid_pump_price (price : float) : exn :=
  Exception [Text "Pump.fun返回无效价格: "; FmtFloat price].

(** The error the router raises for an equity price that is not positive. *)
Definition invalid_xueqiu_price (price : float) : exn :=
  Exception [Text "雪球返回无效价格: "; FmtFloat price].

(** The error in which the router wraps the cause of a missing price. *)
Definition price_unavailable (symbol market : string) (cause : exn) : exn :=
  Exception [Text "无法获取 "; Fmt (market_data.key_of symbol market);
             Text " 的实时价格: "; Cause cause].

(** The error [get_last_price_from_xueqiu] raises. *)
Definition no_valid_price (symbol : string) : exn :=
  Exception [Text "无法获取 "; Fmt symbol; Text " 的有效价格"].

(** ** Candles *)

(** The upstream value a row holds under the column called [field]: the
    cell at the index the name→index map gives, if there is one. *)
Definition cell_in (column_map : gmap string nat) (cells : list json)
    (field : string) : option json :=
  i ← column_map !! field; cells !! i.

(** The numeric fields [parse_kline_data] projects. *)
Definition numeric_fields : list string :=
  ["open"; "high"; "low"; "close"; "volume"; "amount"; "chg"; "percent"].

(** What a numeric field holds after its iteration. *)
Definition stored_as `{Runtime} (value : option json)
    (before after : option XueqiuMarketData.cell) : Prop :=
  match value with
  | None => after = before
  | Some JNull => after = Some XueqiuMarketData.Missing
  | Some v => exists x, float_ v = Ok x /\ after = Some (XueqiuMarketData.Number x)
  end.

(** A row whose cells, where the parser reads one, can be converted: a
    timestamp that divides by 1000 into seconds the host turns into a
    [datetime], and under each numeric field a null or a value [float]
    accepts.  A cell the row does not have puts no condition. *)
Definition convertible_row `{Runtime} (column_map : gmap string nat)
    (cells : list json) : Prop :=
  (forall timestamp,
     cell_in column_map cells "timestamp" = Some timestamp ->
     exists seconds moment,
       truediv timestamp (JInt 1000) = Ok seconds /\
       fromtimestamp seconds = Ok moment) /\
  (forall field value,
     field ∈ numeric_fields ->
     cell_in column_map cells field = Some value ->
     value = JNull \/ exists x, float_ value = Ok x).

(** The body the specification's example feeds to the parser. *)
Definition example_kline : json :=
  JDict [("data",
          JDict [("column", JList [JStr "timestamp"; JStr "close"]);
                 ("item", JList [JList [JInt 1700000000000; JFloat 42.5]])])].

(** ** Worlds and hosts of the examples *)

(** A world whose upstreams answer every request with status 200 and the
    given body. *)
Definition serving (body : json) : world :=
  {| send := fun _ => Response 200 (Some body);
     time_ms := 1700000000000; hour := 12; isoformat := "2023-11-14T12:00:00" |}.

(** A world whose upstreams cannot be reached. *)
Definition offline : world :=
  {| send := fun _ => Unreachable;
     time_ms := 1700000000000; hour := 12; isoformat := "2023-11-14T12:00:00" |}.

(** A host for the examples: its [float] parser accepts no text, and a
    [datetime] is kept as the POSIX seconds it was built from, every finite
    number of seconds being in range. *)
Definition sample_runtime : Runtime :=
  {| datetime := float;
     float_of_str := fun _ => None;
     fromtimestamp := fun t =>
       if PrimFloat.is_finite t then Ok t else Raise ValueError |}.

(** The router's globals right after the modules are imported. *)
Definition fresh : market_data.globals :=
  {| market_data.pump := pump_fun_market_data.initial;
     market_data.xueqiu := xueqiu_market_data.initial |}.

(** ** Further requests, values and hosts *)

(** The request [get_coin_trades] sends. *)
Definition trades_request (self : PumpFunMarketData.t) (mint_address : string)
    (limit offset : Z) : request :=
  {| url := PumpFunMarketData.API_BASE +:+ "/trades/" +:+ mint_address;
     params := [ ("limit", JInt limit); ("offset", JInt offset) ];
     cookies := PumpFunMarketData.session_cookies self;
     timeout := PumpFunMarketData.timeout self |}.

(** A value that has a length: a string, a list or a dictionary. *)
Definition sized (x : json) : bool :=
  match x with
  | JStr _ | JList _ | JDict _ => true
  | _ => false
  end.

(** The errors that reading a decoded body can raise, as opposed to the
    errors of the transport. *)
Definition shape_error (e : exn) : Prop :=
  e = TypeError \/ e = ValueError \/ e = KeyError \/ e = IndexError \/
  e = AttributeError \/ e = OverflowError.

(** [len(x)] where it is defined. *)
Definition size_of (x : json) : nat :=
  match len x with
  | Ok n => n
  | Raise _ => 0%nat
  end.

(** What the ranking handlers and the listing handler return for the coins
    they were handed. *)
Definition ranked_body (coins : json) : gmap string json :=
  {[ "success" := JBool true;
     "data" := coins;
     "count" := JInt (Z.of_nat (size_of coins)) ]}.

Definition paged_body (items : json) (limit offset : Z) : gmap string json :=
  {[ "success" := JBool true;
     "data" := items;
     "count" := JInt (Z.of_nat (size_of items));
     "limit" := JInt limit;
     "offset" := JInt offset ]}.

(** A world whose upstreams answer every request with status 200 and a body
    that is no JSON document. *)
Definition garbled : world :=
  {| send := fun _ => Response 200 None;
     time_ms := 1700000000000; hour := 12; isoformat := "2023-11-14T12:00:00" |}.

(** The text a coin record holds under a field, empty when the field is
    absent. *)
Definition field_text (coin : json) (field : string) : string :=
  match coin with
  | JDict d => match assoc field d with Some (JStr text) => text | _ => "" end
  | _ => ""
  end.

(** A record the search can read: a dictionary whose [name], [symbol] and
    [description], where present, are strings of ASCII text. *)
Definition text_or_absent (d : list (string * json)) (field : string) : Prop :=
  match assoc field d with
  | Some (JStr text) => isascii text = true
  | None => True
  | Some _ => False
  end.

Definition searchable (coin : json) : Prop :=
  match coin with
  | JDict d =>
      text_or_absent d "name" /\ text_or_absent d "symbol" /\
      text_or_absent d "description"
  | _ => False
  end.

(** The query stands, the case of the ASCII letters apart, in the name, the
    symbol or the description of the record. *)
Definition matching (q : string) (coin : json) : bool :=
  contains (lower q) (lower (field_text coin "name"))
  || contains (lower q) (lower (field_text coin "symbol"))
  || contains (lower q) (lower (field_text coin "description")).

(** The market tags that upper-case to "PUMP". *)
Definition pump_tags : list string :=
  [ "PUMP"; "PUMp"; "PUmP"; "PUmp"; "PuMP"; "PuMp"; "PumP"; "Pump";
    "pUMP"; "pUMp"; "pUmP"; "pUmp"; "puMP"; "puMp"; "pumP"; "pump" ].

(** * Tactics *)

(** Unfolds the plumbing of [io] computations. *)
Ltac run_io :=
  unfold try_except, throw, lift, session_get, now_ms, now_hour, now_isoformat,
    sent, result, mbind, mret, io_mbind, io_mret, io_bind, io_ret in *.

(** Unfolds the plumbing of [outcome] computations. *)
Ltac run_outcome :=
  unfold mbind, mret, fmap, outcome_bind, outcome_ret, outcome_fmap, obind in *.

(** Decides membership of a name in one of the lists of field names. *)
Ltac names_solver :=
  unfold numeric_fields in *;
  rewrite ?elem_of_cons, ?elem_of_nil in *;
  intuition (subst; try discriminate; auto).

(** * Properties *)

(** ** Characters of the pieces of a string *)

Section Characters.

Lemma occurs_append c s t : occurs c (s +:+ t) <-> occurs c s \/ occurs c t.
Proof.
  induction s as [|c' s IH]; simpl.
  - tauto.
  - rewrite IH. tauto.
Qed.

Lemma prefix_single c s :
  String.prefix (String c "") s = true -> occurs c s.
Proof.
  destruct s as [|c' s]; simpl; [discriminate|].
  destruct (Ascii.ascii_dec c c') as [->|]; [auto|discriminate].
Qed.

Lemma find_single_occurs c s i :
  find (String c "") s = Some i -> occurs c s.
Proof.
  revert i. induction s as [|c' s IH]; intros i.
  - simpl. discriminate.
  - cbn [find].
    destruct (String.prefix (String c "") (String c' s)) eqn:Hp.
    + intros _. by apply prefix_single.
    + destruct (find (String c "") s) as [j|] eqn:Hf; [|discriminate].
      intros _. right. by apply (IH j).
Qed.

Lemma contains_single_absent c s :
  ~ occurs c s -> contains (String c "") s = false.
Proof.
  intros Hno. unfold contains.
  destruct (find (String c "") s) as [i|] eqn:Hf.
  - exfalso. apply Hno. by apply (find_single_occurs c s i).
  - apply bool_decide_eq_false. by intros [? ?].
Qed.

Lemma occurs_contains_single c s :
  contains (String c "") s = false -> ~ occurs c s.
Proof.
  unfold contains. intros Hc Hin. apply bool_decide_eq_false in Hc.
  apply Hc. clear Hc.
  induction s as [|c' s IH]; simpl in Hin; [done|].
  cbn [find]. destruct (String.prefix (String c "") (String c' s)) eqn:Hp; [by eexists|].
  destruct Hin as [->|Hin].
  - simpl in Hp. destruct (Ascii.ascii_dec c c) in Hp; [|done].
    destruct s; discriminate Hp.
  - destruct (IH Hin) as [j ->]. by eexists.
Qed.

Lemma lstrip_occurs c s : occurs c (lstrip s) -> occurs c s.
Proof.
  induction s as [|c' s IH]; simpl; [done|].
  destruct (is_space c'); simpl; tauto.
Qed.

Lemma rstrip_occurs c s : occurs c (rstrip s) -> occurs c s.
Proof.
  induction s as [|c' s IH]; simpl; [done|].
  destruct (rstrip s) as [|c'' r].
  - destruct (is_space c'); simpl; tauto.
  - simpl in *. tauto.
Qed.

Lemma strip_occurs c s : occurs c (strip s) -> occurs c s.
Proof. intros H. by apply lstrip_occurs, rstrip_occurs. Qed.

(** A piece of a split holds only characters of the text or of the piece
    under construction. *)
Lemma split_from_occurs c sep s :
  forall skip cur piece,
    piece ∈ split_from sep skip cur s ->
    occurs c piece -> occurs c cur \/ occurs c s.
Proof.
  induction s as [|c' s IH]; intros skip cur piece Hin Hc.
  - simpl in Hin. apply list_elem_of_singleton in Hin as ->. by left.
  - cbn [split_from] in Hin. destruct skip as [|k].
    + destruct (String.prefix sep (String c' s)).
      * apply elem_of_cons in Hin as [->|Hin]; [by left|].
        destruct (IH _ _ _ Hin Hc) as [[]|]. right. by right.
      * destruct (IH _ _ _ Hin Hc) as [Hcur|]; [|right; by right].
        apply occurs_append in Hcur as [|Hone]; [by left|].
        right. left. simpl in Hone. tauto.
    + destruct (IH _ _ _ Hin Hc) as [|]; [by left|right; by right].
Qed.

Lemma split_occurs c sep s piece :
  piece ∈ split sep s -> occurs c piece -> occurs c s.
Proof.
  intros Hin Hc. by destruct (split_from_occurs c sep s 0%nat "" piece Hin Hc) as [[]|].
Qed.

Lemma prefix_head sep c s :
  String.prefix sep (String c s) = true ->
  sep = "" \/
  exists sep', sep = String c sep' /\ String.substring 0 (String.length sep') s = sep'.
Proof.
  intros Hprefix. destruct sep as [|c' sep']; [by left|]. right.
  apply prefix_correct in Hprefix. simpl in Hprefix.
  injection Hprefix as -> Hrest. by exists sep'.
Qed.

(** No character of the text is lost by a split but those of the
    separator: one that the separator lacks stands in some piece. *)
Lemma split_from_covers c sep s :
  sep <> "" -> ~ occurs c sep ->
  forall skip cur,
    ~ occurs c (String.substring 0 skip s) ->
    occurs c cur \/ occurs c s ->
    exists piece, piece ∈ split_from sep skip cur s /\ occurs c piece.
Proof.
  intros Hsep Hlacks.
  induction s as [|c' s IH]; intros skip cur Hskipped Hocc.
  - exists cur. split; [by apply list_elem_of_singleton|].
    by destruct Hocc as [|[]].
  - cbn [split_from]. destruct skip as [|k].
    + destruct (String.prefix sep (String c' s)) eqn:Hprefix.
      * destruct Hocc as [Hcur|Hocc]; [exists cur; split; [by left|done]|].
        apply prefix_head in Hprefix as [->|(sep' & -> & Htail)]; [done|].
        assert (c' <> c) as Hne by (intros ->; apply Hlacks; by left).
        destruct Hocc as [|Hocc]; [done|].
        destruct (IH (String.length (String c' sep') - 1)%nat "") as (piece & Hin & Hpiece).
        { simpl. rewrite Nat.sub_0_r, Htail. intros ?. apply Hlacks. by right. }
        { by right. }
        exists piece. split; [by right|done].
      * destruct (IH 0%nat (cur +:+ String c' "")) as (piece & Hin & Hpiece).
        { by destruct s. }
        { destruct Hocc as [Hcur|[->|Hocc]].
          - left. apply occurs_append. by left.
          - left. apply occurs_append. right. by left.
          - by right. }
        by exists piece.
    + simpl in Hskipped.
      destruct (IH k cur) as (piece & Hin & Hpiece).
      { intros ?. apply Hskipped. by right. }
      { destruct Hocc as [|[->|]]; [by left| |by right].
        exfalso. apply Hskipped. by left. }
      by exists piece.
Qed.

Lemma split_covers c sep s :
  sep <> "" -> ~ occurs c sep -> occurs c s ->
  exists piece, piece ∈ split sep s /\ occurs c piece.
Proof.
  intros Hsep Hlacks Hocc.
  apply (split_from_covers c sep s Hsep Hlacks 0%nat "");
    [destruct s; simpl; tauto|by right].
Qed.

Lemma lstrip_keeps s c :
  occurs c s -> occurs c (lstrip s) \/ is_space c = true.
Proof.
  induction s as [|c' s IH]; simpl; [done|].
  destruct (is_space c') eqn:Hsp; simpl.
  - intros [<-|Hin]; [by right|]. by apply IH.
  - tauto.
Qed.

Lemma rstrip_keeps s c :
  occurs c s -> occurs c (rstrip s) \/ is_space c = true.
Proof.
  induction s as [|c' s IH]; simpl; [done|].
  intros [<-|Hin].
  - destruct (rstrip s); [|by left; left].
    destruct (is_space c') eqn:Hsp; [by right|by left; left].
  - destruct (IH Hin) as [Hkept|]; [|by right].
    destruct (rstrip s); [done|]. left. by right.
Qed.

Lemma strip_keeps s c :
  occurs c s -> occurs c (strip s) \/ is_space c = true.
Proof.
  intros Hocc. destruct (lstrip_keeps s c Hocc) as [Hkept|]; [|by right].
  by apply rstrip_keeps.
Qed.

End Characters.

(** ** The cookie-string parsers *)

Section CookieParsers.

(** One loop iteration stores the pair of the entry, if it has one, and
    unpacking the split never fails. *)
Lemma add_cookie_pair m entry :
  add_cookie m entry =
  Ok (match cookie_pair entry with Some p => store m p | None => m end).
Proof.
  unfold add_cookie, contains, split1, cookie_pair.
  destruct (find "=" entry) as [i|]; reflexivity.
Qed.

Lemma for_cookies_foldl entries :
  forall m, for_cookies entries m = (foldl store m (omap cookie_pair entries), None).
Proof.
  induction entries as [|entry entries IH]; intros m; simpl; [done|].
  rewrite add_cookie_pair, IH.
  by destruct (cookie_pair entry).
Qed.

Lemma foldl_store_list_to_map (l : list (string * string)) :
  foldl store ∅ l = list_to_map (rev l).
Proof.
  rewrite <- (rev_involutive l) at 1.
  generalize (rev l). clear l. intros l.
  induction l as [|p l IH]; [done|].
  simpl. rewrite foldl_app. simpl. by rewrite IH.
Qed.

(** The parser's three branches compute the cookies the string stands for,
    and no exception leaves them. *)
Lemma parse_formats_spec s : parse_formats s = (cookies_of s, None).
Proof.
  unfold parse_formats, cookies_of, cookie_entries.
  destruct (contains "; " s); [|destruct (contains LF s)];
    by rewrite for_cookies_foldl, foldl_store_list_to_map.
Qed.

Lemma cookie_pair_none entry :
  ~ occurs "="%char entry -> cookie_pair entry = None.
Proof.
  intros Hno. unfold cookie_pair.
  destruct (find "=" entry) as [i|] eqn:Hf; [|done].
  exfalso. apply Hno. by apply (find_single_occurs _ _ i).
Qed.

Lemma omap_cookie_pair_nil entries :
  Forall (fun entry => ~ occurs "="%char entry) entries ->
  omap cookie_pair entries = [].
Proof.
  induction 1 as [|entry entries Hno _ IH]; [done|].
  simpl. rewrite (cookie_pair_none entry Hno). exact IH.
Qed.

(** A string without ['='] stands for no cookie. *)
Lemma cookies_of_no_equals s : contains "=" s = false -> cookies_of s = ∅.
Proof.
  intros Hc. apply occurs_contains_single in Hc.
  unfold cookies_of. rewrite omap_cookie_pair_nil; [done|].
  unfold cookie_entries.
  destruct (contains "; " s); [|destruct (contains LF s)].
  - apply Forall_forall. intros piece Hin Hocc.
    by apply Hc, (split_occurs _ "; " s piece).
  - apply Forall_forall. intros piece Hin Hocc.
    apply list_elem_of_fmap in Hin as (line & -> & Hin).
    by apply Hc, strip_occurs, (split_occurs _ LF (strip s) line), strip_occurs.
  - by apply Forall_singleton.
Qed.

Lemma rstrip_empty_spaces s c :
  rstrip s = "" -> occurs c s -> is_space c = true.
Proof.
  induction s as [|c' s IH]; simpl; [done|].
  destruct (rstrip s) as [|c'' r]; [|discriminate].
  destruct (is_space c') eqn:Hsp; [|discriminate].
  intros _ [<-|Hin]; [done|]. by apply IH.
Qed.

(** A string that strips to nothing is made of white space, so it has no
    ['=']. *)
Lemma blank_no_equals s : strip s = "" -> contains "=" s = false.
Proof.
  intros Hb. apply contains_single_absent. intros Hocc.
  apply lstrip_keeps in Hocc as [Hocc|Hsp]; [|discriminate Hsp].
  by pose proof (rstrip_empty_spaces _ _ Hb Hocc).
Qed.

Lemma cookie_pair_some entry :
  occurs "="%char entry -> is_Some (cookie_pair entry).
Proof.
  intros Hocc. unfold cookie_pair.
  destruct (find "=" entry) as [i|] eqn:Hfind; [by eexists|].
  exfalso. apply (occurs_contains_single "="%char entry); [|done].
  unfold contains. rewrite Hfind. apply bool_decide_eq_false. by intros [? ?].
Qed.

Lemma cookie_entries_cover s :
  occurs "="%char s ->
  exists entry, entry ∈ cookie_entries s /\ occurs "="%char entry.
Proof.
  intros Hocc. unfold cookie_entries.
  destruct (contains "; " s); [|destruct (contains LF s)].
  - apply split_covers; [done| |done]. simpl. intros [|[|[]]]; discriminate.
  - destruct (strip_keeps s _ Hocc) as [Hkept|]; [|discriminate].
    destruct (split_covers "="%char LF (strip s)) as (line & Hin & Hline);
      [done| |done|].
    { unfold LF. simpl. intros [|[]]; discriminate. }
    exists (strip line). split; [by apply list_elem_of_fmap_2|].
    by destruct (strip_keeps line _ Hline).
  - exists s. split; [by apply list_elem_of_singleton|done].
Qed.

(** A string stands for no cookie exactly when it has no ['=']. *)
Lemma cookies_of_empty_iff s : cookies_of s = ∅ <-> contains "=" s = false.
Proof.
  split; [|apply cookies_of_no_equals].
  intros Hempty. destruct (contains "=" s) eqn:Hc; [exfalso|done].
  assert (Hocc : occurs "="%char s).
  { unfold contains in Hc. apply bool_decide_eq_true in Hc as [i Hi].
    by apply (find_single_occurs _ _ i). }
  destruct (cookie_entries_cover s Hocc) as (entry & Hin & Hentry).
  destruct (cookie_pair_some entry Hentry) as [p Hp].
  assert (Hpairs : p ∈ omap cookie_pair (cookie_entries s)).
  { apply list_elem_of_omap. by exists entry. }
  unfold cookies_of in Hempty.
  apply list_elem_of_In, in_rev, list_elem_of_In in Hpairs.
  destruct (rev (omap cookie_pair (cookie_entries s))) as [|q l];
    [by apply elem_of_nil in Hpairs|].
  simpl in Hempty. by apply insert_non_empty in Hempty.
Qed.

(** The two classes' parsers are the same function of the string. *)
Lemma xueqiu_parser_is_pump_parser s :
  XueqiuMarketData._parse_cookie_string_try (Some s) =
  PumpFunMarketData._parse_cookie_string_try s.
Proof.
  unfold XueqiuMarketData._parse_cookie_string_try,
    PumpFunMarketData._parse_cookie_string_try.
  destruct (String.eqb s "" || String.eqb (strip s) "") eqn:Hblank; [|done].
  rewrite parse_formats_spec, cookies_of_no_equals; [done|].
  apply blank_no_equals.
  apply orb_true_iff in Hblank as [Hb|Hb]; apply String.eqb_eq in Hb.
  - by subst.
  - done.
Qed.

End CookieParsers.

(** C7: both cookie-string parsers compute, for every string, the cookies it
    stands for under the first applicable of the three formats (pairs joined
    by "; ", one pair per line, a single pair), and no exception leaves
    their [try] block; an entry with no '=' changes nothing, and a string
    stands for no cookie exactly when it has no '='; the five inputs of the
    specification parse as it says. *)
Theorem cookie_string_parser_formats :
  (forall s, PumpFunMarketData._parse_cookie_string_try s = (cookies_of s, None)) /\
  (forall s, XueqiuMarketData._parse_cookie_string_try (Some s) = (cookies_of s, None)) /\
  XueqiuMarketData._parse_cookie_string_try None = (∅, None) /\
  (forall entry rest m,
     contains "=" entry = false ->
     for_cookies (entry :: rest) m = for_cookies rest m) /\
  (forall s, cookies_of s = ∅ <-> contains "=" s = false) /\
  (forall s, contains "; " s = true -> cookie_entries s = split "; " s) /\
  (forall s, contains "; " s = false -> contains LF s = true ->
     cookie_entries s = map strip (split LF (strip s))) /\
  (forall s, contains "; " s = false -> contains LF s = false ->
     cookie_entries s = [s]) /\
  Forall (fun parse : string -> gmap string string =>
            parse "a=1; b=2" = {[ "a" := "1"; "b" := "2" ]} /\
            parse ("a=1" +:+ LF +:+ "b=2") = {[ "a" := "1"; "b" := "2" ]} /\
            parse "a=1" = {[ "a" := "1" ]} /\
            parse "" = ∅ /\
            parse "noequalsign" = ∅)
    [ PumpFunMarketData._parse_cookie_string;
      fun s => XueqiuMarketData._parse_cookie_string (Some s) ].
Proof.
  split; [|split; [|split; [|split; [|split; [|split; [|split; [|split]]]]]]].
  - intros s. apply parse_formats_spec.
  - intros s. rewrite xueqiu_parser_is_pump_parser. apply parse_formats_spec.
  - reflexivity.
  - intros entry rest m Hno. simpl. rewrite add_cookie_pair.
    by rewrite cookie_pair_none by (by apply occurs_contains_single).
  - apply cookies_of_empty_iff.
  - intros s Hsemi. unfold cookie_entries. by rewrite Hsemi.
  - intros s Hsemi Hlf. unfold cookie_entries. by rewrite Hsemi, Hlf.
  - intros s Hsemi Hlf. unfold cookie_entries. by rewrite Hsemi, Hlf.
  - repeat constructor; vm_compute; reflexivity.
Qed.

Lemma cookie_string_parser_formats_witness :
  for_cookies ["noequalsign"; "a=1"] ∅ = for_cookies ["a=1"] ∅ /\
  cookie_entries "a=1; b=2" = split "; " "a=1; b=2" /\
  cookie_entries ("a=1" +:+ LF +:+ "b=2") = map strip (split LF (strip ("a=1" +:+ LF +:+ "b=2"))) /\
  cookie_entries "a=1" = ["a=1"].
Proof.
  pose proof cookie_string_parser_formats
    as (_ & _ & _ & Hskip & _ & Hsemi & Hlines & Hone & _).
  split; [|split; [|split]].
  - apply Hskip. reflexivity.
  - apply Hsemi. reflexivity.
  - apply Hlines; reflexivity.
  - apply Hone; reflexivity.
Defined.

(** ** Setting a cookie *)

Section CookieSet.

Lemma pump_parse_cookies_of s :
  PumpFunMarketData._parse_cookie_string s = cookies_of s.
Proof.
  unfold PumpFunMarketData._parse_cookie_string,
    PumpFunMarketData._parse_cookie_string_try.
  by rewrite parse_formats_spec.
Qed.

Lemma xueqiu_parse_cookies_of s :
  XueqiuMarketData._parse_cookie_string (Some s) = cookies_of s.
Proof.
  unfold XueqiuMarketData._parse_cookie_string.
  by rewrite xueqiu_parser_is_pump_parser, <- pump_parse_cookies_of.
Qed.

(** [update_cookies] merges what it parsed into the session. *)
Lemma jar_update_empty jar : jar_update ∅ jar = jar.
Proof. unfold jar_update. by rewrite fmap_empty, (left_id_L ∅ (∪)). Qed.

Lemma pump_update_cookies_merge self s :
  PumpFunMarketData.session_cookies (PumpFunMarketData.update_cookies self s) =
  jar_update (cookies_of s) (PumpFunMarketData.session_cookies self).
Proof.
  unfold PumpFunMarketData.update_cookies. rewrite pump_parse_cookies_of.
  case_bool_decide as Hne; [done|].
  rewrite Hne. by rewrite jar_update_empty.
Qed.

Lemma xueqiu_update_cookies_merge self s :
  XueqiuMarketData.session_cookies (XueqiuMarketData.update_cookies self s) =
  jar_update (cookies_of s) (XueqiuMarketData.session_cookies self).
Proof.
  unfold XueqiuMarketData.update_cookies. rewrite xueqiu_parse_cookies_of.
  case_bool_decide as Hne; [done|].
  rewrite Hne. by rewrite jar_update_empty.
Qed.

(** Putting cookies into a jar removes none and leaves the other names as
    they are. *)
Lemma jar_update_keeps cookies jar name :
  (cookies !! name = None -> jar_update cookies jar !! name = jar !! name) /\
  (is_Some (jar !! name) -> is_Some (jar_update cookies jar !! name)).
Proof.
  unfold jar_update. split.
  - intros Hnone. apply lookup_union_r. by rewrite lookup_fmap, Hnone.
  - intros [value Hvalue]. rewrite lookup_union, lookup_fmap, Hvalue.
    by destruct (cookies !! name).
Qed.

Lemma strip_no_equals s : contains "=" s = false -> contains "=" (strip s) = false.
Proof.
  intros Hc. apply contains_single_absent. intros Hocc.
  by apply (occurs_contains_single _ _ Hc), strip_occurs.
Qed.

Lemma xueqiu_setup_no_equals s self :
  contains "=" s = false ->
  XueqiuMarketData._setup_session
    (if negb (String.eqb s "") then Some (strip s) else None) self = self.
Proof.
  intros Hc. destruct self as [jar]. unfold XueqiuMarketData._setup_session.
  simpl. f_equal.
  destruct (negb (String.eqb s "")).
  - rewrite xueqiu_parse_cookies_of, cookies_of_no_equals by (by apply strip_no_equals).
    by rewrite jar_update_empty.
  - change (XueqiuMarketData._parse_cookie_string None) with (∅ : gmap string string).
    by rewrite jar_update_empty.
Qed.

End CookieSet.

(** C8, as the code has it: a cookie-set operation given a string that
    parses to no pair (the empty string, or any string without '=') stores
    the string but leaves the session's cookies exactly as they were; and
    whatever the string, no cookie of the session is removed, and a cookie
    whose name is not among the parsed pairs keeps its value. *)
Theorem cookie_set_keeps_session (s : string) :
  (PumpFunMarketData._parse_cookie_string s = ∅ <-> contains "=" s = false) /\
  XueqiuMarketData._parse_cookie_string (Some s) =
    PumpFunMarketData._parse_cookie_string s /\
  (PumpFunMarketData._parse_cookie_string s = ∅ ->
     (forall g,
        pump_fun_client (set_pump_fun_cookie s g) = pump_fun_client g /\
        _pump_fun_cookie_string (set_pump_fun_cookie s g) = Some s) /\
     (forall self, PumpFunMarketData.update_cookies self s = self) /\
     (forall self, XueqiuMarketData.update_cookies self s = self) /\
     (forall g, xueqiu_client (set_xueqiu_cookie s g) = xueqiu_client g) /\
     (forall g, xueqiu_client (update_xueqiu_cookie s g) = xueqiu_client g)) /\
  (forall g name,
     let before := PumpFunMarketData.session_cookies (pump_fun_client g) in
     let after :=
       PumpFunMarketData.session_cookies (pump_fun_client (set_pump_fun_cookie s g)) in
     (PumpFunMarketData._parse_cookie_string s !! name = None ->
      after !! name = before !! name) /\
     (is_Some (before !! name) -> is_Some (after !! name))) /\
  (forall self name,
     let before := XueqiuMarketData.session_cookies self in
     let after :=
       XueqiuMarketData.session_cookies (XueqiuMarketData.update_cookies self s) in
     (XueqiuMarketData._parse_cookie_string (Some s) !! name = None ->
      after !! name = before !! name) /\
     (is_Some (before !! name) -> is_Some (after !! name))) /\
  (forall g name,
     let before := XueqiuMarketData.session_cookies (xueqiu_client g) in
     let after :=
       XueqiuMarketData.session_cookies (xueqiu_client (update_xueqiu_cookie s g)) in
     (XueqiuMarketData._parse_cookie_string
        (_xueqiu_cookie_string (set_xueqiu_cookie s g)) !! name = None ->
      after !! name = before !! name) /\
     (is_Some (before !! name) -> is_Some (after !! name))).
Proof.
  rewrite xueqiu_parse_cookies_of, pump_parse_cookies_of.
  split; [apply cookies_of_empty_iff|]. split; [done|].
  split; [|split; [|split]].
  - intros Hempty. assert (Hc := proj1 (cookies_of_empty_iff s) Hempty).
    assert (Hpump : forall self, PumpFunMarketData.update_cookies self s = self).
    { intros self. unfold PumpFunMarketData.update_cookies.
      rewrite pump_parse_cookies_of, Hempty.
      by rewrite bool_decide_eq_false_2 by (by intros ?). }
    split; [|split; [|split; [|split]]].
    + intros g. unfold set_pump_fun_cookie. simpl. by rewrite Hpump.
    + exact Hpump.
    + intros self. unfold XueqiuMarketData.update_cookies.
      rewrite xueqiu_parse_cookies_of, Hempty.
      by rewrite bool_decide_eq_false_2 by (by intros ?).
    + reflexivity.
    + intros g. unfold update_xueqiu_cookie, set_xueqiu_cookie. simpl.
      by apply xueqiu_setup_no_equals.
  - intros g name before after. unfold after, before, set_pump_fun_cookie.
    simpl. rewrite pump_update_cookies_merge. apply jar_update_keeps.
  - intros self name before after. unfold after, before.
    rewrite xueqiu_update_cookies_merge. apply jar_update_keeps.
  - intros g name before after. unfold after, before, update_xueqiu_cookie,
      XueqiuMarketData._setup_session. simpl. apply jar_update_keeps.
Qed.

Lemma cookie_set_keeps_session_witness :
  PumpFunMarketData._parse_cookie_string "noequalsign" = ∅ /\
  PumpFunMarketData.update_cookies
    (pump_fun_client (set_pump_fun_cookie "a=1" pump_fun_market_data.initial))
    "noequalsign" =
  pump_fun_client (set_pump_fun_cookie "a=1" pump_fun_market_data.initial) /\
  xueqiu_client
    (update_xueqiu_cookie "" (update_xueqiu_cookie "a=1" xueqiu_market_data.initial)) =
  xueqiu_client (update_xueqiu_cookie "a=1" xueqiu_market_data.initial).
Proof.
  split; [reflexivity|]. split.
  - apply (cookie_set_keeps_session "noequalsign"). reflexivity.
  - apply (cookie_set_keeps_session ""). reflexivity.
Defined.

(** C8 as stated fails: after the cookie "a=1" is set, setting the empty
    string (or a string with no pair) clears nothing, and the next request
    still carries a=1.  The same holds on the equity side. *)
Lemma cookie_set_empty_does_not_clear :
  let g := set_pump_fun_cookie "a=1" pump_fun_market_data.initial in
  let x := update_xueqiu_cookie "a=1" xueqiu_market_data.initial in
  PumpFunMarketData._parse_cookie_string "" = ∅ /\
  PumpFunMarketData._parse_cookie_string "noequalsign" = ∅ /\
  PumpFunMarketData.session_cookies (pump_fun_client (set_pump_fun_cookie "" g))
    = {[ "a" := "1" ]} /\
  PumpFunMarketData.session_cookies (pump_fun_client (set_pump_fun_cookie "" g))
    <> ∅ /\
  PumpFunMarketData.session_cookies
    (pump_fun_client (set_pump_fun_cookie "noequalsign" g)) = {[ "a" := "1" ]} /\
  map Requests.cookies
    (sent (get_pump_fun_coin (set_pump_fun_cookie "" g) "mint") offline)
    = [ {[ "a" := "1" ]} ] /\
  XueqiuMarketData.session_cookies (xueqiu_client (update_xueqiu_cookie "" x))
    = {[ "a" := "1" ]} /\
  XueqiuMarketData.session_cookies
    (XueqiuMarketData.update_cookies (xueqiu_client x) "") = {[ "a" := "1" ]}.
Proof.
  intros g x.
  assert (Hkept : PumpFunMarketData.session_cookies
                    (pump_fun_client (set_pump_fun_cookie "" g)) = {[ "a" := "1" ]})
    by (vm_compute; reflexivity).
  split; [vm_compute; reflexivity|]. split; [vm_compute; reflexivity|].
  split; [exact Hkept|]. split.
  { rewrite Hkept. apply insert_non_empty. }
  repeat split; vm_compute; reflexivity.
Qed.

(** ** The coin-market client *)

Section PumpFun.

Lemma get_coin_data_run self mint w :
  PumpFunMarketData.get_coin_data self mint w =
  ([coin_request self mint], Ok (coin_of_reply (send w (coin_request self mint)))).
Proof.
  unfold PumpFunMarketData.get_coin_data. run_io.
  fold (coin_request self mint).
  destruct (send w (coin_request self mint)) as [|status body]; [reflexivity|].
  simpl. destruct (status =? 200); [|by destruct body].
  by destruct body.
Qed.

(** The price is a function of the fetched record and of the mock table;
    one request is sent and nothing is raised. *)
Lemma get_last_price_from_pump_fun_run g mint w :
  get_last_price_from_pump_fun g mint w =
  ([coin_request (pump_fun_client g) mint],
   Ok (match price_of_coin (coin_of_reply (send w (coin_request (pump_fun_client g) mint))) with
       | Ok (Some p) => p
       | Ok None => default 0%float (mock_prices !! mint)
       | Raise _ => 0%float
       end)).
Proof.
  unfold get_last_price_from_pump_fun, get_pump_fun_coin, try_except.
  unfold mbind at 1. unfold io_mbind, io_bind.
  rewrite get_coin_data_run. run_io.
  destruct (price_of_coin _) as [[p|]|e]; simpl; [done| |done].
  by destruct (mock_prices !! mint).
Qed.

Lemma price_of_coin_record d cap :
  assoc "usd_market_cap" d = Some cap ->
  price_of_coin (JDict d) =
  (positive ← gt0 (supply_of d);
   if positive : bool then Some <$> truediv cap (supply_of d) else Ok None).
Proof.
  intros Hcap. unfold price_of_coin, supply_of.
  assert (truthy (JDict d) = true) as -> by (by destruct d).
  simpl. rewrite Hcap. by rewrite bool_decide_eq_true_2 by (by eexists).
Qed.

Lemma float_neq_by_eqb (x y : float) : PrimFloat.eqb x y = false -> PrimFloat.eqb y y = true -> x <> y.
Proof. intros Hxy Hyy ->. congruence. Qed.

End PumpFun.

(** C1, as the code has it: the price of a mint address is computed from
    the fetched coin record and never raised.  With [usd_market_cap] present
    and a positive [total_supply] (one billion when absent) it is their
    quotient, whenever that quotient is defined; when the record cannot be
    fetched or the supply is not positive it is the mock table's price for
    the three mock mint addresses and 0.0 for every other address. *)
Theorem derive_price_computed (g : pump_fun_market_data.globals)
    (mint : string) (w : world) :
  let coin := coin_of_reply (send w (coin_request (pump_fun_client g) mint)) in
  let price := result (get_last_price_from_pump_fun g mint) w in
  let unresolved :=
    coin = JNull \/
    exists d, coin = JDict d /\ is_Some (assoc "usd_market_cap" d) /\
              gt0 (supply_of d) = Ok false in
  result (get_pump_fun_coin g mint) w = Ok coin /\
  (exists p, price = Ok p) /\
  (forall d cap q,
     coin = JDict d -> assoc "usd_market_cap" d = Some cap ->
     gt0 (supply_of d) = Ok true -> truediv cap (supply_of d) = Ok q ->
     price = Ok q) /\
  (unresolved -> price = Ok (default 0%float (mock_prices !! mint))) /\
  (unresolved -> mock_prices !! mint = None -> price = Ok 0%float) /\
  (forall cap,
     cap = JInt 100000 \/ cap = JFloat 100000 ->
     coin = JDict [("usd_market_cap", cap); ("total_supply", JInt 1000000000)] \/
     coin = JDict [("usd_market_cap", cap)] ->
     price = Ok 0.0001%float) /\
  (forall cap,
     coin = JDict [("usd_market_cap", cap); ("total_supply", JInt 0)] ->
     mock_prices !! mint = None -> price = Ok 0%float).
Proof.
  intros coin price unresolved.
  assert (Hprice : price =
    Ok (match price_of_coin coin with
        | Ok (Some p) => p
        | Ok None => default 0%float (mock_prices !! mint)
        | Raise _ => 0%float
        end)).
  { unfold price, result. by rewrite get_last_price_from_pump_fun_run. }
  assert (Hunresolved : unresolved -> price_of_coin coin = Ok None).
  { intros [->|(d & -> & [cap Hcap] & Hsupply)]; [done|].
    rewrite (price_of_coin_record d cap Hcap), Hsupply. reflexivity. }
  split; [|split; [|split; [|split; [|split; [|split]]]]].
  - unfold result, get_pump_fun_coin. by rewrite get_coin_data_run.
  - rewrite Hprice. by eexists.
  - intros d cap q Hcoin Hcap Hpos Hq. rewrite Hprice, Hcoin.
    rewrite (price_of_coin_record d cap Hcap), Hpos. simpl.
    by rewrite Hq.
  - intros Hun. by rewrite Hprice, (Hunresolved Hun).
  - intros Hun Hmock. by rewrite Hprice, (Hunresolved Hun), Hmock.
  - intros cap Hcap Hcoin. rewrite Hprice.
    destruct Hcap as [->| ->], Hcoin as [->| ->]; reflexivity.
  - intros cap Hcoin Hmock. rewrite Hprice, Hcoin, Hmock.
    unfold price_of_coin. simpl. reflexivity.
Qed.

Lemma derive_price_computed_witness :
  result (get_last_price_from_pump_fun pump_fun_market_data.initial "So1ana")
    (serving (JDict [("usd_market_cap", JInt 100000);
                     ("total_supply", JInt 1000000000)]))
  = Ok 0.0001%float /\
  result (get_last_price_from_pump_fun pump_fun_market_data.initial "So1ana")
    (serving (JDict [("usd_market_cap", JInt 100000); ("total_supply", JInt 0)]))
  = Ok 0%float /\
  result (get_last_price_from_pump_fun pump_fun_market_data.initial "So1ana") offline
  = Ok 0%float.
Proof.
  split; [|split].
  - pose proof (derive_price_computed pump_fun_market_data.initial "So1ana"
                  (serving (JDict [("usd_market_cap", JInt 100000);
                                   ("total_supply", JInt 1000000000)])))
      as (_ & _ & _ & _ & _ & Hexample & _).
    apply (Hexample (JInt 100000)); left; reflexivity.
  - pose proof (derive_price_computed pump_fun_market_data.initial "So1ana"
                  (serving (JDict [("usd_market_cap", JInt 100000);
                                   ("total_supply", JInt 0)])))
      as (_ & _ & _ & _ & _ & _ & Hzero).
    apply (Hzero (JInt 100000)); reflexivity.
  - pose proof (derive_price_computed pump_fun_market_data.initial "So1ana" offline)
      as (_ & _ & _ & _ & Hdown & _).
    apply Hdown; [left|]; reflexivity.
Defined.

(** C1 as stated fails: the record of the first mock mint address cannot
    be fetched, yet the price is 0.0001 and not 0.0. *)
Lemma derive_price_unfetched_mock_not_zero :
  result (get_pump_fun_coin pump_fun_market_data.initial
            "11111111111111111111111111111112") offline = Ok JNull /\
  result (get_last_price_from_pump_fun pump_fun_market_data.initial
            "11111111111111111111111111111112") offline = Ok 0.0001%float /\
  0.0001%float <> 0%float.
Proof.
  split; [reflexivity|]. split; [reflexivity|].
  by apply float_neq_by_eqb.
Qed.

Lemma get_coins_list_run self limit offset sort order nsfw w :
  let r := coins_request self limit offset sort order nsfw in
  PumpFunMarketData.get_coins_list self limit offset sort order nsfw w =
  ([r],
   Ok (match send w r with
       | Unreachable => JList []
       | Response status body =>
           if status =? 200 then
             match body with
             | Some data => PumpFunMarketData._normalize_api_response data
             | None => JList []
             end
           else if status =? 530 then
             JList (PumpFunMarketData._get_mock_coins_data limit)
           else JList []
       end)).
Proof.
  intros r. unfold PumpFunMarketData.get_coins_list. run_io.
  fold (coins_request self limit offset sort order nsfw). fold r.
  destruct (send w r) as [|status body]; [reflexivity|].
  simpl. destruct (status =? 200).
  - by destruct body.
  - by destruct (status =? 530).
Qed.

(** C3: answered with status 530, [get_coins_list] returns the three
    synthetic records cut to the requested limit, in their fixed order
    (the first two for limit 2); on any other status than 200 and on a
    transport failure it returns the empty list; it never raises. *)
Theorem list_coins_degradation (self : PumpFunMarketData.t) (limit offset : Z)
    (sort order : string) (include_nsfw : bool) (w : world) :
  let r := coins_request self limit offset sort order include_nsfw in
  let coins :=
    PumpFunMarketData.get_coins_list self limit offset sort order include_nsfw in
  sent coins w = [r] /\
  (exists listed, result coins w = Ok listed) /\
  length PumpFunMarketData.mock_coins = 3%nat /\
  (forall body,
     send w r = Response 530 body ->
     result coins w = Ok (JList (slice_to PumpFunMarketData.mock_coins limit)) /\
     (0 <= limit ->
      result coins w =
        Ok (JList (take (Z.to_nat limit) PumpFunMarketData.mock_coins))) /\
     (limit = 2 ->
      result coins w =
        Ok (JList [ PumpFunMarketData.mock_coin
                      "11111111111111111111111111111112" "TestCoin" "TEST"
                      "A test meme coin for simulation"
                      100000 1700000000 1700001000;
                    PumpFunMarketData.mock_coin
                      "22222222222222222222222222222223" "MoonDoge" "MDOGE"
                      "Going to the moon with this doge"
                      250000 1700000100 1700001100 ]))) /\
  (forall status body,
     send w r = Response status body -> status <> 200 -> status <> 530 ->
     result coins w = Ok (JList [])) /\
  (send w r = Unreachable -> result coins w = Ok (JList [])).
Proof.
  intros r coins.
  pose proof (get_coins_list_run self limit offset sort order include_nsfw w) as Hrun.
  fold r coins in Hrun. unfold sent, result. rewrite Hrun. simpl.
  split; [done|]. split; [by eexists|]. split; [done|].
  split; [|split].
  - intros body ->. simpl.
    unfold PumpFunMarketData._get_mock_coins_data, slice_to.
    split; [done|]. split.
    + intros Hlimit. by rewrite (proj2 (Z.ltb_ge limit 0) Hlimit).
    + by intros ->.
  - intros status body -> H200 H530.
    by rewrite (proj2 (Z.eqb_neq status 200) H200), (proj2 (Z.eqb_neq status 530) H530).
  - by intros ->.
Qed.

Lemma list_coins_degradation_witness :
  result (PumpFunMarketData.get_coins_list (PumpFunMarketData.__init__ None)
            2 0 "last_trade_timestamp" "DESC" false)
    {| send := fun _ => Response 530 None; time_ms := 0; hour := 0; isoformat := "" |}
  = Ok (JList (take 2 PumpFunMarketData.mock_coins)) /\
  result (PumpFunMarketData.get_coins_list (PumpFunMarketData.__init__ None)
            2 0 "last_trade_timestamp" "DESC" false)
    {| send := fun _ => Response 503 None; time_ms := 0; hour := 0; isoformat := "" |}
  = Ok (JList []) /\
  result (PumpFunMarketData.get_coins_list (PumpFunMarketData.__init__ None)
            2 0 "last_trade_timestamp" "DESC" false) offline
  = Ok (JList []).
Proof.
  split; [|split].
  - pose proof (list_coins_degradation (PumpFunMarketData.__init__ None)
                  2 0 "last_trade_timestamp" "DESC" false
                  {| send := fun _ => Response 530 None; time_ms := 0; hour := 0;
                     isoformat := "" |}) as (_ & _ & _ & Hdegraded & _).
    apply (Hdegraded None); [reflexivity|lia].
  - pose proof (list_coins_degradation (PumpFunMarketData.__init__ None)
                  2 0 "last_trade_timestamp" "DESC" false
                  {| send := fun _ => Response 503 None; time_ms := 0; hour := 0;
                     isoformat := "" |}) as (_ & _ & _ & _ & Hother & _).
    apply (Hother 503 None); [reflexivity|lia|lia].
  - pose proof (list_coins_degradation (PumpFunMarketData.__init__ None)
                  2 0 "last_trade_timestamp" "DESC" false offline)
      as (_ & _ & _ & _ & _ & Hdown).
    apply Hdown. reflexivity.
Defined.

(** C10: for each of the three mock coins the price in the fallback table
    is [usd_market_cap / total_supply] of the mock record, 0.0001, 0.00025
    and 0.0005, so the price of a mock mint address is the same whether
    its mock record is what was fetched or nothing could be fetched. *)
Theorem mock_prices_match_mock_coins :
  PumpFunMarketData._get_mock_coins_data 3 = PumpFunMarketData.mock_coins /\
  Forall2
    (fun (coin : json) (quoted : string * float) =>
       let '(mint, price) := quoted in
       getitem coin "mint" = Ok (JStr mint) /\
       (cap ← getitem coin "usd_market_cap";
        supply ← getitem coin "total_supply";
        truediv cap supply) = Ok price /\
       mock_prices !! mint = Some price /\
       forall g w,
         let fetched := coin_of_reply (send w (coin_request (pump_fun_client g) mint)) in
         fetched = coin \/ fetched = JNull ->
         result (get_last_price_from_pump_fun g mint) w = Ok price)
    PumpFunMarketData.mock_coins
    [ ("11111111111111111111111111111112", 0.0001%float);
      ("22222222222222222222222222222223", 0.00025%float);
      ("33333333333333333333333333333334", 0.0005%float) ].
Proof.
  split; [reflexivity|].
  repeat (apply Forall2_cons; split); [ .. | by apply Forall2_nil ];
    (split; [reflexivity|]; split; [reflexivity|]; split; [reflexivity|];
     intros g w fetched Hfetched;
     unfold result; rewrite get_last_price_from_pump_fun_run; simpl;
     fold fetched; destruct Hfetched as [-> | ->]; reflexivity).
Qed.

Lemma mock_prices_match_mock_coins_witness :
  result (get_last_price_from_pump_fun pump_fun_market_data.initial
            "22222222222222222222222222222223") offline = Ok 0.00025%float.
Proof.
  pose proof mock_prices_match_mock_coins as [_ Hall].
  apply Forall2_cons_1 in Hall as [_ Hall].
  apply Forall2_cons_1 in Hall as [(_ & _ & _ & Hsame) _].
  apply Hsame. right. reflexivity.
Defined.

(** ** The market router *)

Section Router.
Context `{Runtime}.

(** Comparisons of a binary64 with zero. *)
Lemma float_le0_not_gt0 (x : float) :
  PrimFloat.leb x 0 = true -> PrimFloat.ltb 0 x = false.
Proof.
  intros Hle. rewrite FloatAxioms.leb_spec in Hle. rewrite FloatAxioms.ltb_spec.
  unfold SFleb, SFltb in *.
  change (Prim2SF 0) with (S754_zero false) in *.
  destruct (Prim2SF x) as [s|s| |s m e]; try destruct s; simpl in *; congruence.
Qed.

Lemma float_gt0_not_zero (x : float) :
  PrimFloat.ltb 0 x = true -> PrimFloat.eqb x 0 = false.
Proof.
  intros Hlt. rewrite FloatAxioms.ltb_spec in Hlt. rewrite FloatAxioms.eqb_spec.
  unfold SFeqb, SFltb in *.
  change (Prim2SF 0) with (S754_zero false) in *.
  destruct (Prim2SF x) as [s|s| |s m e]; try destruct s; simpl in *; congruence.
Qed.

(** The shape shared by the two branches of [get_last_price]: a price is
    returned only after the check [price and price > 0], and whatever is
    raised is wrapped. *)
Lemma checked_price_run (source : io float) (invalid : float -> exn)
    (wrap : exn -> exn) (w : world) :
  let checked :=
    try_except
      (price ← source;
       if negb (PrimFloat.eqb price 0) && PrimFloat.ltb 0 price then mret price
       else throw (invalid price))
      (fun e => throw (wrap e)) in
  sent checked w = sent source w /\
  result checked w =
    match result source w with
    | Ok price =>
        if PrimFloat.ltb 0 price then Ok price else Raise (wrap (invalid price))
    | Raise e => Raise (wrap e)
    end.
Proof.
  run_io. destruct (source w) as [requests [price|e]]; simpl.
  - destruct (PrimFloat.ltb 0 price) eqn:Hpos.
    + rewrite (float_gt0_not_zero price Hpos). simpl. by rewrite app_nil_r.
    + rewrite andb_false_r. simpl. by rewrite !app_nil_r.
  - by rewrite app_nil_r.
Qed.

(** C2: [get_last_price] either returns a price that is strictly positive
    or raises the error that wraps the cause; on the coin-market path it
    raises whenever the derived price is not strictly positive, in
    particular when it is zero or negative.  On the other path the cause
    wrapped is the error [get_last_price_from_xueqiu] raised, or the
    router's own for a price it returned that is not strictly positive, and
    the requests sent are those of that function. *)
Theorem router_price_positive_or_raises (g : market_data.globals)
    (symbol market : string) (w : world) :
  let routed := result (market_data.get_last_price g symbol market) w in
  match routed with
  | Ok price => PrimFloat.ltb 0 price = true
  | Raise e => exists cause, e = price_unavailable symbol market cause
  end /\
  (upper market = "PUMP" ->
   exists price,
     result (get_last_price_from_pump_fun (market_data.pump g) symbol) w = Ok price /\
     (PrimFloat.leb price 0 = true -> PrimFloat.ltb 0 price = false) /\
     (PrimFloat.ltb 0 price = false ->
      routed = Raise (price_unavailable symbol market (invalid_pump_price price))) /\
     (PrimFloat.ltb 0 price = true -> routed = Ok price)) /\
  (upper market <> "PUMP" ->
   sent (market_data.get_last_price g symbol market) w =
     sent (get_last_price_from_xueqiu (market_data.xueqiu g) symbol market) w /\
   match result (get_last_price_from_xueqiu (market_data.xueqiu g) symbol market) w with
   | Ok price =>
       (PrimFloat.ltb 0 price = true -> routed = Ok price) /\
       (PrimFloat.ltb 0 price = false ->
        routed =
          Raise (price_unavailable symbol market (invalid_xueqiu_price price)))
   | Raise cause => routed = Raise (price_unavailable symbol market cause)
   end).
Proof.
  intros routed. unfold routed, market_data.get_last_price.
  destruct (String.eqb (upper market) "PUMP") eqn:Hpump.
  - pose proof (checked_price_run
                  (get_last_price_from_pump_fun (market_data.pump g) symbol)
                  invalid_pump_price (price_unavailable symbol market) w)
      as [_ Hrun].
    apply String.eqb_eq in Hpump as Hup.
    pose proof (get_last_price_from_pump_fun_run (market_data.pump g) symbol w)
      as Hsource.
    apply (f_equal snd) in Hsource. simpl in Hsource.
    fold (result (get_last_price_from_pump_fun (market_data.pump g) symbol) w)
      in Hsource.
    unfold price_unavailable, invalid_pump_price in *.
    rewrite Hrun, Hsource.
    split; [|split; [|by intros ?]].
    + destruct (PrimFloat.ltb 0 _) eqn:Hpos; [done|by eexists].
    + intros _. eexists. split; [reflexivity|].
      split; [apply float_le0_not_gt0|]. split; by intros ->.
  - apply String.eqb_neq in Hpump.
    pose proof (checked_price_run
                  (get_last_price_from_xueqiu (market_data.xueqiu g) symbol market)
                  invalid_xueqiu_price
                  (price_unavailable symbol market) w) as [Hsent Hrun].
    unfold price_unavailable, invalid_xueqiu_price in *.
    split; [|split; [by intros ?|]].
    + rewrite Hrun.
      destruct (result (get_last_price_from_xueqiu _ _ _) w) as [price|e]; [|by eexists].
      destruct (PrimFloat.ltb 0 price) eqn:Hpos; [done|by eexists].
    + intros _. split; [exact Hsent|]. rewrite Hrun.
      destruct (result (get_last_price_from_xueqiu _ _ _) w) as [price|e]; [|done].
      split; by intros ->.
Qed.

(** C4: for every market tag that upper-cases to "PUMP",
    [get_kline_data] returns the empty list whatever the symbol, the period
    and the count; it sends no request and raises nothing. *)
Theorem pump_candles_always_empty (g : market_data.globals)
    (symbol market period : string) (count : Z) (w : world) :
  upper market = "PUMP" ->
  market_data.get_kline_data g symbol market period count w = ([], Ok []) /\
  sent (market_data.get_kline_data g symbol market period count) w = [] /\
  result (market_data.get_kline_data g symbol market period count) w = Ok [].
Proof.
  intros Hpump. unfold sent, result, market_data.get_kline_data.
  by rewrite Hpump.
Qed.

End Router.

Lemma router_price_positive_or_raises_witness :
  result (market_data.get_last_price (H := sample_runtime) fresh "So1ana" "pump")
    offline
  = Raise (price_unavailable "So1ana" "pump" (invalid_pump_price 0)).
Proof.
  pose proof (router_price_positive_or_raises (H := sample_runtime)
                fresh "So1ana" "pump" offline) as [_ [Hpump _]].
  destruct (Hpump eq_refl) as (price & Hprice & _ & Hraise & _).
  assert (price = 0%float) as -> by (vm_compute in Hprice; congruence).
  apply Hraise. reflexivity.
Defined.

Lemma pump_candles_always_empty_witness :
  upper "Pump" = "PUMP" /\
  market_data.get_kline_data (H := sample_runtime) fresh "So1ana" "Pump" "1d" 100
    (serving (JDict [])) = ([], Ok []).
Proof.
  split; [reflexivity|].
  apply (pump_candles_always_empty (H := sample_runtime)). reflexivity.
Defined.

(** ** Market status *)

(** C9: for a market tag that upper-cases to "PUMP", [get_market_status]
    returns the fixed record (OPEN, Pump.fun, 24/7) whatever the symbol and
    the clock, and consults nothing; for every other tag it returns what
    the equity client returns, whose status is TRADING or CLOSED by the
    hour of the clock, and which is never the fixed record. *)
Theorem market_status_routing (g : market_data.globals)
    (symbol market : string) (w : world) :
  let routed := market_data.get_market_status g symbol market in
  market_data.pump_status =
    {[ "market_status" := JStr "OPEN"; "market_name" := JStr "Pump.fun";
       "trading_hours" := JStr "24/7" ]} /\
  (upper market = "PUMP" -> routed w = ([], Ok market_data.pump_status)) /\
  (upper market <> "PUMP" ->
   exists status,
     result routed w = Ok status /\
     result (XueqiuMarketData.get_market_status
               (xueqiu_client (market_data.xueqiu g)) symbol) w = Ok status /\
     status !! "symbol" = Some (JStr symbol) /\
     status !! "market_status" =
       Some (JStr (if trading_hour (hour w) then "TRADING" else "CLOSED")) /\
     status !! "trading_hours" = None /\
     status <> market_data.pump_status).
Proof.
  intros routed. unfold routed, market_data.get_market_status.
  split; [reflexivity|]. split.
  - intros Hpump. by rewrite Hpump.
  - intros Hother. apply String.eqb_neq in Hother. rewrite Hother.
    eexists. split; [reflexivity|]. split; [reflexivity|].
    split; [reflexivity|]. split; [reflexivity|]. split; [reflexivity|].
    intros Hsame.
    apply (f_equal (fun status : gmap string json => status !! "trading_hours")) in Hsame.
    vm_compute in Hsame. discriminate Hsame.
Qed.

Lemma market_status_routing_witness :
  market_data.get_market_status fresh "MSFT" "pUmP" offline
    = ([], Ok market_data.pump_status) /\
  exists status,
    result (market_data.get_market_status fresh "MSFT" "US") offline = Ok status /\
    status !! "market_status" = Some (JStr "CLOSED").
Proof.
  pose proof (market_status_routing fresh "MSFT" "pUmP" offline) as (_ & Hpump & _).
  pose proof (market_status_routing fresh "MSFT" "US" offline) as (_ & _ & Hother).
  split; [by apply Hpump|].
  destruct Hother as (status & Hrouted & _ & _ & Hstatus & _); [discriminate|].
  exists status. by split.
Defined.

(** ** The equity client's latest price *)

Section LatestPrice.
Context `{Runtime}.

Lemma current_price_of_yields data price :
  XueqiuMarketData.current_price_of data = Ok (Some price) <->
  exists d inner quote current,
    data = JDict d /\
    assoc "data" d = Some (JDict inner) /\
    assoc "quote" inner = Some (JDict quote) /\
    assoc "current" quote = Some current /\
    truthy current = true /\
    float_ current = Ok price /\
    PrimFloat.ltb 0 price = true.
Proof.
  unfold XueqiuMarketData.current_price_of. split.
  - destruct data as [ | | | | t | l | d ]; simpl; try discriminate.
    + run_outcome. by destruct (contains "data" t).
    + run_outcome. by destruct (existsb (eq_str "data") l).
    + run_outcome. destruct (assoc "data" d) as [inner|] eqn:Hinner.
      2:{ rewrite bool_decide_eq_false_2 by (by intros [? ?]). discriminate. }
      rewrite bool_decide_eq_true_2 by (by eexists).
      destruct inner as [ | | | | t | l | inner ]; simpl; try discriminate.
      * by destruct (contains "quote" t).
      * by destruct (existsb (eq_str "quote") l).
      * destruct (assoc "quote" inner) as [quote|] eqn:Hquote.
        2:{ rewrite bool_decide_eq_false_2 by (by intros [? ?]). discriminate. }
        rewrite bool_decide_eq_true_2 by (by eexists).
        destruct quote as [ | | | | | | quote ]; simpl; try discriminate.
        destruct (assoc "current" quote) as [current|] eqn:Hcurrent;
          simpl; [|discriminate].
        destruct (truthy current) eqn:Htruthy; [|discriminate].
        destruct (float_ current) as [p|] eqn:Hfloat; [|discriminate].
        destruct (PrimFloat.ltb 0 p) eqn:Hpos; [|discriminate].
        intros [= <-]. by exists d, inner, quote, current.
  - intros (d & inner & quote & current & -> & Hinner & Hquote & Hcurrent &
            Htruthy & Hfloat & Hpos).
    simpl. run_outcome. rewrite Hinner.
    rewrite bool_decide_eq_true_2 by (by eexists). simpl. rewrite Hquote.
    rewrite bool_decide_eq_true_2 by (by eexists). simpl.
    by rewrite Hcurrent; simpl; rewrite Htruthy, Hfloat, Hpos.
Qed.

(** The quote branch sends its one request, raises nothing, and returns a
    price exactly when the reply carries a positive current price. *)
Lemma quote_price_run self symbol w :
  exists quoted,
    XueqiuMarketData.quote_price self symbol w =
      ([quote_request self symbol], Ok quoted) /\
    forall price,
      quoted = Some price <-> quote_yields (send w (quote_request self symbol)) price.
Proof.
  unfold XueqiuMarketData.quote_price. run_io.
  fold (quote_request self symbol). unfold quote_yields.
  destruct (send w (quote_request self symbol)) as [|status body].
  { exists None. split; [reflexivity|].
    intros price. split; [discriminate|]. by intros (? & ? & ? & ? & ? & ? & _). }
  unfold raise_for_status. simpl.
  destruct ((400 <=? status) && (status <? 600)) eqn:Herror; simpl.
  { exists None. split; [reflexivity|].
    intros price. split; [discriminate|].
    intros (? & ? & ? & ? & ? & [= <- _] & Hstatus & _). lia. }
  assert (Hstatus : status < 400 \/ 600 <= status) by lia.
  destruct body as [data|]; simpl.
  2:{ exists None. split; [reflexivity|].
      intros price. split; [discriminate|]. by intros (? & ? & ? & ? & ? & ? & _). }
  destruct (XueqiuMarketData.current_price_of data) as [quoted|e] eqn:Hquoted; simpl.
  - exists quoted. split; [reflexivity|]. intros price. split.
    + intros ->. apply current_price_of_yields in Hquoted
        as (d & inner & quote & current & -> & Hrest).
      by exists status, d, inner, quote, current.
    + intros (? & d & inner & quote & current & [= <- ->] & _ & Hrest).
      assert (XueqiuMarketData.current_price_of (JDict d) = Ok (Some price)) as Hsome.
      { apply current_price_of_yields. by exists d, inner, quote, current. }
      congruence.
  - exists None. split; [reflexivity|]. intros price. split; [discriminate|].
    intros (? & d & inner & quote & current & [= <- ->] & _ & Hrest).
    assert (XueqiuMarketData.current_price_of (JDict d) = Ok (Some price)) as Hsome.
    { apply current_price_of_yields. by exists d, inner, quote, current. }
    congruence.
Qed.

Lemma get_kline_data_run self symbol period count w :
  let r := kline_request self symbol (api_period_of period) (- Z.abs count)
             (time_ms w) in
  XueqiuMarketData.get_kline_data self symbol period count w =
  ([r], Ok (kline_of_reply (send w r))).
Proof.
  intros r. unfold XueqiuMarketData.get_kline_data. run_io. simpl.
  fold (api_period_of period).
  fold (kline_request self symbol (api_period_of period) (- Z.abs count) (time_ms w)).
  fold r. destruct (send w r) as [|status body]; [reflexivity|].
  simpl. destruct (status =? 200); simpl; [|by destruct body].
  destruct body as [data|]; simpl; [|reflexivity].
  by destruct (XueqiuMarketData.checked_kline data).
Qed.

Lemma kline_price_run self symbol w :
  let candle := kline_request self symbol "day" (-1) (time_ms w) in
  XueqiuMarketData.kline_price self symbol w =
  ([candle], XueqiuMarketData.close_of_kline (kline_of_reply (send w candle))).
Proof.
  intros candle. unfold XueqiuMarketData.kline_price.
  unfold mbind, io_mbind, io_bind.
  rewrite (get_kline_data_run self symbol "day" 1 w). reflexivity.
Qed.





End LatestPrice.


(** ** Candle normalisation *)

Section Candles.
Context `{Runtime}.

Lemma set_field_row column_map cells kline_dict field kline_dict' :
  XueqiuMarketData.set_field column_map (JList cells) kline_dict field = Ok kline_dict' ->
  stored_as (cell_in column_map cells field)
    (kline_dict !! field) (kline_dict' !! field) /\
  forall other, other <> field -> kline_dict' !! other = kline_dict !! other.
Proof.
  unfold XueqiuMarketData.set_field, cell_in, stored_as.
  destruct (column_map !! field) as [i|]; simpl; [|by intros [= <-]].
  run_outcome. destruct (i <? length cells)%nat eqn:Hin.
  - apply Nat.ltb_lt, lookup_lt_is_Some in Hin as [value Hvalue].
    rewrite Hvalue.
    destruct value as [ | b | n | f | t | l | d ]; cbn beta iota;
      try (destruct (float_ _) as [x|e] eqn:Hfloat; cbn beta iota; [|discriminate]);
      intros [= <-]; rewrite lookup_insert_eq;
      (split; [by eauto|]); intros other Hother; by rewrite lookup_insert_ne.
  - apply Nat.ltb_ge in Hin. rewrite (lookup_ge_None_2 _ _ Hin).
    by intros [= <-].
Qed.

Lemma set_fields_row column_map cells fields :
  forall kline_dict kline_dict',
    NoDup fields ->
    XueqiuMarketData.set_fields column_map (JList cells) fields kline_dict
      = Ok kline_dict' ->
    forall field,
      (field ∈ fields ->
       stored_as (cell_in column_map cells field)
         (kline_dict !! field) (kline_dict' !! field)) /\
      (field ∉ fields -> kline_dict' !! field = kline_dict !! field).
Proof.
  induction fields as [|first rest IH]; intros kline_dict kline_dict' Hnodup.
  - simpl. intros [= <-] field. split; [by intros ?%elem_of_nil|done].
  - apply NoDup_cons in Hnodup as [Hfresh Hnodup]. simpl. run_outcome.
    destruct (XueqiuMarketData.set_field _ _ kline_dict first) as [mid|e] eqn:Hfirst;
      [|discriminate].
    intros Hrest field.
    apply set_field_row in Hfirst as [Hstored Hothers].
    destruct (IH mid kline_dict' Hnodup Hrest field) as [Hin Hout].
    destruct (decide (field = first)) as [->|Hne].
    + rewrite (Hout Hfresh). split; [done|]. intros Hnot. exfalso. apply Hnot. by left.
    + rewrite <- (Hothers field Hne). split.
      * intros [?|?]%elem_of_cons; [done|]. by apply Hin.
      * intros Hnot. apply Hout. intros ?. apply Hnot. by right.
Qed.

(** The name→index map of a list of column names: a name is mapped to the
    index of its last occurrence, counted from [i]. *)
Lemma column_map_from_names (names : list string) :
  forall (i : nat) (m0 : gmap string nat),
  exists m,
    XueqiuMarketData.column_map_from i (JStr <$> names) m0 = Ok m /\
    forall name k,
      m !! name = Some k <->
      (exists j, k = (i + j)%nat /\ names !! j = Some name /\
                 forall j', (j < j')%nat -> names !! j' <> Some name) \/
      ((name ∉ names) /\ m0 !! name = Some k).
Proof.
  induction names as [|n rest IH]; intros i m0.
  - exists m0. split; [done|]. intros name k. split.
    + intros Hk. right. split; [apply not_elem_of_nil|done].
    + intros [(j & _ & Hj & _)|[_ Hk]]; [done|done].
  - destruct (IH (S i) (<[n:=i]> m0)) as (m & Hm & Hiff).
    exists m. split; [exact Hm|]. intros name k. rewrite Hiff. clear Hiff Hm.
    split.
    + intros [(j & -> & Hj & Hlast)|[Hnot Hk]].
      * left. exists (S j). split; [lia|]. split; [done|].
        intros [|j'] Hlt; [lia|]. simpl. apply Hlast. lia.
      * destruct (decide (n = name)) as [->|Hne].
        -- rewrite lookup_insert_eq in Hk. injection Hk as <-.
           left. exists 0%nat. split; [lia|]. split; [done|].
           intros [|j'] Hlt; [lia|]. simpl. intros Hj'.
           apply Hnot. by apply list_elem_of_lookup_2 in Hj'.
        -- rewrite lookup_insert_ne in Hk by done.
           right. split; [|done]. by intros [?|?]%elem_of_cons.
    + intros [(j & -> & Hj & Hlast)|[Hnot Hk]].
      * destruct j as [|j]; simpl in Hj.
        -- injection Hj as ->. right. split.
           ++ intros [j' Hj']%list_elem_of_lookup_1.
              by apply (Hlast (S j')); [lia|].
           ++ rewrite lookup_insert_eq. f_equal. lia.
        -- left. exists j. split; [lia|]. split; [done|].
           intros j' Hlt. apply (Hlast (S j')). lia.
      * right. split; [by intros ?; apply Hnot; right|].
        rewrite lookup_insert_ne; [done|]. intros ->. apply Hnot. by left.
Qed.

Lemma set_timestamp_row column_map cells kline_dict :
  XueqiuMarketData.set_timestamp column_map (JList cells) ∅ = Ok kline_dict ->
  match cell_in column_map cells "timestamp" with
  | None => kline_dict = ∅
  | Some timestamp =>
      exists seconds moment,
        truediv timestamp (JInt 1000) = Ok seconds /\
        fromtimestamp seconds = Ok moment /\
        kline_dict = <["datetime" := XueqiuMarketData.Moment moment]>
                       (<["timestamp" := XueqiuMarketData.Raw timestamp]> ∅)
  end.
Proof.
  unfold XueqiuMarketData.set_timestamp, cell_in.
  destruct (column_map !! "timestamp") as [i|]; simpl; [|by intros [= <-]].
  run_outcome. destruct (i <? length cells)%nat eqn:Hin.
  - apply Nat.ltb_lt, lookup_lt_is_Some in Hin as [timestamp Htimestamp].
    rewrite Htimestamp.
    destruct (truediv timestamp (JInt 1000)) as [seconds|] eqn:Hseconds;
      [|discriminate].
    destruct (fromtimestamp seconds) as [moment|] eqn:Hmoment; [|discriminate].
    intros [= <-]. by exists seconds, moment.
  - apply Nat.ltb_ge in Hin. rewrite (lookup_ge_None_2 _ _ Hin).
    by intros [= <-].
Qed.

(** A parsed row holds, under each field name, the projection of the row
    at the column of that name, and nothing under any other name. *)
Lemma parse_item_row column_map cells candle :
  XueqiuMarketData.parse_item column_map (JList cells) = Ok candle ->
  match cell_in column_map cells "timestamp" with
  | None => candle !! "timestamp" = None /\ candle !! "datetime" = None
  | Some timestamp =>
      candle !! "timestamp" = Some (XueqiuMarketData.Raw timestamp) /\
      exists seconds moment,
        truediv timestamp (JInt 1000) = Ok seconds /\
        fromtimestamp seconds = Ok moment /\
        candle !! "datetime" = Some (XueqiuMarketData.Moment moment)
  end /\
  (forall field,
     field ∈ numeric_fields ->
     stored_as (cell_in column_map cells field) None (candle !! field)) /\
  (forall other,
     other ∉ "timestamp" :: "datetime" :: numeric_fields ->
     candle !! other = None).
Proof.
  unfold XueqiuMarketData.parse_item. run_outcome.
  destruct (XueqiuMarketData.set_timestamp _ _ _) as [stamped|] eqn:Hstamped;
    [|discriminate].
  destruct (XueqiuMarketData.set_fields _ _ _ stamped) as [priced|] eqn:Hpriced;
    [|discriminate].
  intros Hchanged.
  apply set_timestamp_row in Hstamped.
  assert (Hnodup6 : NoDup ["open"; "high"; "low"; "close"; "volume"; "amount"])
    by (apply (bool_decide_unpack _); by vm_compute).
  assert (Hnodup2 : NoDup ["chg"; "percent"])
    by (apply (bool_decide_unpack _); by vm_compute).
  pose proof (set_fields_row _ _ _ _ _ Hnodup6 Hpriced) as Hsix.
  pose proof (set_fields_row _ _ _ _ _ Hnodup2 Hchanged) as Htwo.
  assert (Hkeep : forall name,
            name ∉ numeric_fields -> candle !! name = stamped !! name).
  { intros name Hname.
    rewrite (proj2 (Htwo name)), (proj2 (Hsix name)); [done| |];
      intros Hin; apply Hname; names_solver. }
  assert (Hfresh : forall field, field ∈ numeric_fields -> stamped !! field = None).
  { intros field Hfield.
    destruct (cell_in column_map cells "timestamp") as [timestamp|].
    - destruct Hstamped as (seconds & moment & _ & _ & ->).
      rewrite !lookup_insert_ne; [done| |];
        intros <-; names_solver.
    - by subst. }
  split; [|split].
  - rewrite !Hkeep by (names_solver).
    destruct (cell_in column_map cells "timestamp") as [timestamp|].
    + destruct Hstamped as (seconds & moment & Hseconds & Hmoment & ->).
      split; [done|]. by exists seconds, moment.
    + by subst.
  - intros field Hfield.
    destruct (decide (field ∈ ["chg"; "percent"])) as [Hlate|Hearly].
    + pose proof (proj1 (Htwo field) Hlate) as Hstored.
      rewrite (proj2 (Hsix field)) in Hstored by names_solver.
      by rewrite (Hfresh field Hfield) in Hstored.
    + rewrite (proj2 (Htwo field) Hearly).
      assert (field ∈ ["open"; "high"; "low"; "close"; "volume"; "amount"]) as Hin
        by (names_solver).
      pose proof (proj1 (Hsix field) Hin) as Hstored.
      by rewrite (Hfresh field Hfield) in Hstored.
  - intros other Hother.
    rewrite Hkeep by names_solver.
    destruct (cell_in column_map cells "timestamp") as [timestamp|].
    + destruct Hstamped as (seconds & moment & _ & _ & ->).
      rewrite !lookup_insert_ne; [done| |]; intros <-; names_solver.
    + by subst.
Qed.

Lemma parse_items_rows column_map rows :
  forall candles,
    XueqiuMarketData.parse_items column_map rows = Ok candles ->
    Forall2 (fun row candle => XueqiuMarketData.parse_item column_map row = Ok candle)
      rows candles.
Proof.
  induction rows as [|row rows IH]; intros candles; simpl.
  - intros [= <-]. constructor.
  - run_outcome.
    destruct (XueqiuMarketData.parse_item column_map row) as [candle|] eqn:Hrow;
      [|discriminate].
    destruct (XueqiuMarketData.parse_items column_map rows) as [parsed|];
      [|discriminate].
    intros [= <-]. constructor; [done|]. by apply IH.
Qed.

(** A cell the row does not have is passed over, and a cell that can be
    converted raises nothing. *)
Lemma set_field_total column_map cells kline_dict field :
  (forall value,
     cell_in column_map cells field = Some value ->
     value = JNull \/ exists x, float_ value = Ok x) ->
  exists kline_dict',
    XueqiuMarketData.set_field column_map (JList cells) kline_dict field
    = Ok kline_dict'.
Proof.
  unfold XueqiuMarketData.set_field, cell_in.
  destruct (column_map !! field) as [i|]; simpl; [|by eexists].
  intros Hvalue. run_outcome. destruct (i <? length cells)%nat eqn:Hin; [|by eexists].
  apply Nat.ltb_lt, lookup_lt_is_Some in Hin as [value Hcell].
  rewrite Hcell. destruct (Hvalue value Hcell) as [->|[x Hx]]; [by eexists|].
  rewrite Hx. destruct value; by eexists.
Qed.

Lemma set_fields_total column_map cells fields :
  (forall field value,
     field ∈ fields ->
     cell_in column_map cells field = Some value ->
     value = JNull \/ exists x, float_ value = Ok x) ->
  forall kline_dict,
  exists kline_dict',
    XueqiuMarketData.set_fields column_map (JList cells) fields kline_dict
    = Ok kline_dict'.
Proof.
  induction fields as [|field fields IH]; intros Hfields kline_dict.
  - by eexists.
  - cbn [XueqiuMarketData.set_fields]. run_outcome.
    destruct (set_field_total column_map cells kline_dict field) as [mid ->].
    { intros value. apply Hfields. by left. }
    apply IH. intros other value Hother. apply Hfields. by right.
Qed.

Lemma parse_item_total column_map cells :
  convertible_row column_map cells ->
  exists candle, XueqiuMarketData.parse_item column_map (JList cells) = Ok candle.
Proof.
  intros [Htimestamp Hnumeric]. unfold XueqiuMarketData.parse_item.
  assert (exists stamped,
            XueqiuMarketData.set_timestamp column_map (JList cells) ∅ = Ok stamped)
    as [stamped Hstamped].
  { unfold XueqiuMarketData.set_timestamp, cell_in in *.
    destruct (column_map !! "timestamp") as [i|]; simpl in *; [|by eexists].
    run_outcome. destruct (i <? length cells)%nat eqn:Hin; [|by eexists].
    apply Nat.ltb_lt, lookup_lt_is_Some in Hin as [timestamp Hcell].
    rewrite Hcell.
    destruct (Htimestamp timestamp Hcell) as (seconds & moment & -> & ->).
    by eexists. }
  run_outcome. rewrite Hstamped.
  destruct (set_fields_total column_map cells
              ["open"; "high"; "low"; "close"; "volume"; "amount"]) with stamped
    as [priced ->].
  { intros field value Hfield. apply Hnumeric. names_solver. }
  apply set_fields_total.
  intros field value Hfield. apply Hnumeric. names_solver.
Qed.

Lemma parse_items_total column_map rows :
  Forall (fun row => exists cells,
            row = JList cells /\ convertible_row column_map cells) rows ->
  exists candles,
    XueqiuMarketData.parse_items column_map rows = Ok candles /\
    length candles = length rows.
Proof.
  induction 1 as [|row rows (cells & -> & Hcells) Hrows (candles & IH & Hlength)].
  - by exists [].
  - cbn [XueqiuMarketData.parse_items]. run_outcome.
    destruct (parse_item_total column_map cells Hcells) as [candle ->].
    rewrite IH. exists (candle :: candles). split; [done|]. simpl. by rewrite Hlength.
Qed.

Lemma example_kline_parsed moment :
  fromtimestamp 1700000000 = Ok moment ->
  XueqiuMarketData.parse_kline_data example_kline =
  Ok [ <["close" := XueqiuMarketData.Number 42.5]>
         (<["datetime" := XueqiuMarketData.Moment moment]>
            (<["timestamp" := XueqiuMarketData.Raw (JInt 1700000000000)]> ∅)) ].
Proof.
  intros Hmoment. vm_compute. vm_compute in Hmoment. rewrite Hmoment. reflexivity.
Qed.

(** A well-formed body is parsed row by row with the map of its columns. *)
Lemma parse_kline_data_rows d inner names rows column_map :
  assoc "data" d = Some (JDict inner) ->
  assoc "column" inner = Some (JList (JStr <$> names)) ->
  assoc "item" inner = Some (JList rows) ->
  names <> [] -> rows <> [] ->
  XueqiuMarketData.column_map_from 0 (JStr <$> names) ∅ = Ok column_map ->
  XueqiuMarketData.parse_kline_data (JDict d) =
  XueqiuMarketData.parse_items column_map rows.
Proof.
  intros Hinner Hcolumns Hitems Hnames Hrows Hmap.
  destruct names as [|name names]; [done|]. destruct rows as [|row rows]; [done|].
  unfold XueqiuMarketData.parse_kline_data.
  assert (truthy (JDict d) = true) as -> by (by destruct d).
  simpl. run_outcome. rewrite Hinner.
  rewrite bool_decide_eq_true_2 by (by eexists). simpl.
  rewrite Hcolumns, Hitems. simpl in Hmap |- *. by rewrite Hmap.
Qed.

(** C6, as the code has it: [parse_kline_data] maps each column name to its
    index and turns every row, in order, into a record that holds under each
    field name the row's cell at the column of that name (a number as a
    [float], a null as null); a field whose column is absent or beyond the
    row's end is left out of the record, and raises nothing: rows whose
    cells can be converted are all parsed, however short they are.  The
    example parses to one record that holds the timestamp 1700000000000, the
    [datetime] made of it and the close 42.5, and no other field. *)
Theorem candle_rows_projected :
  (forall (d inner : list (string * json)) (names : list string) (rows : list json),
     assoc "data" d = Some (JDict inner) ->
     assoc "column" inner = Some (JList (JStr <$> names)) ->
     assoc "item" inner = Some (JList rows) ->
     names <> [] -> rows <> [] ->
     exists column_map,
       (forall name i,
          column_map !! name = Some i <->
          names !! i = Some name /\
          forall j, (i < j)%nat -> names !! j <> Some name) /\
       XueqiuMarketData.parse_kline_data (JDict d) =
         XueqiuMarketData.parse_items column_map rows /\
       (Forall (fun row => exists cells,
                  row = JList cells /\ convertible_row column_map cells) rows ->
        exists candles,
          XueqiuMarketData.parse_kline_data (JDict d) = Ok candles /\
          length candles = length rows) /\
       (forall candles,
          XueqiuMarketData.parse_kline_data (JDict d) = Ok candles ->
          Forall2
            (fun row candle =>
               XueqiuMarketData.parse_item column_map row = Ok candle)
            rows candles) /\
       (forall cells,
          convertible_row column_map cells ->
          exists candle,
            XueqiuMarketData.parse_item column_map (JList cells) = Ok candle) /\
       XueqiuMarketData.parse_item column_map (JList []) = Ok ∅ /\
       (forall cells candle,
          XueqiuMarketData.parse_item column_map (JList cells) = Ok candle ->
          (forall timestamp,
             cell_in column_map cells "timestamp" = Some timestamp ->
             candle !! "timestamp" = Some (XueqiuMarketData.Raw timestamp)) /\
          (forall field,
             field ∈ numeric_fields ->
             stored_as (cell_in column_map cells field) None (candle !! field)) /\
          (forall field,
             field <> "datetime" ->
             cell_in column_map cells field = None ->
             candle !! field = None))) /\
  (forall moment,
     fromtimestamp 1700000000 = Ok moment ->
     XueqiuMarketData.parse_kline_data example_kline =
       Ok [ <["close" := XueqiuMarketData.Number 42.5]>
              (<["datetime" := XueqiuMarketData.Moment moment]>
                 (<["timestamp" := XueqiuMarketData.Raw (JInt 1700000000000)]> ∅)) ] /\
     exists candle,
       XueqiuMarketData.parse_kline_data example_kline = Ok [candle] /\
       candle !! "timestamp" = Some (XueqiuMarketData.Raw (JInt 1700000000000)) /\
       candle !! "close" = Some (XueqiuMarketData.Number 42.5) /\
       candle !! "datetime" = Some (XueqiuMarketData.Moment moment) /\
       (forall field,
          field <> "timestamp" -> field <> "close" -> field <> "datetime" ->
          candle !! field = None)).
Proof.
  split.
  - intros d inner names rows Hinner Hcolumns Hitems Hnames Hrows.
    destruct (column_map_from_names names 0 ∅) as (column_map & Hmap & Hiff).
    exists column_map.
    pose proof (parse_kline_data_rows d inner names rows column_map
                  Hinner Hcolumns Hitems Hnames Hrows Hmap) as Hparse.
    split; [|split; [exact Hparse|split; [|split; [|split; [|split]]]]].
    + intros name i. rewrite Hiff. split.
      * intros [(j & -> & Hj & Hlast)|[_ Hempty]]; [done|done].
      * intros [Hi Hlast]. left. by exists i.
    + intros Hconvertible. rewrite Hparse. by apply parse_items_total.
    + intros candles Hcandles. apply parse_items_rows. by rewrite <- Hparse.
    + apply parse_item_total.
    + unfold XueqiuMarketData.parse_item, XueqiuMarketData.set_timestamp.
      destruct (column_map !! "timestamp") as [i|] eqn:Htimestamp;
        simpl; run_outcome.
      * assert (Hshort : forall (field : string) (kline_dict : gmap string XueqiuMarketData.cell),
                  XueqiuMarketData.set_field column_map (JList []) kline_dict field
                  = Ok kline_dict).
        { intros field kline_dict. unfold XueqiuMarketData.set_field.
          by destruct (column_map !! field). }
        simpl. run_outcome. by rewrite !Hshort.
      * assert (Hshort : forall (field : string) (kline_dict : gmap string XueqiuMarketData.cell),
                  XueqiuMarketData.set_field column_map (JList []) kline_dict field
                  = Ok kline_dict).
        { intros field kline_dict. unfold XueqiuMarketData.set_field.
          by destruct (column_map !! field). }
        simpl. run_outcome. by rewrite !Hshort.
    + intros cells candle Hcandle.
      apply parse_item_row in Hcandle as (Hstamp & Hnumeric & Hothers).
      split; [|split; [exact Hnumeric|]].
      * intros timestamp Htimestamp. rewrite Htimestamp in Hstamp. tauto.
      * intros field Hdatetime Hnone.
        destruct (decide (field = "timestamp")) as [->|Hts].
        { rewrite Hnone in Hstamp. tauto. }
        destruct (decide (field ∈ numeric_fields)) as [Hin|Hout].
        { specialize (Hnumeric field Hin). by rewrite Hnone in Hnumeric. }
        apply Hothers. intros [?|[?|?]%elem_of_cons]%elem_of_cons; done.
  - intros moment Hmoment. split; [by apply example_kline_parsed|]. eexists.
    split; [by apply example_kline_parsed|].
    split; [reflexivity|]. split; [reflexivity|]. split; [reflexivity|].
    intros field Htimestamp Hclose Hdatetime.
    by rewrite !lookup_insert_ne, lookup_empty.
Qed.

End Candles.

Lemma candle_rows_projected_witness :
  exists candle,
    XueqiuMarketData.parse_kline_data (H := sample_runtime) example_kline
      = Ok [candle] /\
    candle !! "timestamp" = Some (XueqiuMarketData.Raw (JInt 1700000000000)) /\
    candle !! "close" = Some (XueqiuMarketData.Number 42.5) /\
    candle !! "open" = None.
Proof.
  pose proof (candle_rows_projected (H := sample_runtime)) as [_ Hexample].
  destruct (Hexample 1700000000%float eq_refl)
    as (_ & candle & Hparsed & Htimestamp & Hclose & _ & Hnone).
  exists candle. split; [exact Hparsed|]. split; [exact Htimestamp|].
  split; [exact Hclose|]. by apply Hnone.
Defined.

(** C6 as stated fails: in the record parsed from the example the field
    open is not null, it is not there; a null is what a field holds whose
    cell is null.  The keys change and change_percent are never written:
    the code calls these fields chg and percent. *)
Lemma candle_absent_field_not_null :
  (exists candle,
     XueqiuMarketData.parse_kline_data (H := sample_runtime) example_kline
       = Ok [candle] /\
     candle !! "open" = None /\
     candle !! "open" <> Some XueqiuMarketData.Missing /\
     dom candle = ({[ "timestamp"; "datetime"; "close" ]} : gset string)) /\
  (exists candle,
     XueqiuMarketData.parse_kline_data (H := sample_runtime)
       (JDict [("data",
                JDict [("column", JList [JStr "close"; JStr "open"; JStr "chg"]);
                       ("item", JList [JList [JFloat 42.5; JNull; JInt 1]])])])
       = Ok [candle] /\
     candle !! "open" = Some XueqiuMarketData.Missing /\
     candle !! "chg" = Some (XueqiuMarketData.Number 1) /\
     candle !! "change" = None).
Proof.
  split.
  - eexists.
    split; [exact (example_kline_parsed (H := sample_runtime) 1700000000%float eq_refl)|].
    split; [reflexivity|]. split; [discriminate|].
    rewrite !dom_insert_L, dom_empty_L. set_solver.
  - eexists. split; [vm_compute; reflexivity|].
    split; [reflexivity|]. split; reflexivity.
Qed.

(** * Further properties of the services *)

(** ** Coin-market client: trades and listings *)

Section PumpFunClient.

Lemma get_coin_trades_run self mint limit offset w :
  let r := trades_request self mint limit offset in
  PumpFunMarketData.get_coin_trades self mint limit offset w =
  ([r],
   Ok (match send w r with
       | Response status (Some body) => if status =? 200 then body else JList []
       | _ => JList []
       end)).
Proof.
  intros r. unfold PumpFunMarketData.get_coin_trades. run_io.
  fold (trades_request self mint limit offset). fold r.
  destruct (send w r) as [|status body]; [reflexivity|].
  simpl. destruct (status =? 200); by destruct body.
Qed.

End PumpFunClient.

(** X1: [get_coin_trades] sends one request and never raises: it returns
    the decoded body of a 200 response, whatever that body is, and the
    empty list on every other status, on a body that is no JSON and on a
    transport failure. *)
Theorem coin_trades_empty_on_failure (self : PumpFunMarketData.t)
    (mint : string) (limit offset : Z) (w : world) :
  let r := trades_request self mint limit offset in
  let trades := PumpFunMarketData.get_coin_trades self mint limit offset in
  sent trades w = [r] /\
  (forall body, send w r = Response 200 (Some body) -> result trades w = Ok body) /\
  ((forall body, send w r <> Response 200 (Some body)) ->
   result trades w = Ok (JList [])).
Proof.
  intros r trades. unfold sent, result, trades.
  rewrite get_coin_trades_run. fold r. simpl.
  split; [done|]. split.
  - by intros body ->.
  - intros Hfailed. destruct (send w r) as [|status [body|]]; [done| |done].
    destruct (status =? 200) eqn:Hstatus; [|done].
    apply Z.eqb_eq in Hstatus as ->. by destruct (Hfailed body).
Qed.

Lemma coin_trades_empty_on_failure_witness :
  result (PumpFunMarketData.get_coin_trades (PumpFunMarketData.__init__ None)
            "So1ana" 100 0) (serving (JList [JInt 1])) = Ok (JList [JInt 1]) /\
  result (PumpFunMarketData.get_coin_trades (PumpFunMarketData.__init__ None)
            "So1ana" 100 0) offline = Ok (JList []).
Proof.
  split.
  - apply (coin_trades_empty_on_failure (PumpFunMarketData.__init__ None)
             "So1ana" 100 0 (serving (JList [JInt 1]))). reflexivity.
  - apply (coin_trades_empty_on_failure (PumpFunMarketData.__init__ None)
             "So1ana" 100 0 offline). discriminate.
Defined.

(** X2: answered with status 200, [get_coins_list] returns a list body
    unchanged, the [data] entry of a dictionary body (also when the body has
    [coins] as well), else its [coins] entry, and the empty list for a
    dictionary with neither, for any other body and for a body that is no
    JSON; the synthetic records are never served on a 200. *)
Theorem list_coins_success_shapes (self : PumpFunMarketData.t)
    (limit offset : Z) (sort order : string) (include_nsfw : bool) (w : world)
    (body : option json) :
  let r := coins_request self limit offset sort order include_nsfw in
  let coins :=
    PumpFunMarketData.get_coins_list self limit offset sort order include_nsfw in
  send w r = Response 200 body ->
  match body with
  | None => result coins w = Ok (JList [])
  | Some (JList l) => result coins w = Ok (JList l)
  | Some (JDict d) =>
      result coins w =
        Ok (match assoc "data" d, assoc "coins" d with
            | Some listed, _ => listed
            | None, Some listed => listed
            | None, None => JList []
            end)
  | Some _ => result coins w = Ok (JList [])
  end.
Proof.
  intros r coins Hsend. unfold result, coins.
  rewrite get_coins_list_run. fold r. rewrite Hsend. simpl.
  destruct body as [[ | | | | | |d]|]; reflexivity.
Qed.

Lemma list_coins_success_shapes_witness :
  result (PumpFunMarketData.get_coins_list (PumpFunMarketData.__init__ None)
            50 0 "market_cap" "DESC" false)
    (serving (JDict [("coins", JList [JInt 1]); ("data", JList [JInt 2])]))
  = Ok (JList [JInt 2]).
Proof.
  apply (list_coins_success_shapes (PumpFunMarketData.__init__ None)
           50 0 "market_cap" "DESC" false
           (serving (JDict [("coins", JList [JInt 1]); ("data", JList [JInt 2])]))
           (Some (JDict [("coins", JList [JInt 1]); ("data", JList [JInt 2])]))).
  reflexivity.
Defined.

(** ** The ranking wrappers and the handlers of the coin routes *)

Section Handlers.

Lemma get_coins_list_ok self limit offset sort order nsfw w :
  exists listed,
    PumpFunMarketData.get_coins_list self limit offset sort order nsfw w =
    ([coins_request self limit offset sort order nsfw], Ok listed).
Proof. rewrite get_coins_list_run. eauto. Qed.

Lemma len_sized x : len x = if sized x then Ok (size_of x) else Raise TypeError.
Proof. by destruct x. Qed.

(** The shape shared by [get_pump_fun_trending_coins] and
    [get_pump_fun_new_coins]. *)
Lemma sized_or_empty_run (source : io json) (r : request) (listed : json) w :
  source w = ([r], Ok listed) ->
  try_except (coins ← source; _ ← lift (len coins); mret coins)
             (fun _ => mret (JList [])) w =
  ([r], Ok (if sized listed then listed else JList [])).
Proof.
  intros Hsource. run_io. rewrite Hsource. simpl.
  rewrite len_sized. by destruct (sized listed).
Qed.

(** The shape shared by the handlers that count what they return. *)
Lemma handle_ranked_run (source : io json) (failure : string) (r : request)
    (listed : json) w :
  source w = ([r], Ok listed) ->
  pump_routes.handle (coins ← source; pump_routes.ranked coins) failure w =
  ([r], if sized listed then pump_routes.Returned (ranked_body listed)
        else pump_routes.HTTPException 500 [Text failure; Cause TypeError]).
Proof.
  intros Hsource. unfold pump_routes.handle, pump_routes.ranked. run_io.
  rewrite Hsource. simpl. rewrite len_sized. unfold ranked_body.
  by destruct (sized listed).
Qed.

Lemma handle_paged_run (source : io json) (failure : string) (r : request)
    (listed : json) (limit offset : Z) w :
  source w = ([r], Ok listed) ->
  pump_routes.handle
    (coins ← source;
     count ← lift (len coins);
     mret (pump_routes.Returned
             {[ "success" := JBool true;
                "data" := coins;
                "count" := JInt (Z.of_nat count);
                "limit" := JInt limit;
                "offset" := JInt offset ]})) failure w =
  ([r], if sized listed then pump_routes.Returned (paged_body listed limit offset)
        else pump_routes.HTTPException 500 [Text failure; Cause TypeError]).
Proof.
  intros Hsource. unfold pump_routes.handle. run_io.
  rewrite Hsource. simpl. rewrite len_sized. unfold paged_body.
  by destruct (sized listed).
Qed.

End Handlers.

(** X3: [get_pump_fun_trending_coins] and [get_pump_fun_new_coins] send the
    client's one request and never raise; they hand on what the client
    returned when it has a length, and the empty list when it has none (a
    200 body such as [{"data": null}]), so their result always has a
    length. *)
Theorem ranking_wrappers_sized (g : market_data.globals) (limit : Z) (w : world) :
  let client := pump_fun_client (market_data.pump g) in
  (exists listed,
     PumpFunMarketData.get_trending_coins client limit w =
       ([coins_request client limit 0 "last_trade_timestamp" "DESC" false],
        Ok listed) /\
     market_data.get_pump_fun_trending_coins g limit w =
       ([coins_request client limit 0 "last_trade_timestamp" "DESC" false],
        Ok (if sized listed then listed else JList []))) /\
  (exists listed,
     PumpFunMarketData.get_new_coins client limit w =
       ([coins_request client limit 0 "created_timestamp" "DESC" false],
        Ok listed) /\
     market_data.get_pump_fun_new_coins g limit w =
       ([coins_request client limit 0 "created_timestamp" "DESC" false],
        Ok (if sized listed then listed else JList []))) /\
  (forall coins,
     result (market_data.get_pump_fun_trending_coins g limit) w = Ok coins \/
     result (market_data.get_pump_fun_new_coins g limit) w = Ok coins ->
     sized coins = true).
Proof.
  intros client.
  destruct (get_coins_list_ok client limit 0 "last_trade_timestamp" "DESC" false w)
    as [trending Htrending].
  destruct (get_coins_list_ok client limit 0 "created_timestamp" "DESC" false w)
    as [new Hnew].
  pose proof (sized_or_empty_run _ _ _ w Htrending) as Hwrapped_trending.
  pose proof (sized_or_empty_run _ _ _ w Hnew) as Hwrapped_new.
  split; [|split].
  - exists trending. split; [exact Htrending|exact Hwrapped_trending].
  - exists new. split; [exact Hnew|exact Hwrapped_new].
  - intros coins. unfold result.
    unfold market_data.get_pump_fun_trending_coins,
      market_data.get_pump_fun_new_coins, PumpFunMarketData.get_trending_coins,
      PumpFunMarketData.get_new_coins.
    fold client. rewrite Hwrapped_trending, Hwrapped_new. simpl.
    intros [[= <-]|[= <-]].
    + by destruct (sized trending) eqn:Hsized.
    + by destruct (sized new) eqn:Hsized.
Qed.

(** X4: the handlers of [/pump/trending] and [/pump/new] never answer with
    an error: whatever the upstream does, they return a dictionary whose
    [data] has a length and whose [count] is that length. *)
Theorem ranking_routes_never_fail (g : market_data.globals) (limit : Z) (w : world) :
  (exists coins,
     result (market_data.get_pump_fun_trending_coins g limit) w = Ok coins /\
     sized coins = true /\
     snd (pump_routes.get_trending g limit w) =
       pump_routes.Returned (ranked_body coins)) /\
  (exists coins,
     result (market_data.get_pump_fun_new_coins g limit) w = Ok coins /\
     sized coins = true /\
     snd (pump_routes.get_new_coins g limit w) =
       pump_routes.Returned (ranked_body coins)).
Proof.
  set (client := pump_fun_client (market_data.pump g)).
  destruct (get_coins_list_ok client limit 0 "last_trade_timestamp" "DESC" false w)
    as [trending Htrending].
  destruct (get_coins_list_ok client limit 0 "created_timestamp" "DESC" false w)
    as [new Hnew].
  assert (Hwrapped_trending :
            market_data.get_pump_fun_trending_coins g limit w =
            ([coins_request client limit 0 "last_trade_timestamp" "DESC" false],
             Ok (if sized trending then trending else JList [])))
    by exact (sized_or_empty_run _ _ _ w Htrending).
  assert (Hwrapped_new :
            market_data.get_pump_fun_new_coins g limit w =
            ([coins_request client limit 0 "created_timestamp" "DESC" false],
             Ok (if sized new then new else JList [])))
    by exact (sized_or_empty_run _ _ _ w Hnew).
  assert (Hsized : forall listed, sized (if sized listed then listed else JList []) = true).
  { intros listed. by destruct (sized listed) eqn:Hlisted. }
  split.
  - exists (if sized trending then trending else JList []).
    split; [unfold result; by rewrite Hwrapped_trending|].
    split; [apply Hsized|].
    unfold pump_routes.get_trending.
    rewrite (handle_ranked_run _ _ _ _ w Hwrapped_trending). simpl.
    by rewrite Hsized.
  - exists (if sized new then new else JList []).
    split; [unfold result; by rewrite Hwrapped_new|].
    split; [apply Hsized|].
    unfold pump_routes.get_new_coins.
    rewrite (handle_ranked_run _ _ _ _ w Hwrapped_new). simpl.
    by rewrite Hsized.
Qed.

(** X5: the handlers of [/pump/top], [/pump/coins] and
    [/pump/coins/{mint}/trades] count what the client returned: they answer
    500 with a [TypeError] exactly when that value has no length (a 200 body
    such as [{"data": null}], or a trades body that is a number), and return
    it with its length otherwise. *)
Theorem counting_routes_fail_on_unsized (g : market_data.globals)
    (mint sort order : string) (limit offset : Z) (include_nsfw : bool) (w : world) :
  let client := pump_fun_client (market_data.pump g) in
  (exists listed,
     result (PumpFunMarketData.get_top_by_market_cap client limit) w = Ok listed /\
     snd (pump_routes.get_top_by_market_cap g limit w) =
       if sized listed then pump_routes.Returned (ranked_body listed)
       else pump_routes.HTTPException 500
              [Text "Failed to fetch top coins: "; Cause TypeError]) /\
  (exists listed,
     result (PumpFunMarketData.get_coins_list client limit offset sort order
               include_nsfw) w = Ok listed /\
     snd (pump_routes.get_coins g limit offset sort order include_nsfw w) =
       if sized listed then pump_routes.Returned (paged_body listed limit offset)
       else pump_routes.HTTPException 500
              [Text "Failed to fetch coins: "; Cause TypeError]) /\
  (exists trades,
     result (PumpFunMarketData.get_coin_trades client mint limit offset) w =
       Ok trades /\
     snd (pump_routes.get_coin_trades g mint limit offset w) =
       if sized trades then pump_routes.Returned (paged_body trades limit offset)
       else pump_routes.HTTPException 500
              [Text "Failed to fetch trades: "; Cause TypeError]).
Proof.
  intros client.
  destruct (get_coins_list_ok client limit 0 "market_cap" "DESC" false w)
    as [top Htop].
  destruct (get_coins_list_ok client limit offset sort order include_nsfw w)
    as [listed Hlisted].
  pose proof (get_coin_trades_run client mint limit offset w) as Htrades.
  simpl in Htrades.
  split; [|split].
  - exists top. split; [unfold result, PumpFunMarketData.get_top_by_market_cap;
                        by rewrite Htop|].
    unfold pump_routes.get_top_by_market_cap. fold client.
    by rewrite (handle_ranked_run _ _ _ _ w Htop).
  - exists listed. split; [unfold result; by rewrite Hlisted|].
    unfold pump_routes.get_coins. fold client.
    by rewrite (handle_paged_run _ _ _ _ _ _ w Hlisted).
  - eexists. split; [unfold result; by rewrite Htrades|].
    unfold pump_routes.get_coin_trades. fold client.
    by rewrite (handle_paged_run _ _ _ _ _ _ w Htrades).
Qed.

(** X6: the handler of [/pump/coins/{mint}] sends the coin request and
    never answers 500: it returns the record the upstream delivered when
    that record is truthy, and answers 404 otherwise, that is on a failed
    fetch and also on a 200 whose body is [null], [{}], [[]], [0] or an
    empty string. *)
Theorem coin_detail_route_found_or_404 (g : market_data.globals) (mint : string)
    (w : world) :
  let r := coin_request (pump_fun_client (market_data.pump g)) mint in
  let coin_data := coin_of_reply (send w r) in
  pump_routes.get_coin_detail g mint w =
  ([r],
   if truthy coin_data then
     pump_routes.Returned {[ "success" := JBool true; "data" := coin_data ]}
   else
     pump_routes.HTTPException 404 [Text "Coin "; Fmt mint; Text " not found"]).
Proof.
  intros r coin_data.
  unfold pump_routes.get_coin_detail, pump_routes.handle, get_pump_fun_coin.
  run_io. rewrite get_coin_data_run. fold r. fold coin_data.
  by destruct (truthy coin_data).
Qed.

Section PriceRoute.
Context `{Runtime}.

Lemma float_gt0_not_le0 (x : float) :
  PrimFloat.ltb 0 x = true -> PrimFloat.leb x 0 = false.
Proof.
  intros Hlt. rewrite FloatAxioms.ltb_spec in Hlt. rewrite FloatAxioms.leb_spec.
  unfold SFleb, SFltb in *.
  change (Prim2SF 0) with (S754_zero false) in *.
  destruct (Prim2SF x) as [s|s| |s m e]; try destruct s; simpl in *; congruence.
Qed.

(** X7: the handler of [/pump/coins/{mint}/price] never takes its 404
    branch: the router has already refused every price that is not strictly
    positive, so the handler either returns the positive derived price or
    answers 500 with the router's error for the price it refused. *)
Theorem coin_price_route_never_404 (g : market_data.globals) (mint : string)
    (w : world) :
  exists price,
    result (get_last_price_from_pump_fun (market_data.pump g) mint) w = Ok price /\
    pump_routes.get_coin_price g mint w =
    ([coin_request (pump_fun_client (market_data.pump g)) mint],
     if PrimFloat.ltb 0 price then
       pump_routes.Returned
         {[ "success" := JBool true;
            "data" := JDict [ ("mint_address", JStr mint);
                              ("price", JFloat price);
                              ("market", JStr "PUMP") ] ]}
     else
       pump_routes.HTTPException 500
         [Text "Failed to fetch price: ";
          Cause (price_unavailable mint "PUMP" (invalid_pump_price price))]).
Proof.
  pose proof (get_last_price_from_pump_fun_run (market_data.pump g) mint w) as Hrun.
  eexists. split; [unfold result; by rewrite Hrun|].
  pose proof (checked_price_run
                (get_last_price_from_pump_fun (market_data.pump g) mint)
                invalid_pump_price (price_unavailable mint "PUMP") w) as [Hsent Hresult].
  unfold sent, result in Hsent, Hresult. rewrite Hrun in Hsent, Hresult.
  simpl in Hsent, Hresult.
  unfold pump_routes.get_coin_price, pump_routes.handle, market_data.get_last_price.
  change (String.eqb (upper "PUMP") "PUMP") with true. cbv iota.
  unfold io_mbind, mbind at 1, io_bind.
  match goal with
  | |- context [try_except ?m ?h w] =>
      change (try_except m h w) with
        (try_except
           (price ← get_last_price_from_pump_fun (market_data.pump g) mint;
            if negb (PrimFloat.eqb price 0) && PrimFloat.ltb 0 price then mret price
            else throw (invalid_pump_price price))
           (fun e => throw (price_unavailable mint "PUMP" e)) w) in *
  end.
  destruct (try_except _ _ w) as [requests routed].
  simpl in Hsent, Hresult. subst requests routed.
  match goal with
  | |- context [PrimFloat.ltb 0 ?p] => destruct (PrimFloat.ltb 0 p) eqn:Hpos
  end.
  - rewrite (float_gt0_not_le0 _ Hpos). unfold mret, io_mret, io_ret.
    by rewrite app_nil_r.
  - reflexivity.
Qed.

End PriceRoute.

(** ** The equity client's candles *)

Section KlineFetch.

Lemma checked_kline_usable data kline :
  XueqiuMarketData.checked_kline data = Ok kline ->
  kline <> JNull ->
  kline = data /\
  exists d fields item,
    data = JDict d /\
    assoc "data" d = Some (JDict fields) /\
    assoc "item" fields = Some item /\
    truthy item = true.
Proof.
  unfold XueqiuMarketData.checked_kline.
  destruct data as [ | | | | | |d]; try discriminate.
  simpl. run_outcome.
  destruct (assoc "data" d) as [inner|] eqn:Hdata.
  - assert (Haccepted :
              (if XueqiuMarketData.eq_zero (default JNull (assoc "error_code" d))
               then Ok true
               else Ok (bool_decide (is_Some (Some inner)))) = Ok true).
    { destruct (XueqiuMarketData.eq_zero _); [done|].
      by rewrite bool_decide_eq_true_2. }
    rewrite Haccepted. rewrite bool_decide_eq_true_2 by done.
    destruct (truthy inner) eqn:Hinner; [|by intros [= <-]].
    destruct inner as [ | | | | | |fields]; try discriminate.
    simpl. destruct (assoc "item" fields) as [item|] eqn:Hitem; simpl.
    + destruct (truthy item) eqn:Htruthy; [|by intros [= <-]].
      intros [= <-] _. split; [done|]. by exists d, fields, item.
    + by intros [= <-].
  - rewrite bool_decide_eq_false_2 by (by intros [? ?]).
    destruct (XueqiuMarketData.eq_zero _); by intros [= <-].
Qed.

End KlineFetch.

(** X8: [get_kline_data] never raises and sends one candle request, whose
    count is the requested count made non-positive: a count and its
    opposite fetch the same candles, and the period names [1d] and [1m] go
    on the wire as [day] and [minute], so each fetches what its long name
    fetches. *)
Theorem kline_fetch_count_and_period (self : XueqiuMarketData.t)
    (symbol period : string) (count : Z) (w : world) :
  let fetch := XueqiuMarketData.get_kline_data self symbol in
  (exists n kline,
     n <= 0 /\ Z.abs n = Z.abs count /\
     fetch period count w =
       ([kline_request self symbol (api_period_of period) n (time_ms w)],
        Ok kline)) /\
  fetch period (- count) w = fetch period count w /\
  fetch "1d" count w = fetch "day" count w /\
  fetch "1m" count w = fetch "minute" count w.
Proof.
  intros fetch. unfold fetch. rewrite !get_kline_data_run. simpl.
  split; [|by rewrite Z.abs_opp].
  exists (- Z.abs count), (kline_of_reply
    (send w (kline_request self symbol (api_period_of period) (- Z.abs count)
               (time_ms w)))).
  split; [lia|]. split; [lia|done].
Qed.

(** X9: what [get_kline_data] returns is either [None] or the decoded body
    of a 200 response, unchanged, and then that body is a dictionary whose
    [data] is a dictionary with a truthy [item]. *)
Theorem kline_fetch_none_or_usable (self : XueqiuMarketData.t)
    (symbol period : string) (count : Z) (w : world) (kline : json) :
  let r := kline_request self symbol (api_period_of period) (- Z.abs count)
             (time_ms w) in
  result (XueqiuMarketData.get_kline_data self symbol period count) w = Ok kline ->
  kline <> JNull ->
  send w r = Response 200 (Some kline) /\
  truthy kline = true /\
  exists d fields item,
    kline = JDict d /\
    assoc "data" d = Some (JDict fields) /\
    assoc "item" fields = Some item /\
    truthy item = true.
Proof.
  intros r. unfold result. rewrite get_kline_data_run. fold r. simpl.
  unfold kline_of_reply.
  destruct (send w r) as [|status [data|]]; try by intros [= <-].
  destruct (status =? 200) eqn:Hstatus; [|by intros [= <-]].
  apply Z.eqb_eq in Hstatus as ->.
  destruct (XueqiuMarketData.checked_kline data) as [checked|e] eqn:Hchecked;
    [|by intros [= <-]].
  intros [= <-] Hsome.
  destruct (checked_kline_usable data checked Hchecked Hsome)
    as (-> & d & fields & item & -> & Hdata & Hitem & Htruthy).
  split; [done|]. split.
  - simpl. by destruct d.
  - by exists d, fields, item.
Qed.

Lemma kline_fetch_none_or_usable_witness :
  send (serving example_kline)
    (kline_request (XueqiuMarketData.__init__ None) "SH600000" "day" (-5)
       1700000000000)
  = Response 200 (Some example_kline) /\
  truthy example_kline = true.
Proof.
  pose proof (kline_fetch_none_or_usable (XueqiuMarketData.__init__ None)
                "SH600000" "1d" 5 (serving example_kline) example_kline
                eq_refl ltac:(discriminate)) as (Hsend & Htruthy & _).
  split; [exact Hsend|exact Htruthy].
Defined.

Section EquityCandles.
Context `{Runtime}.

Lemma get_kline_data_from_xueqiu_run g symbol period count w :
  let r := kline_request (xueqiu_client g) symbol (api_period_of period)
             (- Z.abs count) (time_ms w) in
  let raw := kline_of_reply (send w r) in
  get_kline_data_from_xueqiu g symbol period count w =
  ([r],
   if truthy raw then
     match XueqiuMarketData.parse_kline_data raw with
     | Ok [] => Raise (Exception [Text "解析 "; Fmt symbol; Text " 的K线数据失败"])
     | Ok candles => Ok candles
     | Raise e => Raise e
     end
   else Raise (Exception [Text "无法获取 "; Fmt symbol; Text " 的K线数据"])).
Proof.
  intros r raw. unfold get_kline_data_from_xueqiu.
  unfold mbind, io_mbind, io_bind. rewrite get_kline_data_run. fold r. fold raw.
  destruct (truthy raw); simpl; [|reflexivity].
  run_io. by destruct (XueqiuMarketData.parse_kline_data raw) as [[|candle candles]|e].
Qed.

End EquityCandles.

(** X10: for a market tag that does not upper-case to "PUMP",
    [get_kline_data] returns what [get_kline_data_from_xueqiu] returns, which
    is never an empty list, or raises that function's error wrapped; hence
    the router returns an empty list of candles for the coin-market tags
    only. *)
Theorem equity_candles_never_empty `{Runtime} (g : market_data.globals)
    (symbol market period : string) (count : Z) (w : world) :
  let routed := market_data.get_kline_data g symbol market period count in
  let fetched :=
    get_kline_data_from_xueqiu (market_data.xueqiu g) symbol period count in
  (upper market <> "PUMP" ->
   sent routed w = sent fetched w /\
   match result routed w with
   | Ok candles => candles <> [] /\ result fetched w = Ok candles
   | Raise e =>
       exists cause,
         result fetched w = Raise cause /\
         e = Exception [Text "无法获取 "; Fmt (market_data.key_of symbol market);
                        Text " 的K线数据: "; Cause cause]
   end) /\
  (result routed w = Ok [] <-> upper market = "PUMP").
Proof.
  intros routed fetched.
  assert (Hequity : upper market <> "PUMP" ->
            sent routed w = sent fetched w /\
            match result routed w with
            | Ok candles => candles <> [] /\ result fetched w = Ok candles
            | Raise e =>
                exists cause,
                  result fetched w = Raise cause /\
                  e = Exception [Text "无法获取 ";
                                 Fmt (market_data.key_of symbol market);
                                 Text " 的K线数据: "; Cause cause]
            end).
  { intros Hequity. apply String.eqb_neq in Hequity.
    unfold routed, fetched, sent, result, market_data.get_kline_data.
    rewrite Hequity. run_io.
    rewrite get_kline_data_from_xueqiu_run. simpl.
    destruct (truthy _); simpl.
    - destruct (XueqiuMarketData.parse_kline_data _) as [[|candle candles]|e]; simpl.
      + split; [by rewrite ?app_nil_r|]. eauto.
      + split; [by rewrite ?app_nil_r|]. done.
      + split; [by rewrite ?app_nil_r|]. eauto.
    - split; [by rewrite ?app_nil_r|]. eauto. }
  split; [exact Hequity|]. split.
  - intros Hempty. destruct (decide (upper market = "PUMP")) as [|Hother]; [done|].
    apply Hequity in Hother as [_ Hrouted]. rewrite Hempty in Hrouted.
    by destruct Hrouted.
  - intros Hpump. unfold routed, result, market_data.get_kline_data.
    by rewrite Hpump.
Qed.

Lemma equity_candles_never_empty_witness :
  upper "US" <> "PUMP" /\
  exists cause,
    result (market_data.get_kline_data (H := sample_runtime) fresh "AAPL" "US"
              "1d" 100) offline
    = Raise (Exception [Text "无法获取 "; Fmt "AAPL.US"; Text " 的K线数据: ";
                        Cause cause]).
Proof.
  split; [discriminate|].
  pose proof (equity_candles_never_empty (H := sample_runtime) fresh "AAPL" "US"
                "1d" 100 offline) as [Hequity _].
  destruct (Hequity ltac:(discriminate)) as [_ Hrouted].
  destruct (result _ offline) as [candles|e] eqn:Hresult.
  - vm_compute in Hresult. discriminate.
  - destruct Hrouted as (cause & _ & ->). by exists cause.
Defined.

(** X11: on a body without candles [parse_kline_data] returns the empty
    list: for a falsy body, for a dictionary without [data], and for a
    [data] dictionary whose [column] or [item] is missing or falsy; a [data]
    that is no dictionary ([null] included) raises [AttributeError]. *)
Theorem parse_kline_data_degenerate `{Runtime} (raw : json) :
  (truthy raw = false -> XueqiuMarketData.parse_kline_data raw = Ok []) /\
  (forall d,
     raw = JDict d ->
     match assoc "data" d with
     | None => XueqiuMarketData.parse_kline_data raw = Ok []
     | Some (JDict fields) =>
         truthy (default (JList []) (assoc "column" fields)) = false \/
         truthy (default (JList []) (assoc "item" fields)) = false ->
         XueqiuMarketData.parse_kline_data raw = Ok []
     | Some _ => XueqiuMarketData.parse_kline_data raw = Raise AttributeError
     end).
Proof.
  unfold XueqiuMarketData.parse_kline_data. split.
  - by intros ->.
  - intros d ->. destruct (truthy (JDict d)) eqn:Hraw.
    + simpl negb. cbv iota. simpl py_in. simpl getitem.
      destruct (assoc "data" d) as [inner|] eqn:Hdata.
      * rewrite bool_decide_eq_true_2 by done.
        destruct inner as [ | | | | | |fields]; try reflexivity.
        simpl. intros [Hcolumn|Hitem].
        -- by rewrite Hcolumn.
        -- rewrite Hitem. by rewrite orb_true_r.
      * rewrite bool_decide_eq_false_2 by (by intros [? ?]). reflexivity.
    + simpl. destruct (assoc "data" d) as [[ | | | | | |fields]|] eqn:Hdata;
        try reflexivity; destruct d; try discriminate.
Qed.

Lemma parse_kline_data_degenerate_witness :
  XueqiuMarketData.parse_kline_data (H := sample_runtime) (JDict []) = Ok [] /\
  XueqiuMarketData.parse_kline_data (H := sample_runtime)
    (JDict [("data", JNull)]) = Raise AttributeError.
Proof.
  split.
  - apply (parse_kline_data_degenerate (H := sample_runtime) (JDict [])).
    reflexivity.
  - pose proof (parse_kline_data_degenerate (H := sample_runtime)
                  (JDict [("data", JNull)])) as [_ Hdict].
    exact (Hdict [("data", JNull)] eq_refl).
Defined.

(** ** The errors of the equity client's latest price *)

Section ShapeErrors.
Context `{Runtime}.

Local Ltac raised :=
  let Hr := fresh "Hr" in
  intros Hr; first [discriminate Hr | injection Hr as <-; auto 7].

Lemma obind_raise {A B} (m : outcome A) (k : A -> outcome B) e :
  obind m k = Raise e -> m = Raise e \/ exists a, m = Ok a /\ k a = Raise e.
Proof. destruct m as [a|e']; simpl; intros Hr; [right; eauto|left; by injection Hr as ->]. Qed.

Lemma py_in_raise s x e : py_in s x = Raise e -> shape_error e.
Proof. unfold shape_error. destruct x; simpl; raised. Qed.

Lemma getitem_raise x s e : getitem x s = Raise e -> shape_error e.
Proof.
  unfold shape_error. destruct x as [ | | | | | |d]; simpl;
    try destruct (assoc s d); raised.
Qed.

Lemma get_raise x s dflt e : get x s dflt = Raise e -> shape_error e.
Proof. unfold shape_error. destruct x; simpl; raised. Qed.

Lemma len_raise x e : len x = Raise e -> shape_error e.
Proof. unfold shape_error. destruct x; simpl; raised. Qed.

Lemma index_raise x i e : index x i = Raise e -> shape_error e.
Proof.
  unfold shape_error. destruct x as [ | | | |s|l|d]; simpl;
    try destruct (String.get i s); try destruct (l !! i);
    raised.
Qed.

Lemma index_of_raise x s e : index_of x s = Raise e -> shape_error e.
Proof.
  unfold shape_error. destruct x as [ | | | |t|l|d]; simpl;
    try destruct (find s t); try destruct (position (eq_str s) l);
    raised.
Qed.

Lemma float_raise x e : float_ x = Raise e -> shape_error e.
Proof.
  unfold shape_error, float_, to_double. destruct x as [ |b|n|f|s|l|d]; simpl;
    try destruct (float_of_str s); try destruct (PrimFloat.is_infinity _);
    raised.
Qed.

Lemma close_of_kline_raise kline e :
  XueqiuMarketData.close_of_kline kline = Raise e -> shape_error e.
Proof.
  unfold XueqiuMarketData.close_of_kline.
  unfold mbind, fmap, outcome_bind, outcome_fmap. intros Hraise.
  repeat match goal with
  | Hr : Ok _ = Raise _ |- _ => discriminate Hr
  | Hr : obind _ _ = Raise _ |- _ =>
      apply obind_raise in Hr as [Hr|(? & _ & Hr)]; cbv beta in Hr
  | Hr : (if ?b then _ else _) = Raise _ |- _ => destruct b
  | Hr : py_in _ _ = Raise _ |- _ => exact (py_in_raise _ _ _ Hr)
  | Hr : getitem _ _ = Raise _ |- _ => exact (getitem_raise _ _ _ Hr)
  | Hr : get _ _ _ = Raise _ |- _ => exact (get_raise _ _ _ _ Hr)
  | Hr : len _ = Raise _ |- _ => exact (len_raise _ _ Hr)
  | Hr : index _ _ = Raise _ |- _ => exact (index_raise _ _ _ Hr)
  | Hr : index_of _ _ = Raise _ |- _ => exact (index_of_raise _ _ _ Hr)
  | Hr : float_ _ = Raise _ |- _ => exact (float_raise _ _ Hr)
  end.
Qed.

Lemma get_latest_price_run self symbol w :
  exists quoted,
    (forall price,
       quoted = Some price <-> quote_yields (send w (quote_request self symbol)) price) /\
    XueqiuMarketData.get_latest_price self symbol w =
    match quoted with
    | Some price => ([quote_request self symbol], Ok (Some price))
    | None =>
        ([quote_request self symbol;
          kline_request self symbol "day" (-1) (time_ms w)],
         XueqiuMarketData.close_of_kline
           (kline_of_reply (send w (kline_request self symbol "day" (-1) (time_ms w)))))
    end.
Proof.
  destruct (quote_price_run self symbol w) as (quoted & Hquote & Hyields).
  exists quoted. split; [exact Hyields|].
  unfold XueqiuMarketData.get_latest_price. unfold mbind, io_mbind, io_bind.
  rewrite Hquote. destruct quoted as [price|].
  - reflexivity.
  - rewrite kline_price_run. reflexivity.
Qed.

End ShapeErrors.

(** X12: no error of the transport leaves [get_latest_price]: when it
    raises, the quote request gave no price, the day-candle request was sent
    as well, and the error was raised while the candle body was read (a
    [TypeError], [ValueError], [KeyError], [IndexError], [AttributeError] or
    [OverflowError]); [get_last_price_from_xueqiu] raises that error or its
    own "no valid price" error. *)
Theorem latest_price_errors `{Runtime} (g : xueqiu_market_data.globals)
    (symbol market : string) (w : world) (e : exn) :
  let self := xueqiu_client g in
  let quote := quote_request self symbol in
  let candle := kline_request self symbol "day" (-1) (time_ms w) in
  (result (XueqiuMarketData.get_latest_price self symbol) w = Raise e ->
   shape_error e /\
   sent (XueqiuMarketData.get_latest_price self symbol) w = [quote; candle] /\
   XueqiuMarketData.close_of_kline (kline_of_reply (send w candle)) = Raise e /\
   forall price, ~ quote_yields (send w quote) price) /\
  (result (get_last_price_from_xueqiu g symbol market) w = Raise e ->
   e = no_valid_price symbol \/ shape_error e).
Proof.
  intros self quote candle.
  destruct (get_latest_price_run self symbol w) as (quoted & Hyields & Hrun).
  fold quote candle in Hrun, Hyields.
  assert (Hlatest :
            result (XueqiuMarketData.get_latest_price self symbol) w = Raise e ->
            shape_error e /\
            sent (XueqiuMarketData.get_latest_price self symbol) w = [quote; candle] /\
            XueqiuMarketData.close_of_kline (kline_of_reply (send w candle)) = Raise e /\
            forall price, ~ quote_yields (send w quote) price).
  { unfold result, sent. rewrite Hrun. destruct quoted as [price|]; [done|].
    simpl. intros Hraise. split; [by eapply close_of_kline_raise|].
    split; [done|]. split; [done|].
    intros price Hprice. by apply Hyields in Hprice. }
  split; [exact Hlatest|].
  unfold get_last_price_from_xueqiu, no_valid_price. fold self.
  unfold result in *. run_io.
  destruct (XueqiuMarketData.get_latest_price self symbol w)
    as [requests [[price|]|cause]]; simpl in *.
  - destruct (PrimFloat.leb price 0); simpl; intros [= <-]. by left.
  - intros [= <-]. by left.
  - intros [= <-]. right. by apply Hlatest.
Qed.

Lemma latest_price_errors_witness :
  sent (XueqiuMarketData.get_latest_price (H := sample_runtime)
          (xueqiu_client xueqiu_market_data.initial) "AAPL")
    (serving (JDict [("data", JDict [("item", JInt 5)])]))
  = [quote_request (xueqiu_client xueqiu_market_data.initial) "AAPL";
     kline_request (xueqiu_client xueqiu_market_data.initial) "AAPL" "day" (-1)
       1700000000000].
Proof.
  pose proof (latest_price_errors (H := sample_runtime)
                xueqiu_market_data.initial "AAPL" "US"
                (serving (JDict [("data", JDict [("item", JInt 5)])]))
                TypeError) as [Hlatest _].
  destruct (Hlatest eq_refl) as (_ & Hsent & _). exact Hsent.
Defined.

(** ** Cookies: what is stored and what goes on the wire *)

Section Stripping.







End Stripping.



Section SinglePair.

Lemma find_first c name rest :
  ~ occurs c name ->
  find (String c "") (name +:+ String c rest) = Some (String.length name).
Proof.
  induction name as [|c' name IH]; intros Hno.
  - simpl. destruct (Ascii.ascii_dec c c) as [_|Hne]; [by destruct rest|done].
  - simpl. destruct (Ascii.ascii_dec c c') as [->|Hother].
    + exfalso. apply Hno. by left.
    + rewrite IH; [done|]. intros Hin. apply Hno. by right.
Qed.

Lemma substring_whole s : String.substring 0 (String.length s) s = s.
Proof. induction s as [|c s IH]; simpl; [done|]. by rewrite IH. Qed.

Lemma substring_before name rest :
  String.substring 0 (String.length name) (name +:+ rest) = name.
Proof.
  induction name as [|c name IH]; simpl; [by destruct rest|]. by rewrite IH.
Qed.

Lemma substring_after name c rest :
  String.substring (String.length name + 1)
    (String.length (name +:+ String c rest) - (String.length name + 1))
    (name +:+ String c rest) = rest.
Proof.
  induction name as [|c' name IH]; simpl.
  - rewrite Nat.sub_0_r. apply substring_whole.
  - exact IH.
Qed.

Lemma cookie_pair_single name value :
  ~ occurs "="%char name ->
  cookie_pair (name +:+ "=" +:+ value) = Some (strip name, strip value).
Proof.
  intros Hno. unfold cookie_pair.
  change ("=" +:+ value) with (String "="%char value).
  rewrite (find_first _ _ _ Hno). simpl.
  by rewrite substring_before, substring_after.
Qed.

Lemma cookies_of_single name value :
  ~ occurs "="%char name ->
  contains "; " (name +:+ "=" +:+ value) = false ->
  contains LF (name +:+ "=" +:+ value) = false ->
  cookies_of (name +:+ "=" +:+ value) = {[ strip name := strip value ]}.
Proof.
  intros Hno Hsemi Hlf. unfold cookies_of, cookie_entries.
  rewrite Hsemi, Hlf. simpl. rewrite (cookie_pair_single _ _ Hno). simpl.
  by rewrite insert_empty.
Qed.

End SinglePair.

(** X14: for ASCII text, a cookie string that is one pair [name=value] is
    cut at its first ['=']: the session then holds, under the trimmed name,
    the trimmed value as the cookie jar stores it (the value itself, unless
    it starts and ends with a double quote, when every backslash followed by
    a double quote is deleted from it), and every other cookie as it was;
    the calls made next are made from a session that holds the pair.  So
    for the coin-market client after [set_pump_fun_cookie], and for the
    equity client after [update_cookies]. *)
Theorem single_cookie_reaches_requests (name value : string)
    (g : pump_fun_market_data.globals) (self : XueqiuMarketData.t)
    (mint symbol : string) (limit : Z) (w : world) :
  isascii name = true -> isascii value = true ->
  ~ occurs "="%char name ->
  contains "; " (name +:+ "=" +:+ value) = false ->
  contains LF (name +:+ "=" +:+ value) = false ->
  let s := name +:+ "=" +:+ value in
  let g' := set_pump_fun_cookie s g in
  let self' := XueqiuMarketData.update_cookies self s in
  let stored := set_cookie_value (strip value) in
  PumpFunMarketData.session_cookies (pump_fun_client g') =
    <[strip name := stored]>
      (PumpFunMarketData.session_cookies (pump_fun_client g)) /\
  XueqiuMarketData.session_cookies self' =
    <[strip name := stored]> (XueqiuMarketData.session_cookies self) /\
  (startswith DQUOTE (strip value) = false -> stored = strip value) /\
  Forall (fun r => cookies r !! strip name = Some stored)
    (sent (get_pump_fun_coin g' mint) w ++
     sent (get_pump_fun_coins g' limit) w ++
     sent (PumpFunMarketData.get_coin_trades (pump_fun_client g') mint limit 0) w ++
     sent (XueqiuMarketData.get_kline_data self' symbol "1d" limit) w).
Proof.
  intros _ _ Hno Hsemi Hlf s g' self' stored.
  assert (Hjar : forall jar : gmap string string,
            jar_update (cookies_of s) jar = <[strip name := stored]> jar).
  { intros jar. unfold s. rewrite (cookies_of_single _ _ Hno Hsemi Hlf).
    unfold jar_update. rewrite map_fmap_singleton.
    by rewrite insert_union_singleton_l. }
  assert (Hpump : PumpFunMarketData.session_cookies (pump_fun_client g') =
                  <[strip name := stored]>
                    (PumpFunMarketData.session_cookies (pump_fun_client g))).
  { unfold g', set_pump_fun_cookie. simpl.
    by rewrite pump_update_cookies_merge, Hjar. }
  assert (Hxueqiu : XueqiuMarketData.session_cookies self' =
                    <[strip name := stored]>
                      (XueqiuMarketData.session_cookies self)).
  { unfold self'. by rewrite xueqiu_update_cookies_merge, Hjar. }
  split; [exact Hpump|]. split; [exact Hxueqiu|]. split.
  { unfold stored, set_cookie_value. by intros ->. }
  unfold sent, get_pump_fun_coin, get_pump_fun_coins.
  rewrite get_coin_data_run, get_coins_list_run, get_coin_trades_run,
    get_kline_data_run.
  assert (Hpump_pair :
            PumpFunMarketData.session_cookies (pump_fun_client g') !! strip name
            = Some stored)
    by (rewrite Hpump; apply lookup_insert_eq).
  assert (Hxueqiu_pair :
            XueqiuMarketData.session_cookies self' !! strip name = Some stored)
    by (rewrite Hxueqiu; apply lookup_insert_eq).
  simpl. repeat (apply Forall_cons; split); try apply Forall_nil;
    first [exact Hpump_pair | exact Hxueqiu_pair | exact I].
Qed.

Lemma single_cookie_reaches_requests_witness :
  Forall (fun r => cookies r !! "token" = Some "a=b")
    (sent (get_pump_fun_coin
             (set_pump_fun_cookie " token = a=b " pump_fun_market_data.initial)
             "So1ana") offline) /\
  PumpFunMarketData.session_cookies
    (pump_fun_client
       (set_pump_fun_cookie
          ("a=" +:+ DQUOTE +:+ "x" +:+ ESCAPED_DQUOTE +:+ "y" +:+ DQUOTE)
          pump_fun_market_data.initial))
  = {[ "a" := DQUOTE +:+ "xy" +:+ DQUOTE ]}.
Proof.
  split.
  - pose proof (single_cookie_reaches_requests " token " " a=b "
                  pump_fun_market_data.initial (XueqiuMarketData.__init__ None)
                  "So1ana" "AAPL" 10 offline) as Hpair.
    destruct Hpair as (_ & _ & _ & Hsent).
    + reflexivity.
    + reflexivity.
    + simpl. intros [|[|[|[|[|[|[|[]]]]]]]]; discriminate.
    + reflexivity.
    + reflexivity.
    + apply Forall_app in Hsent as [Hcoin _]. exact Hcoin.
  - pose proof (single_cookie_reaches_requests "a"
                  (DQUOTE +:+ "x" +:+ ESCAPED_DQUOTE +:+ "y" +:+ DQUOTE)
                  pump_fun_market_data.initial (XueqiuMarketData.__init__ None)
                  "So1ana" "AAPL" 10 offline) as Hpair.
    destruct Hpair as (Hsession & _).
    + reflexivity.
    + reflexivity.
    + simpl. intros [|[]]; discriminate.
    + reflexivity.
    + reflexivity.
    + exact (eq_trans Hsession eq_refl).
Defined.

(** ** The search handler *)

Section Search.

Lemma lower_upper_ascii c : lower_ascii (upper_ascii c) = lower_ascii c.
Proof. by destruct c as [[] [] [] [] [] [] [] []]. Qed.

Lemma lower_upper s : lower (upper s) = lower s.
Proof.
  induction s as [|c s IH]; simpl; [done|]. by rewrite lower_upper_ascii, IH.
Qed.

Lemma lowered_searchable d field :
  text_or_absent d field ->
  pump_routes.lowered (JDict d) field = Ok (lower (field_text (JDict d) field)).
Proof.
  unfold text_or_absent, pump_routes.lowered, field_text. simpl.
  by destruct (assoc field d) as [[ | | | | | | ]|].
Qed.

Lemma matches_searchable q coin :
  searchable coin -> pump_routes.matches (lower q) coin = Ok (matching q coin).
Proof.
  destruct coin as [ | | | | | |d]; try done.
  intros (Hname & Hsymbol & Hdescription).
  unfold pump_routes.matches, matching.
  rewrite !lowered_searchable by done. reflexivity.
Qed.

Lemma search_loop_take q limit coins :
  Forall searchable coins ->
  forall filtered,
    (length filtered < Z.to_nat (Z.max 1 limit))%nat ->
    pump_routes.search_loop (lower q) limit coins filtered =
    Ok (filtered ++
        take (Z.to_nat (Z.max 1 limit) - length filtered)
          (List.filter (matching q) coins)).
Proof.
  induction 1 as [|coin coins Hcoin Hcoins IH]; intros filtered Hroom.
  - simpl. by rewrite take_nil, app_nil_r.
  - cbn [pump_routes.search_loop List.filter].
    rewrite (matches_searchable q coin Hcoin). simpl.
    destruct (matching q coin).
    + rewrite length_app. simpl.
      destruct (limit <=? Z.of_nat (length filtered + 1)) eqn:Hfull.
      * apply Z.leb_le in Hfull.
        replace (Z.to_nat (Z.max 1 limit) - length filtered)%nat with 1%nat by lia.
        simpl. by rewrite take_0.
      * apply Z.leb_gt in Hfull.
        rewrite IH by (rewrite length_app; simpl; lia).
        rewrite length_app. simpl. rewrite <- app_assoc. simpl.
        replace (Z.to_nat (Z.max 1 limit) - length filtered)%nat
          with (S (Z.to_nat (Z.max 1 limit) - (length filtered + 1)))%nat by lia.
        reflexivity.
    + by apply IH.
Qed.

End Search.

(** X15: for a query of ASCII text, when the listing the client hands over
    is a list of records the search can read (dictionaries whose name,
    symbol and description, where present, are ASCII strings), the handler
    of [/pump/search] returns, in their order, the first [limit] records
    (one at least) in which the query stands, letter case apart, in the
    name, the symbol or the description, with their number as [count]; the
    query and its upper-case form select the same records. *)
Theorem search_returns_first_matches (g : market_data.globals) (q : string)
    (limit : Z) (w : world) (coins : list json) :
  let client := pump_fun_client (market_data.pump g) in
  let listing :=
    PumpFunMarketData.get_coins_list client 200 0 "last_trade_timestamp" "DESC"
      false in
  let found :=
    take (Z.to_nat (Z.max 1 limit)) (List.filter (matching q) coins) in
  isascii q = true ->
  result listing w = Ok (JList coins) ->
  Forall searchable coins ->
  pump_routes.search_coins g q limit w =
    (sent listing w,
     pump_routes.Returned
       {[ "success" := JBool true;
          "data" := JList found;
          "count" := JInt (Z.of_nat (length found));
          "query" := JStr q ]}) /\
  (forall coin, matching (upper q) coin = matching q coin).
Proof.
  intros client listing found _ Hlisting Hcoins. split.
  - unfold pump_routes.search_coins, pump_routes.handle. fold client. fold listing.
    unfold result, sent in *. run_io.
    destruct (listing w) as [requests [listed|e]]; simpl in *; [|done].
    injection Hlisting as ->. simpl.
    rewrite (search_loop_take q limit coins Hcoins []) by (simpl; lia).
    simpl. rewrite Nat.sub_0_r. fold found. by rewrite !app_nil_r.
  - intros coin. unfold matching. by rewrite lower_upper.
Qed.

Lemma search_returns_first_matches_witness :
  snd (pump_routes.search_coins fresh "Moon" 20
         (serving (JList PumpFunMarketData.mock_coins))) =
  pump_routes.Returned
    {[ "success" := JBool true;
       "data" := JList [PumpFunMarketData.mock_coin
                          "22222222222222222222222222222223" "MoonDoge" "MDOGE"
                          "Going to the moon with this doge" 250000
                          1700000100 1700001100];
       "count" := JInt 1;
       "query" := JStr "Moon" ]}.
Proof.
  pose proof (search_returns_first_matches fresh "Moon" 20
                (serving (JList PumpFunMarketData.mock_coins))
                PumpFunMarketData.mock_coins eq_refl eq_refl) as Hsearch.
  destruct Hsearch as [Hfound _].
  - repeat (apply Forall_cons; split); try apply Forall_nil; done.
  - rewrite Hfound. reflexivity.
Defined.

(** ** The text parsers of the coin-market client *)

Section Replacing.

Lemma prefix_single_head c c' s :
  String.prefix (String c "") (String c' s) = bool_decide (c = c').
Proof.
  simpl. destruct (Ascii.ascii_dec c c') as [->|Hother].
  - rewrite bool_decide_eq_true_2 by done. by destruct s.
  - by rewrite bool_decide_eq_false_2.
Qed.

Lemma split_single_pieces c s :
  forall cur piece,
    ~ occurs c cur ->
    piece ∈ split_from (String c "") 0 cur s -> ~ occurs c piece.
Proof.
  induction s as [|c' s IH]; intros cur piece Hcur.
  - simpl. intros Hin. apply list_elem_of_singleton in Hin as ->. done.
  - cbn [split_from]. rewrite prefix_single_head.
    case_bool_decide as Hsame.
    + simpl. intros Hin. apply elem_of_cons in Hin as [->|Hin]; [done|].
      apply (IH "" piece); [by intros []|done].
    + apply IH. rewrite occurs_append. simpl. intros [|[|[]]]; congruence.
Qed.

Lemma join_empty_occurs d pieces :
  occurs d (join "" pieces) -> exists piece, piece ∈ pieces /\ occurs d piece.
Proof.
  induction pieces as [|piece pieces IH]; [done|].
  destruct pieces as [|next pieces].
  - simpl. intros Hin. exists piece. split; [apply list_elem_of_here|done].
  - change (join "" (piece :: next :: pieces))
      with (piece +:+ "" +:+ join "" (next :: pieces)).
    rewrite !occurs_append. intros [Hin|[[]|Hin]].
    + exists piece. split; [apply list_elem_of_here|done].
    + destruct (IH Hin) as (found & Hfound & Hd).
      exists found. split; [by apply list_elem_of_further|done].
Qed.

(** Removing a character leaves none of it and adds no other. *)
Lemma replace_single_removed c s : ~ occurs c (replace (String c "") "" s).
Proof.
  unfold replace, split. intros Hin.
  apply join_empty_occurs in Hin as (piece & Hpiece & Hin).
  by apply (split_single_pieces c s "" piece); [intros []| |].
Qed.

Lemma replace_single_occurs d c s :
  occurs d (replace (String c "") "" s) -> occurs d s.
Proof.
  unfold replace. intros Hin.
  apply join_empty_occurs in Hin as (piece & Hpiece & Hin).
  by apply (split_occurs d (String c "") s piece).
Qed.

Lemma contains_single_iff c s : contains (String c "") s = true <-> occurs c s.
Proof.
  split.
  - intros Hin. destruct (find (String c "") s) as [i|] eqn:Hfind.
    + by apply (find_single_occurs c s i).
    + unfold contains in Hin. rewrite Hfind in Hin.
      apply bool_decide_eq_true in Hin as [? ?]. done.
  - intros Hin. destruct (contains (String c "") s) eqn:Hc; [done|].
    by apply occurs_contains_single in Hc.
Qed.

End Replacing.

(** X16: [_parse_market_cap] hands [float] a text with no ['$'] and no
    [','], and with the suffix letter removed.  With an ['M'] in the text
    ([M] before [K]) the number is scaled by a million, with a ['K'] by a
    thousand, and a text [float] rejects raises [ValueError] there; without
    either letter a rejected text gives 0.0.  [_parse_percentage] drops
    ['%'] and ['+'] and never raises: a rejected text gives 0.0. *)
Theorem market_cap_text_parsed `{Runtime} (text : string) :
  let cleaned := replace "," "" (replace "$" "" (strip text)) in
  let percent := replace "+" "" (replace "%" "" (strip text)) in
  PumpFunMarketData._parse_market_cap text =
    (if contains "M" cleaned then
       match float_of_str (replace "M" "" cleaned) with
       | Some millions => Ok (millions * 1000000)%float
       | None => Raise ValueError
       end
     else if contains "K" cleaned then
       match float_of_str (replace "K" "" cleaned) with
       | Some thousands => Ok (thousands * 1000)%float
       | None => Raise ValueError
       end
     else Ok (default 0%float (float_of_str cleaned))) /\
  PumpFunMarketData._parse_percentage text =
    Ok (default 0%float (float_of_str percent)) /\
  Forall (fun c => ~ occurs c cleaned /\
                   ~ occurs c (replace "M" "" cleaned) /\
                   ~ occurs c (replace "K" "" cleaned))
    ["$"%char; ","%char] /\
  ~ occurs "M"%char (replace "M" "" cleaned) /\
  ~ occurs "K"%char (replace "K" "" cleaned) /\
  Forall (fun c => ~ occurs c percent) ["%"%char; "+"%char].
Proof.
  intros cleaned percent.
  assert (Hdollar : ~ occurs "$"%char cleaned).
  { intros Hin. apply replace_single_occurs in Hin.
    by apply replace_single_removed in Hin. }
  assert (Hcomma : ~ occurs ","%char cleaned)
    by apply replace_single_removed.
  assert (Hpercent : ~ occurs "%"%char percent).
  { intros Hin. apply replace_single_occurs in Hin.
    by apply replace_single_removed in Hin. }
  split; [|split; [|split; [|split; [|split]]]].
  - unfold PumpFunMarketData._parse_market_cap. fold cleaned. simpl.
    destruct (contains "M" cleaned).
    + by destruct (float_of_str (replace "M" "" cleaned)).
    + destruct (contains "K" cleaned).
      * by destruct (float_of_str (replace "K" "" cleaned)).
      * by destruct (float_of_str cleaned).
  - unfold PumpFunMarketData._parse_percentage. fold percent. simpl.
    by destruct (float_of_str percent).
  - repeat (apply Forall_cons; split); try (by apply Forall_nil);
      repeat split; try done; intros Hin; by apply replace_single_occurs in Hin.
  - apply replace_single_removed.
  - apply replace_single_removed.
  - repeat (apply Forall_cons; split); try (by apply Forall_nil); try done.
    apply replace_single_removed.
Qed.

Lemma market_cap_text_parsed_witness :
  PumpFunMarketData._parse_market_cap (H := sample_runtime) "$M" = Raise ValueError /\
  PumpFunMarketData._parse_market_cap (H := sample_runtime) "n/a" = Ok 0%float.
Proof.
  split.
  - pose proof (market_cap_text_parsed (H := sample_runtime) "$M") as [Hcap _].
    rewrite Hcap. reflexivity.
  - pose proof (market_cap_text_parsed (H := sample_runtime) "n/a") as [Hcap _].
    rewrite Hcap. reflexivity.
Defined.

(** ** The market tags of the coin market *)

Section Tags.

Lemma upper_ascii_P c : upper_ascii c = "P"%char -> c = "P"%char \/ c = "p"%char.
Proof.
  destruct c as [[] [] [] [] [] [] [] []]; vm_compute; intros Hc;
    first [discriminate Hc | by left | by right].
Qed.

Lemma upper_ascii_U c : upper_ascii c = "U"%char -> c = "U"%char \/ c = "u"%char.
Proof.
  destruct c as [[] [] [] [] [] [] [] []]; vm_compute; intros Hc;
    first [discriminate Hc | by left | by right].
Qed.

Lemma upper_ascii_M c : upper_ascii c = "M"%char -> c = "M"%char \/ c = "m"%char.
Proof.
  destruct c as [[] [] [] [] [] [] [] []]; vm_compute; intros Hc;
    first [discriminate Hc | by left | by right].
Qed.

Lemma upper_pump_tags market : upper market = "PUMP" <-> market ∈ pump_tags.
Proof.
  split.
  - destruct market as [|a [|b [|c [|d [|e rest]]]]]; try discriminate.
    simpl. intros [= Ha Hb Hc Hd].
    apply upper_ascii_P in Ha as [-> | ->];
      apply upper_ascii_U in Hb as [-> | ->];
      apply upper_ascii_M in Hc as [-> | ->];
      apply upper_ascii_P in Hd as [-> | ->];
      unfold pump_tags; rewrite !elem_of_cons; tauto.
  - unfold pump_tags. rewrite !elem_of_cons, elem_of_nil.
    intros Htag. repeat destruct Htag as [->|Htag]; try reflexivity; done.
Qed.

End Tags.

(** X17: the market tags that the router sends to the coin market are the
    sixteen spellings of "pump" in upper and lower case and no other: a tag
    with a blank around it or a longer one goes to the equity client.  They
    are the tags for which [get_kline_data] sends no request. *)
Theorem pump_tag_spellings `{Runtime} (g : market_data.globals)
    (symbol market period : string) (count : Z) (w : world) :
  (upper market = "PUMP" <-> market ∈ pump_tags) /\
  (sent (market_data.get_kline_data g symbol market period count) w = [] <->
   market ∈ pump_tags) /\
  Forall (fun tag => upper tag <> "PUMP") [" PUMP"; "PUMP "; "PUMPFUN"; "PUM"; ""].
Proof.
  split; [apply upper_pump_tags|]. split.
  - rewrite <- upper_pump_tags. unfold sent, market_data.get_kline_data.
    destruct (String.eqb (upper market) "PUMP") eqn:Hpump.
    + apply String.eqb_eq in Hpump. done.
    + apply String.eqb_neq in Hpump. run_io.
      rewrite get_kline_data_from_xueqiu_run. simpl.
      split; [|done]. intros Hsent. exfalso.
      destruct (truthy _); simpl in Hsent.
      * by destruct (XueqiuMarketData.parse_kline_data _) as [[|candle candles]|e].
      * done.
  - repeat (apply Forall_cons; split); try (by apply Forall_nil); discriminate.
Qed.

(** ** Null cells in candle rows *)

(** X18: a row whose timestamp cell is [null] raises [TypeError] (its
    division by 1000), and with it the whole parse raises, wherever the row
    stands among the rows; a [null] in a numeric column raises nothing: the
    field is stored as [None]. *)
Theorem null_cells_in_candle_rows `{Runtime} (column_map : gmap string nat)
    (cells : list json) (i : nat) :
  cells !! i = Some JNull ->
  (column_map !! "timestamp" = Some i ->
   XueqiuMarketData.parse_item column_map (JList cells) = Raise TypeError /\
   forall before after,
     raises (XueqiuMarketData.parse_items column_map
               (before ++ JList cells :: after))) /\
  (forall field kline_dict,
     field ∈ numeric_fields ->
     column_map !! field = Some i ->
     XueqiuMarketData.set_field column_map (JList cells) kline_dict field =
       Ok (<[field := XueqiuMarketData.Missing]> kline_dict)) /\
  (forall field candle,
     field ∈ numeric_fields ->
     column_map !! field = Some i ->
     XueqiuMarketData.parse_item column_map (JList cells) = Ok candle ->
     candle !! field = Some XueqiuMarketData.Missing).
Proof.
  intros Hcell.
  assert (Hwithin : (i <? length cells)%nat = true).
  { apply Nat.ltb_lt. apply lookup_lt_is_Some. by eexists. }
  split; [|split].
  - intros Hcolumn.
    assert (Hrow : XueqiuMarketData.parse_item column_map (JList cells)
                   = Raise TypeError).
    { unfold XueqiuMarketData.parse_item, XueqiuMarketData.set_timestamp.
      rewrite Hcolumn. simpl. run_outcome. by rewrite Hwithin, Hcell. }
    split; [exact Hrow|]. intros before after.
    induction before as [|row before IH]; simpl.
    + rewrite Hrow. done.
    + run_outcome.
      destruct (XueqiuMarketData.parse_item column_map row); [|done].
      by destruct (XueqiuMarketData.parse_items column_map
                     (before ++ JList cells :: after)).
  - intros field kline_dict _ Hcolumn. unfold XueqiuMarketData.set_field.
    rewrite Hcolumn. simpl. run_outcome. by rewrite Hwithin, Hcell.
  - intros field candle Hfield Hcolumn Hcandle.
    apply parse_item_row in Hcandle as (_ & Hnumeric & _).
    specialize (Hnumeric field Hfield). unfold cell_in, stored_as in Hnumeric.
    rewrite Hcolumn in Hnumeric. simpl in Hnumeric. by rewrite Hcell in Hnumeric.
Qed.

Lemma null_cells_in_candle_rows_witness :
  XueqiuMarketData.parse_item (H := sample_runtime)
    {[ "timestamp" := 0%nat; "close" := 1%nat ]} (JList [JNull; JFloat 42.5])
  = Raise TypeError /\
  XueqiuMarketData.set_field (H := sample_runtime)
    {[ "close" := 0%nat ]} (JList [JNull]) ∅ "close"
  = Ok (<["close" := XueqiuMarketData.Missing]> ∅).
Proof.
  split.
  - apply (null_cells_in_candle_rows (H := sample_runtime)
             {[ "timestamp" := 0%nat; "close" := 1%nat ]}
             [JNull; JFloat 42.5] 0); reflexivity.
  - apply (null_cells_in_candle_rows (H := sample_runtime)
             {[ "close" := 0%nat ]} [JNull] 0 eq_refl);
      [names_solver|reflexivity].
Defined.

(** X19: setting the same cookie string twice is setting it once, for
    [set_pump_fun_cookie], for the equity client's [update_cookies] and for
    [update_xueqiu_cookie]: the stored string and the session's cookies are
    those of the first call. *)
Theorem cookie_set_idempotent (s : string) :
  (forall g,
     set_pump_fun_cookie s (set_pump_fun_cookie s g) = set_pump_fun_cookie s g) /\
  (forall self,
     XueqiuMarketData.update_cookies (XueqiuMarketData.update_cookies self s) s =
     XueqiuMarketData.update_cookies self s) /\
  (forall g,
     update_xueqiu_cookie s (update_xueqiu_cookie s g) = update_xueqiu_cookie s g).
Proof.
  assert (Hjar : forall cookies jar : gmap string string,
            jar_update cookies (jar_update cookies jar) = jar_update cookies jar).
  { intros cookies jar. unfold jar_update.
    by rewrite map_union_assoc, map_union_idemp. }
  split; [|split].
  - intros g. unfold set_pump_fun_cookie. simpl. f_equal.
    unfold PumpFunMarketData.update_cookies.
    case_bool_decide as Hparsed; [|done]. simpl. by rewrite Hjar.
  - intros self. unfold XueqiuMarketData.update_cookies.
    case_bool_decide as Hparsed; [|done]. simpl. by rewrite Hjar.
  - intros g. unfold update_xueqiu_cookie, set_xueqiu_cookie,
      XueqiuMarketData._setup_session. simpl. by rewrite Hjar.
Qed.
